(** * mcp-gerrit: revision resolution, diff aggregation, request primitive
      and clone-URL derivation

    A shallow embedding of

    - [src/data/gerrit_api.py]           ([make_gerrit_rest_request]),
    - [src/servers/gerrit_service.py]    ([fetch_gerrit_change],
      [fetch_patchset_diff], [get_repository_path_from_change]),
    - [src/providers/gerrit_provider.py] and [src/core/gerrit_service.py]
      (the same two fetch operations behind [try ... except: raise]),

    followed by the properties of the specification that concern them.

    Conventions.  Python strings are [string] (UTF-8 bytes; the
    byte-wise order of [String.leb] is the code-point order Python
    uses).  A value decoded from JSON is a [json]; a [dict] is an
    association list in insertion order, whose keys are pairwise
    distinct in every value Python can build.  Exceptions are values of
    [exn]; code that raises returns [Err].  HTTP traffic is threaded
    through an explicit [world].  The [logger] calls of the sources are
    not represented: they write to the log only. *)

From Stdlib Require Import String Ascii List ZArith Bool Lia.
From Stdlib Require Import Sorting.Sorted Sorting.Permutation.
From Stdlib Require Import DecimalString DecimalZ.
Import ListNotations.
Local Open Scope string_scope.
Local Open Scope Z_scope.
Set Warnings "-register-all".

(** ** Python built-ins on strings and lists *)

Module Py.

(** [s.startswith(p)] *)
Fixpoint startswith (p s : string) : bool :=
  match p, s with
  | EmptyString, _ => true
  | String _ _, EmptyString => false
  | String a p', String b s' => (Ascii.eqb a b && startswith p' s')%bool
  end.

(** [s[n:]] *)
Fixpoint drop (n : nat) (s : string) : string :=
  match n, s with
  | O, _ => s
  | S _, EmptyString => EmptyString
  | S k, String _ r => drop k r
  end.

(** [sep.join(l)] *)
Definition join (sep : string) (l : list string) : string :=
  String.concat sep l.

(** [s.lstrip(c)] and [s.strip(c)] for a one-character [c]. *)
Fixpoint lstrip (c : ascii) (s : string) : string :=
  match s with
  | String a r => if Ascii.eqb a c then lstrip c r else s
  | EmptyString => EmptyString
  end.

Fixpoint rstrip (c : ascii) (s : string) : string :=
  match s with
  | EmptyString => EmptyString
  | String a r =>
      match rstrip c r with
      | EmptyString => if Ascii.eqb a c then EmptyString else String a EmptyString
      | r' => String a r'
      end
  end.

Definition strip (c : ascii) (s : string) : string := rstrip c (lstrip c s).

(** [s.split(c)]: the pieces between the occurrences of [c]; never empty. *)
Fixpoint split (c : ascii) (s : string) : list string :=
  match s with
  | EmptyString => [EmptyString]
  | String a r =>
      if Ascii.eqb a c then EmptyString :: split c r
      else match split c r with
           | p :: ps => String a p :: ps
           | [] => [String a EmptyString]
           end
  end.

(** [x in l] and [l.index(x)] on a list of strings. *)
Definition mem (x : string) (l : list string) : bool :=
  existsb (String.eqb x) l.

Fixpoint index (x : string) (l : list string) : option nat :=
  match l with
  | [] => None
  | y :: r => if String.eqb y x then Some O
              else option_map S (index x r)
  end.

(** [l[a:b]] for indices [0 <= a], [0 <= b]. *)
Definition slice {A} (a b : nat) (l : list A) : list A :=
  firstn (b - a) (skipn a l).

(** [l[-1]] of a non-empty list. *)
Definition last_item (l : list string) : option string :=
  match l with
  | [] => None
  | x :: r => Some (List.last r x)
  end.

(** [s.lower()] on ASCII letters; used only to compare with an ASCII
    constant, and no other character lowers to an ASCII letter of it. *)
Definition lower_ascii (a : ascii) : ascii :=
  let n := nat_of_ascii a in
  if (Nat.leb 65 n && Nat.leb n 90)%bool then ascii_of_nat (n + 32) else a.

Fixpoint lower (s : string) : string :=
  match s with
  | EmptyString => EmptyString
  | String a r => String (lower_ascii a) (lower r)
  end.

(** [str(z)] of an [int]. *)
Definition str_of_int (z : Z) : string :=
  NilZero.string_of_int (Z.to_int z).

(** [sorted(l)] on strings.  Python's sort is stable and compares with
    [<]; on strings, equal elements are identical, so the result is the
    one ordered rearrangement of [l], here built by insertion. *)
Fixpoint insert (x : string) (l : list string) : list string :=
  match l with
  | [] => [x]
  | y :: r => if String.leb x y then x :: l else y :: insert x r
  end.

Fixpoint sorted (l : list string) : list string :=
  match l with
  | [] => []
  | x :: r => insert x (sorted r)
  end.

(** [s.endswith(c)] for a one-character [c]. *)
Fixpoint endswith_char (c : ascii) (s : string) : bool :=
  match s with
  | EmptyString => false
  | String a EmptyString => Ascii.eqb a c
  | String _ r => endswith_char c r
  end.

(** [s[:-1]] *)
Fixpoint drop_last (s : string) : string :=
  match s with
  | EmptyString => EmptyString
  | String _ EmptyString => EmptyString
  | String a r => String a (drop_last r)
  end.

End Py.

(** ** Values, exceptions, results *)

(** What [json.loads] returns.  JSON numbers are taken to be integers:
    the change, revision, file and diff entities of the Gerrit REST API
    carry no fractional number. *)
Inductive json : Type :=
| JNull
| JBool (b : bool)
| JInt (z : Z)
| JStr (s : string)
| JArr (l : list json)
| JObj (l : list (string * json)).

(** The exception classes that occur; all derive from [Exception]. *)
Inductive exn_class : Type :=
| ValueError | PyException | AttributeError | TypeError | IndexError | KeyError
| RecursionError.

(** An exception with [str(e)] as its message. *)
Record exn : Type := Exn { exn_cls : exn_class; exn_msg : string }.

Inductive result (A : Type) : Type :=
| Ok (a : A)
| Err (e : exn).
Arguments Ok {A} a.
Arguments Err {A} e.

Definition rbind {A B} (r : result A) (k : A -> result B) : result B :=
  match r with
  | Ok a => k a
  | Err e => Err e
  end.

Declare Scope result_scope.
Delimit Scope result_scope with result.
Notation "x <- c ;; k" := (rbind c (fun x => k))
  (at level 100, c at next level, right associativity) : result_scope.

(** ** Dynamic operations on decoded values *)

(** [bool(v)] *)
Definition truthy (v : json) : bool :=
  match v with
  | JNull => false
  | JBool b => b
  | JInt z => negb (z =? 0)
  | JStr s => negb (String.eqb s "")
  | JArr l => match l with [] => false | _ => true end
  | JObj l => match l with [] => false | _ => true end
  end.

(** [bool(s)] for an [Optional[str]]. *)
Definition truthy_opt (s : option string) : bool :=
  match s with
  | Some s => negb (String.eqb s "")
  | None => false
  end.

(** [type(v).__name__] *)
Definition type_name (v : json) : string :=
  match v with
  | JNull => "NoneType"
  | JBool _ => "bool"
  | JInt _ => "int"
  | JStr _ => "str"
  | JArr _ => "list"
  | JObj _ => "dict"
  end.

(** The [AttributeError] of [v.attr] on a value without that attribute. *)
Definition attribute_error (v : json) (attr : string) : exn :=
  Exn AttributeError
      ("'" ++ type_name v ++ "' object has no attribute '" ++ attr ++ "'").

(** Lookup in a [dict]. *)
Fixpoint assoc {A} (k : string) (l : list (string * A)) : option A :=
  match l with
  | [] => None
  | (k', v) :: r => if String.eqb k' k then Some v else assoc k r
  end.

Definition keys {A} (l : list (string * A)) : list string := map fst l.
Definition values {A} (l : list (string * A)) : list A := map snd l.

(** [d[k] = v] on a [dict]: a present key keeps its place. *)
Fixpoint dict_set {A} (k : string) (v : A) (l : list (string * A))
  : list (string * A) :=
  match l with
  | [] => [(k, v)]
  | (k', v') :: r =>
      if String.eqb k' k then (k, v) :: r else (k', v') :: dict_set k v r
  end.

(** [d.get(k, default)]; [d.get(k)] is [py_get_default d k JNull]. *)
Definition py_get_default (d : json) (k : string) (default : json)
  : result json :=
  match d with
  | JObj l => Ok (match assoc k l with Some v => v | None => default end)
  | _ => Err (attribute_error d "get")
  end.

Definition py_get (d : json) (k : string) : result json :=
  py_get_default d k JNull.

(** [d.items()] *)
Definition py_items (d : json) : result (list (string * json)) :=
  match d with
  | JObj l => Ok l
  | _ => Err (attribute_error d "items")
  end.

(** ** The runtime the repository runs on *)

(** [urllib.parse.urlparse(url)]: the three components the code reads.
    [hostname] is [None] when the URL has no authority. *)
Record ParseResult : Type := {
  scheme : string;
  hostname : option string;
  path : string
}.

(** The arguments of [requests.get] that vary; the headers are constant. *)
Record request : Type := {
  req_url : string;
  req_user : string;
  req_password : string;
  req_verify : bool
}.

Record response : Type := {
  status_code : Z;
  reason : string;
  resp_url : string;
  text : string
}.

(** What [requests.get] does: it returns a response, or raises a
    [RequestException] [e] with [str(e)] and the status of [e.response]
    ([None] when the exception carries no response), or raises an
    exception of another class, as [HTTPBasicAuth] does with the
    [UnicodeEncodeError] of a user name or password outside Latin-1. *)
Inductive outcome : Type :=
| Response (r : response)
| RequestFailed (msg : string) (resp_status : option Z)
| GetRaised (e : exn).

(** How [json.loads] fails: with a [json.JSONDecodeError] [e], of which
    [msg] is [str(e)], or with an exception of another class, as it does
    with [RecursionError] on a text nested too deeply and with a plain
    [ValueError] on an integer of more digits than the interpreter
    converts. *)
Inductive loads_error : Type :=
| JSONDecodeError (msg : string)
| Raised (e : exn).

(** Library functions and the outside world.  None of them is code of
    the repository; the operations below are defined for every runtime. *)
Class Runtime : Type := {
  (** [json.loads]; [inl] is the exception it raises. *)
  json_loads : string -> loads_error + json;
  (** [repr(v)], which [str(v)] returns on a list or a dict. *)
  py_repr : json -> string;
  (** [x in c] on a [c] that is not a dict; [inl m] is a [TypeError]
      with message [m]. *)
  nondict_contains : json -> json -> string + bool;
  (** [c[x]] on a [c] that is not a dict. *)
  nondict_getitem : json -> json -> result json;
  (** [urllib.parse.quote(s, safe='')] *)
  quote : string -> string;
  (** [urllib.parse.urlparse], which raises [ValueError] on some inputs. *)
  urlparse : string -> result ParseResult;
  (** [os.getenv(name)] *)
  getenv : string -> option string;
  (** The network: every request may change the state of the world. *)
  world : Type;
  requests_get : request -> world -> outcome * world
}.

(** [GerritContext] of [src/types/gerrit_types.py]. *)
Record GerritContext : Type := {
  host : string;
  user : string;
  http_password : option string
}.

(** The MCP request context: [ctx.request_context.lifespan_context], and
    the attribute [user] that [getattr(ctx, 'user', None)] looks for. *)
Record Context : Type := {
  lifespan_context : GerritContext;
  user_attr : option string
}.

Section WithRuntime.

Context {RT : Runtime}.

(** Computations that talk to the network and may raise. *)
Definition M (A : Type) : Type := world -> result A * world.

Definition ret {A} (a : A) : M A := fun w => (Ok a, w).

Definition raise {A} (e : exn) : M A := fun w => (Err e, w).

Definition bind {A B} (m : M A) (k : A -> M B) : M B :=
  fun w => match m w with
           | (Ok a, w') => k a w'
           | (Err e, w') => (Err e, w')
           end.

Definition lift {A} (r : result A) : M A := fun w => (r, w).

(** [str(v)] *)
Definition py_str (v : json) : string :=
  match v with
  | JNull => "None"
  | JBool true => "True"
  | JBool false => "False"
  | JInt z => Py.str_of_int z
  | JStr s => s
  | JArr _ | JObj _ => py_repr v
  end.

(** [str(s)] for an [Optional[str]]. *)
Definition str_opt (s : option string) : string :=
  match s with
  | Some s => s
  | None => "None"
  end.

(** [x in c] *)
Definition py_contains (c x : json) : result bool :=
  match c with
  | JObj l =>
      match x with
      | JStr s => Ok (Py.mem s (keys l))
      | JArr _ | JObj _ =>
          Err (Exn TypeError ("unhashable type: '" ++ type_name x ++ "'"))
      | _ => Ok false
      end
  | _ => match nondict_contains c x with
         | inr b => Ok b
         | inl m => Err (Exn TypeError m)
         end
  end.

(** [c[x]] *)
Definition py_getitem (c x : json) : result json :=
  match c with
  | JObj l =>
      match x with
      | JStr s => match assoc s l with
                  | Some v => Ok v
                  | None => Err (Exn KeyError (py_repr x))
                  end
      | JArr _ | JObj _ =>
          Err (Exn TypeError ("unhashable type: '" ++ type_name x ++ "'"))
      | _ => Err (Exn KeyError (py_repr x))
      end
  | _ => nondict_getitem c x
  end.

End WithRuntime.

Declare Scope monad_scope.
Delimit Scope monad_scope with monad.
Notation "x <- c ;; k" := (bind c (fun x => k))
  (at level 100, c at next level, right associativity) : monad_scope.

(** ** [src/data/gerrit_api.py] *)

Module GerritApi.
Section WithRuntime.

Context {RT : Runtime}.

(** The anti-hijacking prefix of Gerrit's JSON bodies. *)
Definition magic_prefix : string := ")]}'".

(** [Response.raise_for_status]: the message of the [HTTPError], if any. *)
Definition raise_for_status (r : response) : option string :=
  if (400 <=? status_code r) && (status_code r <? 500) then
    Some (Py.str_of_int (status_code r) ++ " Client Error: " ++ reason r
          ++ " for url: " ++ resp_url r)
  else if (500 <=? status_code r) && (status_code r <? 600) then
    Some (Py.str_of_int (status_code r) ++ " Server Error: " ++ reason r
          ++ " for url: " ++ resp_url r)
  else None.

Definition authentication_failed : exn :=
  Exn PyException
      "Authentication failed. Please check your Gerrit HTTP password in your account settings.".

Definition request_failed (msg : string) : exn :=
  Exn PyException ("Failed to make Gerrit REST API request: " ++ msg).

Definition parse_failed (msg : string) : exn :=
  Exn PyException ("Failed to parse Gerrit response as JSON: " ++ msg).

(** Lines 50-60: strip the prefix, then decode.  The [except] of line 58
    catches [json.JSONDecodeError] only: what else [json.loads] raises
    leaves the function as it is, the handler of line 62 being for
    [RequestException]. *)
Definition parse_body (content : string) : result json :=
  let content :=
    if Py.startswith magic_prefix content then Py.drop 4 content
    else content in
  match json_loads content with
  | inr v => Ok v
  | inl (JSONDecodeError m) => Err (parse_failed m)
  | inl (Raised e) => Err e
  end.

(** Lines 43-60: what is done with a response. *)
Definition handle_response (r : response) : result json :=
  if status_code r =? 401 then Err authentication_failed
  else match raise_for_status r with
       | Some m => Err (request_failed m)
       | None => parse_body (text r)
       end.

(** The URL a call requests (lines 22-29). *)
Definition request_url (gerrit_ctx : GerritContext) (endpoint : string)
  : string :=
  let endpoint :=
    if Py.startswith "a/" endpoint then endpoint else "a/" ++ endpoint in
  if Py.startswith "http://" (host gerrit_ctx)
     || Py.startswith "https://" (host gerrit_ctx)
  then host gerrit_ctx ++ "/" ++ endpoint
  else "https://" ++ host gerrit_ctx ++ "/" ++ endpoint.

(** [os.getenv("GERRIT_VERIFY_SSL", "True").lower() != "false"] *)
Definition verify_ssl : bool :=
  negb (String.eqb
          (Py.lower (match getenv "GERRIT_VERIFY_SSL" with
                     | Some v => v
                     | None => "True"
                     end))
          "false").

(** The error of line 19. *)
Definition password_not_set : exn :=
  Exn ValueError
      "HTTP password not set. Please set GERRIT_HTTP_PASSWORD in your environment.".

Definition make_gerrit_rest_request (ctx : Context) (endpoint : string)
  : M json :=
  let gerrit_ctx := lifespan_context ctx in
  match http_password gerrit_ctx with
  | Some password =>
      if String.eqb password "" then raise password_not_set
      else
        fun w =>
          match requests_get
                  {| req_url := request_url gerrit_ctx endpoint;
                     req_user := user gerrit_ctx;
                     req_password := password;
                     req_verify := verify_ssl |} w with
          | (Response r, w') => (handle_response r, w')
          | (RequestFailed msg (Some _), w') => (Err (request_failed msg), w')
          | (RequestFailed msg None, w') =>
              (* the handler reads [e.response.status_code] *)
              (Err (attribute_error JNull "status_code"), w')
          | (GetRaised e, w') =>
              (* not a [RequestException]: no handler *)
              (Err e, w')
          end
  | None => raise password_not_set
  end.

End WithRuntime.
End GerritApi.

(** [try: m except Exception as e: h e] *)
Definition try_except {RT : Runtime} {A} (m : M A) (h : exn -> M A) : M A :=
  fun w => match m w with
           | (Ok a, w') => (Ok a, w')
           | (Err e, w') => h e w'
           end.

(** ** [src/servers/gerrit_service.py] *)

Module GerritService.

(** One element of ["files"] in the result of [fetch_gerrit_change]. *)
Record file_data : Type := {
  fd_path : string;
  fd_status : json;
  fd_lines_inserted : json;
  fd_lines_deleted : json;
  fd_size_delta : json;
  fd_diff : json
}.

(** The result of [fetch_gerrit_change]. *)
Record change_result : Type := {
  cr_change_info : json;
  cr_project : json;
  cr_revision : json;
  cr_patchset : json;
  cr_files : list file_data
}.

(** One value of ["files"] in the result of [fetch_patchset_diff]. *)
Record diff_entry : Type := {
  de_status : json;
  de_lines_inserted : json;
  de_lines_deleted : json;
  de_size_delta : json;
  de_diff : json
}.

(** The result of [fetch_patchset_diff]. *)
Record diff_result : Type := {
  dr_base_revision : string;
  dr_target_revision : string;
  dr_base_patchset : string;
  dr_target_patchset : string;
  dr_files : list (string * diff_entry)
}.

Definition COMMIT_MSG : string := "/COMMIT_MSG".

Section WithRuntime.

Context {RT : Runtime}.

Import GerritApi.

(** *** Revision resolution (lines 101-117) *)

(** Lines 105-108: the first revision whose [_number] prints as the
    requested patchset number; the loop stops there. *)
Fixpoint scan_revisions (items : list (string * json)) (n : string)
  : result json :=
  match items with
  | [] => Ok JNull
  | (rev, rev_info) :: rest =>
      (num <- py_get rev_info "_number" ;;
       if String.eqb (py_str num) n then Ok (JStr rev)
       else scan_revisions rest n)%result
  end.

(** [[str(info.get("_number")) for info in revisions.values()]] *)
Fixpoint patchset_numbers (items : list (string * json))
  : result (list string) :=
  match items with
  | [] => Ok []
  | (_, info) :: rest =>
      (num <- py_get info "_number" ;;
       nums <- patchset_numbers rest ;;
       Ok (py_str num :: nums))%result
  end.

(** Lines 110 and 181. *)
Definition available_patchsets (items : list (string * json))
  : result (list string) :=
  (nums <- patchset_numbers items ;; Ok (Py.sorted nums))%result.

(** The error of line 112. *)
Definition patchset_not_found (patchset_number : option string)
           (available : list string) : exn :=
  Exn ValueError ("Patchset " ++ str_opt patchset_number
                  ++ " not found. Available patchsets: "
                  ++ Py.join ", " available).

(** The error of line 117. *)
Definition revision_not_found : exn :=
  Exn ValueError "Revision information not found".

(** Lines 101-117: the revisions of the change and the revision to show. *)
Definition resolve_revision (change_info : json)
           (patchset_number : option string) : result (json * json) :=
  (current_revision <- py_get change_info "current_revision" ;;
   revisions <- py_get_default change_info "revisions" (JObj []) ;;
   target_revision <-
     (if truthy_opt patchset_number then
        items <- py_items revisions ;;
        target_revision <- scan_revisions items (str_opt patchset_number) ;;
        if negb (truthy target_revision) then
          available <- available_patchsets items ;;
          Err (patchset_not_found patchset_number available)
        else Ok target_revision
      else Ok current_revision) ;;
   if negb (truthy target_revision) then Err revision_not_found
   else
     present <- py_contains revisions target_revision ;;
     if negb present then Err revision_not_found
     else Ok (revisions, target_revision))%result.

(** *** [fetch_gerrit_change] *)

Definition change_endpoint (change_id : string) : string :=
  "a/changes/" ++ change_id ++
  "/detail?o=CURRENT_REVISION&o=CURRENT_COMMIT&o=MESSAGES&o=DETAILED_LABELS&o=DETAILED_ACCOUNTS&o=ALL_REVISIONS&o=ALL_COMMITS&o=ALL_FILES&o=COMMIT_FOOTERS".

(** Lines 126-133. *)
Definition make_file_data (file_path : string) (file_info diff_info : json)
  : result file_data :=
  (status <- py_get_default file_info "status" (JStr "MODIFIED") ;;
   lines_inserted <- py_get_default file_info "lines_inserted" (JInt 0) ;;
   lines_deleted <- py_get_default file_info "lines_deleted" (JInt 0) ;;
   size_delta <- py_get_default file_info "size_delta" (JInt 0) ;;
   Ok {| fd_path := file_path;
         fd_status := status;
         fd_lines_inserted := lines_inserted;
         fd_lines_deleted := lines_deleted;
         fd_size_delta := size_delta;
         fd_diff := diff_info |})%result.

(** Lines 120-134: the loop over the files of the revision. *)
Fixpoint process_files (ctx : Context) (change_id : string)
         (target_revision : json) (items : list (string * json))
         (processed_files : list file_data) : M (list file_data) :=
  match items with
  | [] => ret processed_files
  | (file_path, file_info) :: rest =>
      if String.eqb file_path COMMIT_MSG then
        process_files ctx change_id target_revision rest processed_files
      else
        (diff_info <- make_gerrit_rest_request ctx
                        ("a/changes/" ++ change_id ++ "/revisions/"
                         ++ py_str target_revision ++ "/files/"
                         ++ quote file_path ++ "/diff") ;;
         file_data <- lift (make_file_data file_path file_info diff_info) ;;
         process_files ctx change_id target_revision rest
                       (processed_files ++ [file_data]))%monad
  end.

Definition fetch_gerrit_change (ctx : Context) (change_id : string)
           (patchset_number : option string) : M change_result :=
  (change_info <- make_gerrit_rest_request ctx (change_endpoint change_id) ;;
   if negb (truthy change_info) then
     raise (Exn ValueError ("Change " ++ change_id ++ " not found"))
   else
     project <- lift (py_get change_info "project") ;;
     if negb (truthy project) then
       raise (Exn ValueError "Project information not found in change")
     else
       resolved <- lift (resolve_revision change_info patchset_number) ;;
       let '(revisions, target_revision) := resolved in
       revision_info <- lift (py_getitem revisions target_revision) ;;
       files <- lift (files <- py_get_default revision_info "files" (JObj []) ;;
                      py_items files)%result ;;
       processed_files <-
         process_files ctx change_id target_revision files [] ;;
       ret {| cr_change_info := change_info;
              cr_project := project;
              cr_revision := target_revision;
              cr_patchset := revision_info;
              cr_files := processed_files |})%monad.

(** *** [fetch_patchset_diff] *)

(** Lines 175-179: the loop has no [break]; the last match is kept. *)
Fixpoint scan_base_target (items : list (string * json))
         (base_patchset target_patchset : string)
         (base_revision target_revision : option string)
  : result (option string * option string) :=
  match items with
  | [] => Ok (base_revision, target_revision)
  | (rev, rev_info) :: rest =>
      (num <- py_get rev_info "_number" ;;
       let base_revision :=
         if String.eqb (py_str num) base_patchset then Some rev
         else base_revision in
       let target_revision :=
         if String.eqb (py_str num) target_patchset then Some rev
         else target_revision in
       scan_base_target rest base_patchset target_patchset
                        base_revision target_revision)%result
  end.

(** The error of line 183. *)
Definition patchsets_not_found (available : list string) : exn :=
  Exn ValueError ("Patchset(s) not found. Available patchsets: "
                  ++ Py.join ", " available).

(** The query string of lines 185-186 and 195-196. *)
Definition base_query (base_revision : option string) : string :=
  if truthy_opt base_revision then "?base=" ++ str_opt base_revision
  else "".

(** Lines 198-204. *)
Definition make_diff_entry (file_info diff_info : json) : result diff_entry :=
  (status <- py_get_default file_info "status" (JStr "MODIFIED") ;;
   lines_inserted <- py_get_default file_info "lines_inserted" (JInt 0) ;;
   lines_deleted <- py_get_default file_info "lines_deleted" (JInt 0) ;;
   size_delta <- py_get_default file_info "size_delta" (JInt 0) ;;
   Ok {| de_status := status;
         de_lines_inserted := lines_inserted;
         de_lines_deleted := lines_deleted;
         de_size_delta := size_delta;
         de_diff := diff_info |})%result.

(** [v != "SAME"] *)
Definition not_same (v : json) : bool :=
  match v with
  | JStr s => negb (String.eqb s "SAME")
  | _ => true
  end.

(** Lines 189-204: the loop over the files that differ from the base. *)
Fixpoint changed_files_loop (ctx : Context) (change_id : string)
         (target_revision base_revision : option string)
         (items : list (string * json))
         (changed_files : list (string * diff_entry))
  : M (list (string * diff_entry)) :=
  match items with
  | [] => ret changed_files
  | (fpath, file_info) :: rest =>
      if String.eqb fpath COMMIT_MSG then
        changed_files_loop ctx change_id target_revision base_revision
                           rest changed_files
      else
        (status <- lift (py_get file_info "status") ;;
         if not_same status then
           diff_info <- make_gerrit_rest_request ctx
                          ("a/changes/" ++ change_id ++ "/revisions/"
                           ++ str_opt target_revision ++ "/files/"
                           ++ quote fpath ++ "/diff"
                           ++ base_query base_revision) ;;
           entry <- lift (make_diff_entry file_info diff_info) ;;
           changed_files_loop ctx change_id target_revision base_revision
                              rest (dict_set fpath entry changed_files)
         else
           changed_files_loop ctx change_id target_revision base_revision
                              rest changed_files)%monad
  end.

(** The endpoint of lines 184-186. *)
Definition files_endpoint (change_id : string)
           (target_revision base_revision : option string) : string :=
  "a/changes/" ++ change_id ++ "/revisions/" ++ str_opt target_revision
  ++ "/files" ++ base_query base_revision.

Definition fetch_patchset_diff (ctx : Context) (change_id : string)
           (base_patchset target_patchset : string)
           (file_path : option string) : M diff_result :=
  (change_info <- make_gerrit_rest_request ctx
                    ("a/changes/" ++ change_id
                     ++ "/detail?o=ALL_REVISIONS&o=ALL_FILES") ;;
   if negb (truthy change_info) then
     raise (Exn ValueError ("Change " ++ change_id ++ " not found"))
   else
     revisions <- lift (py_get_default change_info "revisions" (JObj [])) ;;
     items <- lift (py_items revisions) ;;
     found <- lift (scan_base_target items base_patchset target_patchset
                                     None None) ;;
     let '(base_revision, target_revision) := found in
     if negb (truthy_opt base_revision) || negb (truthy_opt target_revision)
     then
       available <- lift (available_patchsets items) ;;
       raise (patchsets_not_found available)
     else
       files_diff <- make_gerrit_rest_request ctx
                       (files_endpoint change_id target_revision
                                       base_revision) ;;
       files <- lift (py_items files_diff) ;;
       changed_files <-
         changed_files_loop ctx change_id target_revision base_revision
                            files [] ;;
       ret {| dr_base_revision := str_opt base_revision;
              dr_target_revision := str_opt target_revision;
              dr_base_patchset := base_patchset;
              dr_target_patchset := target_patchset;
              dr_files := changed_files |})%monad.

(** *** [get_repository_path_from_change] *)

(** Line 241. *)
Definition plus_index (path_parts : list string) : Z :=
  if Py.mem "+" path_parts then
    match Py.index "+" path_parts with
    | Some k => Z.of_nat k
    | None => -1
    end
  else -1.

(** [l[i]] for [0 <= i]. *)
Definition list_getitem (l : list string) (i : Z) : result string :=
  match nth_error l (Z.to_nat i) with
  | Some x => Ok x
  | None => Err (Exn IndexError "list index out of range")
  end.

(** Line 251. *)
Definition acting_user (ctx : Context) : string :=
  match user_attr ctx with
  | Some u => if String.eqb u "" then
                match getenv "GERRIT_USER" with Some v => v | None => "" end
              else u
  | None => match getenv "GERRIT_USER" with Some v => v | None => "" end
  end.

(** [f"{user}@" if user else ""] *)
Definition user_prefix (user : string) : string :=
  if String.eqb user "" then "" else user ++ "@".

(** Lines 254-259. *)
Definition full_clone_url (clone_url_type protocol : string)
           (host : option string) (user project : string) : string :=
  if String.eqb clone_url_type "ssh" then
    "ssh://" ++ user_prefix user ++ str_opt host ++ ":29418/"
    ++ project ++ ".git"
  else
    protocol ++ "://" ++ user_prefix user ++ str_opt host ++ "/a/"
    ++ project ++ ".git".

(** Lines 237-263: the body of the [try]. *)
Definition derive_clone_url (ctx : Context) (change_url : string)
           (clone_url_type : string) : M string :=
  (parsed <- lift (urlparse change_url) ;;
   let protocol := scheme parsed in
   let host := hostname parsed in
   let path_parts := Py.split "/" (Py.strip "/" (path parsed)) in
   let plus_index := plus_index path_parts in
   project <-
     (if 1 <? plus_index then
        let project :=
          Py.join "/" (Py.slice 1 (Z.to_nat plus_index) path_parts) in
        change_id <- lift (list_getitem path_parts (plus_index + 1)) ;;
        ret project
      else
        change_id <- lift (match Py.last_item path_parts with
                           | Some x => Ok x
                           | None => Err (Exn IndexError
                                              "list index out of range")
                           end) ;;
        change_info <- fetch_gerrit_change ctx change_id None ;;
        ret (py_str (cr_project change_info))) ;;
   let user := acting_user ctx in
   ret (full_clone_url clone_url_type protocol host user project))%monad.

(** The value of ["full_clone_url"] in the returned dict. *)
Definition get_repository_path_from_change (ctx : Context)
           (change_url : string) (clone_url_type : string) : M string :=
  try_except (derive_clone_url ctx change_url clone_url_type)
    (fun e => raise (Exn ValueError
                         ("Failed to extract repository path: "
                          ++ exn_msg e))).

End WithRuntime.
End GerritService.

(** ** [src/providers/gerrit_provider.py] and [src/core/gerrit_service.py] *)

(** [GerritProvider.fetch_change] and [GerritProvider.fetch_patchset_diff]
    repeat the statements of the two server functions inside
    [try: ... except Exception as e: raise]. *)
Module GerritProvider.
Section WithRuntime.

Context {RT : Runtime}.

Definition fetch_change (ctx : Context) (change_id : string)
           (patchset_number : option string)
  : M GerritService.change_result :=
  try_except (GerritService.fetch_gerrit_change ctx change_id patchset_number)
             (fun e => raise e).

Definition fetch_patchset_diff (ctx : Context) (change_id : string)
           (base_patchset target_patchset : string)
           (file_path : option string) : M GerritService.diff_result :=
  try_except (GerritService.fetch_patchset_diff ctx change_id base_patchset
                                                target_patchset file_path)
             (fun e => raise e).

End WithRuntime.
End GerritProvider.

(** [GerritService] of [src/core/gerrit_service.py] delegates to a provider,
    again inside [try: ... except Exception as e: raise]. *)
Module CoreService.
Section WithRuntime.

Context {RT : Runtime}.

Definition fetch_change (ctx : Context) (change_id : string)
           (patchset_number : option string)
  : M GerritService.change_result :=
  try_except (GerritProvider.fetch_change ctx change_id patchset_number)
             (fun e => raise e).

Definition fetch_patchset_diff (ctx : Context) (change_id : string)
           (base_patchset target_patchset : string)
           (file_path : option string) : M GerritService.diff_result :=
  try_except (GerritProvider.fetch_patchset_diff ctx change_id base_patchset
                                                 target_patchset file_path)
             (fun e => raise e).

End WithRuntime.
End CoreService.

(** ** A reference runtime

    An instance of [Runtime] on which the operations run: a decoder for
    JSON texts without fractions and escapes, with the limits an
    interpreter starts with, [quote] as percent-encoding,
    [urlparse] for URLs of the shape [scheme://authority/path?query#frag],
    and a world that records the requests sent and answers by URL.  The
    examples and counterexamples below are evaluated on it. *)

Module Reference.

Definition dquote : ascii := ascii_of_nat 34.

Definition is_ws (a : ascii) : bool :=
  let n := nat_of_ascii a in
  (Nat.eqb n 32 || Nat.eqb n 9 || Nat.eqb n 10 || Nat.eqb n 13)%bool.

Definition is_digit (a : ascii) : bool :=
  let n := nat_of_ascii a in (Nat.leb 48 n && Nat.leb n 57)%bool.

Fixpoint skip_ws (s : string) : string :=
  match s with
  | String a r => if is_ws a then skip_ws r else s
  | EmptyString => EmptyString
  end.

(** The characters of a string literal up to its closing quote. *)
Fixpoint read_string (s : string) : option (string * string) :=
  match s with
  | EmptyString => None
  | String a r =>
      if Ascii.eqb a dquote then Some (EmptyString, r)
      else if Ascii.eqb a "\" then None
      else match read_string r with
           | Some (body, rest) => Some (String a body, rest)
           | None => None
           end
  end.

(** The value of a run of digits, their number, and the rest. *)
Fixpoint read_digits (s : string) (acc : Z) (n : nat) : Z * nat * string :=
  match s with
  | String a r =>
      if is_digit a
      then read_digits r (10 * acc + Z.of_nat (nat_of_ascii a - 48)) (S n)
      else (acc, n, s)
  | EmptyString => (acc, n, s)
  end.

Definition starts_fraction (s : string) : bool :=
  match s with
  | String a _ => (Ascii.eqb a "." || Ascii.eqb a "e" || Ascii.eqb a "E")%bool
  | EmptyString => false
  end.

(** What scanning a prefix of a text gives: a value and the rest of the
    text, no value, or an exception that is not a [JSONDecodeError]. *)
Inductive scan (A : Type) : Type :=
| Scanned (a : A) (rest : string)
| Malformed
| Raises (e : exn).
Arguments Scanned {A} a rest.
Arguments Malformed {A}.
Arguments Raises {A} e.

(** [sys.get_int_max_str_digits()], as the interpreter starts. *)
Definition int_max_str_digits : nat := 4300.

(** The error of [int(s)] on more digits than that. *)
Definition int_too_long (digits : nat) : exn :=
  Exn ValueError
      ("Exceeds the limit (4300 digits) for integer string conversion: value has "
       ++ Py.str_of_int (Z.of_nat digits)
       ++ " digits; use sys.set_int_max_str_digits() to increase the limit").

(** An integer literal is converted as soon as it is scanned. *)
Definition read_integer (negative : bool) (s : string) : scan json :=
  let '(z, digits, rest) := read_digits s 0 0 in
  if starts_fraction rest then Malformed
  else if Nat.ltb int_max_str_digits digits then Raises (int_too_long digits)
  else Scanned (JInt (if negative then - z else z)) rest.

Definition read_number (s : string) : scan json :=
  match s with
  | String "-" (String d r) =>
      if is_digit d then read_integer true (String d r) else Malformed
  | String d r =>
      if is_digit d then read_integer false (String d r) else Malformed
  | EmptyString => Malformed
  end.

(** The containers that may be open at once.  The decoder enters a
    recursive call for every array and object; with the recursion limit
    of 1000 an interpreter starts with, a call of [json.loads] from the
    top level fails at the 995th; from a deeper call stack it fails
    earlier. *)
Definition max_nesting : nat := 994.

Definition too_deep (container : string) : exn :=
  Exn RecursionError
      ("maximum recursion depth exceeded while decoding a JSON " ++ container
       ++ " from a unicode string").

Section Containers.

Variable read_value : string -> scan json.

(** The elements of an array after its first. *)
Fixpoint read_elements (fuel : nat) (s : string) (acc : list json)
  : scan json :=
  match fuel with
  | O => Malformed
  | S fuel =>
      match skip_ws s with
      | String "]" r => Scanned (JArr acc) r
      | String "," r =>
          match read_value r with
          | Scanned v rest => read_elements fuel rest (acc ++ [v])
          | Malformed => Malformed
          | Raises e => Raises e
          end
      | _ => Malformed
      end
  end.

Definition read_member (s : string) : scan (string * json) :=
  match skip_ws s with
  | String a r =>
      if Ascii.eqb a dquote then
        match read_string r with
        | Some (k, rest) =>
            match skip_ws rest with
            | String ":" rest' =>
                match read_value rest' with
                | Scanned v rest'' => Scanned (k, v) rest''
                | Malformed => Malformed
                | Raises e => Raises e
                end
            | _ => Malformed
            end
        | None => Malformed
        end
      else Malformed
  | EmptyString => Malformed
  end.

(** The members of an object after its first; a repeated key keeps its
    place and takes the later value, as in a Python dict. *)
Fixpoint read_members (fuel : nat) (s : string) (acc : list (string * json))
  : scan json :=
  match fuel with
  | O => Malformed
  | S fuel =>
      match skip_ws s with
      | String "}" r => Scanned (JObj acc) r
      | String "," r =>
          match read_member r with
          | Scanned (k, v) rest => read_members fuel rest (dict_set k v acc)
          | Malformed => Malformed
          | Raises e => Raises e
          end
      | _ => Malformed
      end
  end.

End Containers.

(** A value at the start of [s], with room for [depth] more containers
    around the arrays and objects inside it. *)
Fixpoint read_value (depth : nat) (s : string) : scan json :=
  match skip_ws s with
  | String "{" r =>
      match depth with
      | O => Raises (too_deep "object")
      | S depth =>
          match skip_ws r with
          | String "}" r' => Scanned (JObj []) r'
          | _ =>
              match read_member (read_value depth) r with
              | Scanned (k, v) rest =>
                  read_members (read_value depth) (String.length r) rest
                               [(k, v)]
              | Malformed => Malformed
              | Raises e => Raises e
              end
          end
      end
  | String "[" r =>
      match depth with
      | O => Raises (too_deep "array")
      | S depth =>
          match skip_ws r with
          | String "]" r' => Scanned (JArr []) r'
          | _ =>
              match read_value depth r with
              | Scanned v rest =>
                  read_elements (read_value depth) (String.length r) rest [v]
              | Malformed => Malformed
              | Raises e => Raises e
              end
          end
      end
  | String "t" (String "r" (String "u" (String "e" r))) =>
      Scanned (JBool true) r
  | String "f" (String "a" (String "l" (String "s" (String "e" r)))) =>
      Scanned (JBool false) r
  | String "n" (String "u" (String "l" (String "l" r))) =>
      Scanned JNull r
  | String a r =>
      if Ascii.eqb a dquote then
        match read_string r with
        | Some (body, rest) => Scanned (JStr body) rest
        | None => Malformed
        end
      else read_number (String a r)
  | EmptyString => Malformed
  end.

Definition json_loads (s : string) : loads_error + json :=
  match read_value max_nesting s with
  | Scanned v rest =>
      match skip_ws rest with
      | EmptyString => inr v
      | _ => inl (JSONDecodeError "Extra data")
      end
  | Malformed => inl (JSONDecodeError "Expecting value")
  | Raises e => inl (Raised e)
  end.

(** The inverse direction, to write bodies down. *)
Fixpoint json_dumps (v : json) : string :=
  match v with
  | JNull => "null"
  | JBool true => "true"
  | JBool false => "false"
  | JInt z => Py.str_of_int z
  | JStr s => String dquote (s ++ String dquote EmptyString)
  | JArr l =>
      "[" ++ Py.join ", " (map json_dumps l) ++ "]"
  | JObj l =>
      "{" ++ Py.join ", "
               (map (fun kv => String dquote (fst kv ++ String dquote ": ")
                               ++ json_dumps (snd kv)) l)
          ++ "}"
  end.

(** [repr] of values whose strings need no escape. *)
Fixpoint py_repr (v : json) : string :=
  match v with
  | JNull => "None"
  | JBool true => "True"
  | JBool false => "False"
  | JInt z => Py.str_of_int z
  | JStr s => "'" ++ s ++ "'"
  | JArr l => "[" ++ Py.join ", " (map py_repr l) ++ "]"
  | JObj l =>
      "{" ++ Py.join ", "
               (map (fun kv => "'" ++ fst kv ++ "': " ++ py_repr (snd kv)) l)
          ++ "}"
  end.

Definition hex_digit (n : nat) : ascii :=
  if Nat.ltb n 10 then ascii_of_nat (48 + n) else ascii_of_nat (55 + n).

Definition is_unreserved (a : ascii) : bool :=
  let n := nat_of_ascii a in
  ((Nat.leb 65 n && Nat.leb n 90) || (Nat.leb 97 n && Nat.leb n 122)
   || is_digit a || Ascii.eqb a "_" || Ascii.eqb a "." || Ascii.eqb a "-"
   || Ascii.eqb a "~")%bool.

Fixpoint quote (s : string) : string :=
  match s with
  | EmptyString => EmptyString
  | String a r =>
      if is_unreserved a then String a (quote r)
      else let n := nat_of_ascii a in
           String "%" (String (hex_digit (n / 16))
                              (String (hex_digit (n mod 16)) (quote r)))
  end.

(** The part of [s] before the first character that satisfies [stop], and
    the rest. *)
Fixpoint break_at (stop : ascii -> bool) (s : string) : string * string :=
  match s with
  | EmptyString => (EmptyString, EmptyString)
  | String a r =>
      if stop a then (EmptyString, s)
      else let '(p, q) := break_at stop r in (String a p, q)
  end.

(** The part after the last [@] of an authority. *)
Fixpoint after_last_at (s : string) : string :=
  match s with
  | EmptyString => EmptyString
  | String a r =>
      if Py.mem "@" (map (fun c => String c EmptyString)
                         (list_ascii_of_string r))
      then after_last_at r
      else if Ascii.eqb a "@" then r else s
  end.

Definition urlparse (url : string) : result ParseResult :=
  let '(sch, rest) := break_at (fun a => Ascii.eqb a ":") url in
  match rest with
  | String ":" (String "/" (String "/" r)) =>
      let '(netloc, tail) :=
        break_at (fun a => (Ascii.eqb a "/" || Ascii.eqb a "?"
                            || Ascii.eqb a "#")%bool) r in
      let '(p, _) :=
        break_at (fun a => (Ascii.eqb a "?" || Ascii.eqb a "#")%bool) tail in
      let '(h, _) :=
        break_at (fun a => Ascii.eqb a ":") (after_last_at netloc) in
      Ok {| scheme := Py.lower sch;
            hostname := if String.eqb h "" then None else Some (Py.lower h);
            path := p |}
  | _ =>
      let '(p, _) :=
        break_at (fun a => (Ascii.eqb a "?" || Ascii.eqb a "#")%bool) url in
      Ok {| scheme := ""; hostname := None; path := p |}
  end.

(** A runtime with the process environment [environ] and a backend that
    answers every URL by [server]; its world is the list of the requests
    sent so far. *)
Definition runtime (environ : string -> option string)
           (server : string -> outcome) : Runtime :=
  Build_Runtime
    json_loads
    py_repr
    (fun c _ => inl ("argument of type '" ++ type_name c
                     ++ "' is not iterable"))
    (fun c _ => Err (Exn TypeError ("'" ++ type_name c
                                    ++ "' object is not subscriptable")))
    quote
    urlparse
    environ
    (list request)
    (fun r w => (server (req_url r), (w ++ [r])%list)).

End Reference.

(** ** Vocabulary of the statements *)

(** A JSON object, the shape of a ChangeDetail, a RevisionInfo and a
    FileInfo. *)
Definition is_object (v : json) : bool :=
  match v with
  | JObj _ => true
  | _ => false
  end.

(** The revision [info] carries a sequence number that prints as [n]. *)
Definition number_matches {RT : Runtime} (n : string) (info : json) : bool :=
  match py_get info "_number" with
  | Ok num => String.eqb (py_str num) n
  | Err _ => false
  end.

(** The printed sequence number of a revision. *)
Definition number_string {RT : Runtime} (info : json) : string :=
  match py_get info "_number" with
  | Ok num => py_str num
  | Err _ => ""
  end.

(** The order of [sorted] on strings. *)
Definition str_le (a b : string) : Prop := String.leb a b = true.

(** ** Example data *)

Module Examples.

(** A runtime without network: every request fails to connect. *)
Definition offline : Runtime :=
  Reference.runtime (fun _ => None) (fun _ => RequestFailed "offline" None).

Definition revision (number : Z) (files : list (string * json)) : json :=
  JObj [("_number", JInt number); ("files", JObj files)].

(** Change 500 of the specification: [r1] is patchset 1, [r2] is
    patchset 2 and current. *)
Definition files_r1 : list (string * json) :=
  [("/COMMIT_MSG", JObj [("status", JStr "A")]);
   ("a.txt", JObj [("lines_inserted", JInt 3)])].

Definition files_r2 : list (string * json) :=
  [("/COMMIT_MSG", JObj [("status", JStr "A")]);
   ("a.txt", JObj [("lines_inserted", JInt 4)]);
   ("b c.txt", JObj [("status", JStr "A")])].

Definition revisions_500 : list (string * json) :=
  [("r1", revision 1 files_r1); ("r2", revision 2 files_r2)].

Definition change_500 : json :=
  JObj [("project", JStr "proj/sub");
        ("current_revision", JStr "r2");
        ("revisions", JObj revisions_500)].

(** A change whose [current_revision] names no entry of [revisions]. *)
Definition change_orphan : json :=
  JObj [("project", JStr "p");
        ("current_revision", JStr "r9");
        ("revisions", JObj [("r1", revision 1 [])])].

(** A change in which two revisions carry the number 2. *)
Definition revisions_tie : list (string * json) :=
  [("ra", revision 2 []); ("rb", revision 2 [])].

Definition change_tie : json :=
  JObj [("project", JStr "p");
        ("current_revision", JStr "rb");
        ("revisions", JObj revisions_tie)].

(** A change with the patchsets 2 and 10. *)
Definition change_ten : json :=
  JObj [("project", JStr "p");
        ("current_revision", JStr "r10");
        ("revisions", JObj [("r2", revision 2 []); ("r10", revision 10 [])])].

(** A change whose only revision has the empty string as its id. *)
Definition change_empty_id : json :=
  JObj [("project", JStr "p");
        ("current_revision", JStr "");
        ("revisions", JObj [("", revision 1 [])])].

(** The session of the examples. *)
Definition gerrit_ctx : GerritContext :=
  {| host := "host"; user := "alice"; http_password := Some "secret" |}.

Definition ctx : Context :=
  {| lifespan_context := gerrit_ctx; user_attr := None |}.

Definition has (sub s : string) : bool :=
  match String.index 0 sub s with
  | Some _ => true
  | None => false
  end.

Definition ok_response (url body : string) : outcome :=
  Response {| status_code := 200; reason := "OK"; resp_url := url;
              text := body |}.

(** The diff of a file, as far as the examples care. *)
Definition diff_blob : json :=
  JObj [("change_type", JStr "MODIFIED"); ("content", JArr [])].

(** The files of patchset 2 relative to patchset 1. *)
Definition files_1_2 : list (string * json) :=
  [("/COMMIT_MSG", JObj [("status", JStr "M")]);
   ("a.txt", JObj [("lines_inserted", JInt 1)]);
   ("b c.txt", JObj [("status", JStr "A")]);
   ("same.txt", JObj [("status", JStr "SAME")])].

(** A backend that answers every change lookup with change 500. *)
Definition gerrit_server (url : string) : outcome :=
  if has "/diff" url then
    ok_response url (GerritApi.magic_prefix
                     ++ Reference.json_dumps diff_blob)
  else if has "/files" url then
    ok_response url (GerritApi.magic_prefix
                     ++ Reference.json_dumps (JObj files_1_2))
  else if has "/detail?" url then
    ok_response url (GerritApi.magic_prefix
                     ++ Reference.json_dumps change_500)
  else
    Response {| status_code := 404; reason := "Not Found"; resp_url := url;
                text := "Not found" |}.

Definition online : Runtime :=
  Reference.runtime
    (fun name => if String.eqb name "GERRIT_USER" then Some "alice" else None)
    gerrit_server.

(** A backend that answers every request with status 401 and [body]. *)
Definition unauthorized (body : string) : Runtime :=
  Reference.runtime
    (fun _ => None)
    (fun url => Response {| status_code := 401; reason := "Unauthorized";
                            resp_url := url; text := body |}).

(** A backend that answers every change lookup with [change], every
    file-list request with [files] and every diff request with
    [diff_blob]. *)
Definition serving (change : json) (files : list (string * json)) : Runtime :=
  Reference.runtime
    (fun _ => None)
    (fun url =>
       if has "/diff" url then
         ok_response url (Reference.json_dumps diff_blob)
       else if has "/files" url then
         ok_response url (Reference.json_dumps (JObj files))
       else
         ok_response url (GerritApi.magic_prefix
                          ++ Reference.json_dumps change)).

(** A backend that answers every request with status [code], reason
    [why] and [body]. *)
Definition answering (code : Z) (why body : string) : Runtime :=
  Reference.runtime
    (fun _ => None)
    (fun url => Response {| status_code := code; reason := why;
                            resp_url := url; text := body |}).

(** An integer literal of [n] digits. *)
Fixpoint ones (n : nat) : string :=
  match n with
  | O => EmptyString
  | S n => String "1" (ones n)
  end.

(** [n] arrays, one inside the other. *)
Fixpoint nested (n : nat) : string :=
  match n with
  | O => EmptyString
  | S n => String "[" (nested n ++ "]")
  end.

(** The example backend in a process whose environment holds [host],
    [user] and [password] for Gerrit. *)
Definition session (host user password : option string) : Runtime :=
  Reference.runtime
    (fun name =>
       if String.eqb name "GERRIT_HOST" then host
       else if String.eqb name "GERRIT_USER" then user
       else if String.eqb name "GERRIT_HTTP_PASSWORD" then password
       else None)
    gerrit_server.

End Examples.

(** ** Session start

    [get_gerrit_config], [is_gerrit_auth_configured] and the part of
    [gerrit_lifespan] before its [yield], from
    [src/servers/gerrit_service.py]; the lifespan of
    [src/transport/rest.py] reads the same three variables and runs the
    same statements.  The environment is the one [load_dotenv] has
    filled. *)

Module Session.

(** The dict that [get_gerrit_config] returns. *)
Record GerritConfig : Type := {
  GERRIT_HOST : string;
  GERRIT_USER : string;
  GERRIT_HTTP_PASSWORD : string;
  READ_ONLY_MODE : bool;
  ENABLED_TOOLS : option string
}.

Section WithRuntime.

Context {RT : Runtime}.

(** [os.getenv(name, default)] *)
Definition getenv_default (name default : string) : string :=
  match getenv name with
  | Some v => v
  | None => default
  end.

Definition get_gerrit_config : GerritConfig :=
  {| GERRIT_HOST := getenv_default "GERRIT_HOST" "";
     GERRIT_USER := getenv_default "GERRIT_USER" "";
     GERRIT_HTTP_PASSWORD := getenv_default "GERRIT_HTTP_PASSWORD" "";
     READ_ONLY_MODE :=
       String.eqb (Py.lower (getenv_default "READ_ONLY_MODE" "false")) "true";
     ENABLED_TOOLS := getenv "ENABLED_TOOLS" |}.

Definition is_gerrit_auth_configured (config : GerritConfig) : bool :=
  (negb (String.eqb (GERRIT_HOST config) "")
   && negb (String.eqb (GERRIT_USER config) ""))%bool.

(** The error of lines 53-56. *)
Definition missing_variables : exn :=
  Exn ValueError
      "Missing required environment variables: GERRIT_HOST, GERRIT_USER. Please set these in your environment or .env file.".

(** Lines 46-59: from the three values read, the context that is
    yielded. *)
Definition make_context (host user http_password : string)
  : result GerritContext :=
  let host :=
    if (negb (String.eqb host "") && Py.endswith_char "/" host)%bool
    then Py.drop_last host else host in
  if negb (negb (String.eqb host "") && negb (String.eqb user ""))%bool
  then Err missing_variables
  else Ok {| host := host; user := user;
             http_password := Some http_password |}.

(** [gerrit_lifespan] of [src/servers/gerrit_service.py], up to [yield]. *)
Definition gerrit_lifespan : result GerritContext :=
  let config := get_gerrit_config in
  make_context (GERRIT_HOST config) (GERRIT_USER config)
               (GERRIT_HTTP_PASSWORD config).

(** [gerrit_lifespan] of [src/transport/rest.py], up to [yield]. *)
Definition rest_gerrit_lifespan : result GerritContext :=
  make_context (getenv_default "GERRIT_HOST" "")
               (getenv_default "GERRIT_USER" "")
               (getenv_default "GERRIT_HTTP_PASSWORD" "").

End WithRuntime.
End Session.

(** ** Recording the requests

    Every runtime can be run with a record of the requests sent: the
    library functions stay, the world is paired with the list of the
    requests handed to [requests.get] so far. *)
Definition recording (RT : Runtime) : Runtime :=
  Build_Runtime
    (@json_loads RT)
    (@py_repr RT)
    (@nondict_contains RT)
    (@nondict_getitem RT)
    (@quote RT)
    (@urlparse RT)
    (@getenv RT)
    (@world RT * list request)%type
    (fun r wl =>
       let '(o, w') := @requests_get RT r (fst wl) in
       (o, (w', (snd wl ++ [r])%list))).

(** The request that a call of [make_gerrit_rest_request] sends when the
    context holds [password]. *)
Definition request_of {RT : Runtime} (ctx : Context) (endpoint : string)
           (password : string) : request :=
  {| req_url := GerritApi.request_url (lifespan_context ctx) endpoint;
     req_user := user (lifespan_context ctx);
     req_password := password;
     req_verify := GerritApi.verify_ssl |}.

(** The endpoint of the diff of one file (lines 124 and 194-196). *)
Definition diff_endpoint {RT : Runtime} (change_id target_revision : string)
           (file_path query : string) : string :=
  "a/changes/" ++ change_id ++ "/revisions/" ++ target_revision
  ++ "/files/" ++ quote file_path ++ "/diff" ++ query.

(** The values a FileInfo contributes to a FileDiff, with the defaults of
    lines 128-131 and 199-202. *)
Definition info_field (file_info : json) (k : string) (default : json)
  : json :=
  match file_info with
  | JObj l => match assoc k l with Some v => v | None => default end
  | _ => default
  end.

(** The file paths that are not the commit-message pseudo-path. *)
Definition real_files (paths : list string) : list string :=
  filter (fun p => negb (String.eqb p GerritService.COMMIT_MSG)) paths.

(** The entries of a file map that [fetch_patchset_diff] reports. *)
Definition reported (file_info : string * json) : bool :=
  (negb (String.eqb (fst file_info) GerritService.COMMIT_MSG)
   && GerritService.not_same (info_field (snd file_info) "status" JNull))%bool.

(** How an entry of a revision's file map and the FileDiff made from it
    are related: the entry is an object, and the FileDiff has its path
    and its four values, or their defaults. *)
Definition file_data_of (entry : string * json)
           (fd : GerritService.file_data) : Prop :=
  is_object (snd entry) = true
  /\ GerritService.fd_path fd = fst entry
  /\ GerritService.fd_status fd
     = info_field (snd entry) "status" (JStr "MODIFIED")
  /\ GerritService.fd_lines_inserted fd
     = info_field (snd entry) "lines_inserted" (JInt 0)
  /\ GerritService.fd_lines_deleted fd
     = info_field (snd entry) "lines_deleted" (JInt 0)
  /\ GerritService.fd_size_delta fd
     = info_field (snd entry) "size_delta" (JInt 0).

(** The same for an entry of the file map between two patchsets and the
    value stored under its path. *)
Definition diff_entry_of (entry : string * json)
           (stored : string * GerritService.diff_entry) : Prop :=
  is_object (snd entry) = true
  /\ fst stored = fst entry
  /\ GerritService.de_status (snd stored)
     = info_field (snd entry) "status" (JStr "MODIFIED")
  /\ GerritService.de_lines_inserted (snd stored)
     = info_field (snd entry) "lines_inserted" (JInt 0)
  /\ GerritService.de_lines_deleted (snd stored)
     = info_field (snd entry) "lines_deleted" (JInt 0)
  /\ GerritService.de_size_delta (snd stored)
     = info_field (snd entry) "size_delta" (JInt 0).

(** The requests a call of [make_gerrit_rest_request] sends: one when
    the context holds a password, none otherwise. *)
Definition sent_by {RT : Runtime} (ctx : Context) (endpoint : string)
  : list request :=
  match http_password (lifespan_context ctx) with
  | Some password =>
      if String.eqb password "" then []
      else [request_of ctx endpoint password]
  | None => []
  end.

(** The two exceptions other than [JSONDecodeError] that the reference
    decoder raises. *)
Definition decoder_error (e : exn) : Prop :=
  (exists digits, e = Reference.int_too_long digits)
  \/ (exists container, e = Reference.too_deep container).

(** * Properties *)

(** ** Strings and lists *)

Lemma str_of_int_nonempty (z : Z) : Py.str_of_int z <> "".
Proof.
  unfold Py.str_of_int.
  destruct (Z.to_int z) as [d | d]; simpl.
  - destruct d; simpl; discriminate.
  - discriminate.
Qed.

Lemma insert_perm (x : string) (l : list string) :
  Permutation (x :: l) (Py.insert x l).
Proof.
  induction l as [| y r IH]; simpl.
  - apply Permutation_refl.
  - destruct (String.leb x y).
    + apply Permutation_refl.
    + eapply perm_trans; [apply perm_swap |].
      apply perm_skip, IH.
Qed.

Lemma sorted_perm (l : list string) : Permutation l (Py.sorted l).
Proof.
  induction l as [| x r IH]; simpl.
  - constructor.
  - eapply perm_trans; [apply perm_skip, IH | apply insert_perm].
Qed.

Lemma insert_sorted (x : string) (l : list string) :
  Sorted str_le l -> Sorted str_le (Py.insert x l).
Proof.
  induction l as [| y r IH]; simpl; intros Hs.
  - repeat constructor.
  - destruct (String.leb x y) eqn:Hxy.
    + constructor; [assumption | constructor; exact Hxy].
    + assert (Hyx : str_le y x).
      { destruct (String.leb_total x y) as [H | H]; [congruence | exact H]. }
      inversion Hs as [| ? ? Hr Hhd]; subst.
      constructor; [apply IH, Hr |].
      destruct r as [| z r']; simpl.
      * constructor; exact Hyx.
      * destruct (String.leb x z); constructor; [exact Hyx |].
        inversion Hhd; assumption.
Qed.

Lemma sorted_sorted (l : list string) : Sorted str_le (Py.sorted l).
Proof.
  induction l as [| x r IH]; simpl.
  - constructor.
  - apply insert_sorted, IH.
Qed.

Lemma ascii_compare_lt_trans (a b c : ascii) :
  Ascii.compare a b = Lt -> Ascii.compare b c = Lt -> Ascii.compare a c = Lt.
Proof. unfold Ascii.compare. rewrite !N.compare_lt_iff. lia. Qed.

Lemma str_le_trans (a b c : string) : str_le a b -> str_le b c -> str_le a c.
Proof.
  unfold str_le, String.leb.
  revert b c. induction a as [| x a IH]; intros [| y b] [| z c]; simpl;
    try reflexivity; try discriminate.
  destruct (Ascii.compare x y) eqn:Hxy; try discriminate;
    destruct (Ascii.compare y z) eqn:Hyz; try discriminate; intros H1 H2.
  - apply Ascii.compare_eq_iff in Hxy, Hyz. subst.
    unfold Ascii.compare. rewrite N.compare_refl. exact (IH _ _ H1 H2).
  - apply Ascii.compare_eq_iff in Hxy. subst. rewrite Hyz. reflexivity.
  - apply Ascii.compare_eq_iff in Hyz. subst. rewrite Hxy. reflexivity.
  - rewrite (ascii_compare_lt_trans _ _ _ Hxy Hyz). reflexivity.
Qed.

(** In [sorted(l)] every element is at most every later one. *)
Lemma sorted_strongly (l : list string) : StronglySorted str_le (Py.sorted l).
Proof.
  apply Sorted_StronglySorted; [| apply sorted_sorted].
  intros a b c. apply str_le_trans.
Qed.

Lemma mem_In (x : string) (l : list string) :
  Py.mem x l = true <-> In x l.
Proof.
  unfold Py.mem. rewrite existsb_exists. split.
  - intros [y [Hin Heq]]. apply String.eqb_eq in Heq. now subst.
  - intros Hin. exists x. split; [assumption | apply String.eqb_refl].
Qed.

(** ** Revision resolution *)

Section ResolveRevision.

Context {RT : Runtime}.

Import GerritService.

Lemma py_get_object (fields : list (string * json)) (k : string) :
  exists v, py_get (JObj fields) k = Ok v.
Proof. unfold py_get, py_get_default. eexists; reflexivity. Qed.

Lemma py_get_default_object (D : json) (k : string) (d v : json) :
  py_get_default D k d = Ok v -> exists fields, D = JObj fields.
Proof. destruct D; simpl; try discriminate. intros _. eexists; reflexivity. Qed.

Lemma is_object_inv (v : json) :
  is_object v = true -> exists fields, v = JObj fields.
Proof. destruct v; simpl; try discriminate. intros _. eexists; reflexivity. Qed.

Lemma number_matches_get (n : string) (info num : json) :
  py_get info "_number" = Ok num ->
  number_matches n info = String.eqb (py_str num) n.
Proof. unfold number_matches. now intros ->. Qed.

(** The scan returns the one revision whose number matches. *)
Lemma scan_revisions_unique (items : list (string * json)) (n rev : string)
      (info : json) :
  Forall (fun kv => is_object (snd kv) = true) items ->
  In (rev, info) items ->
  number_matches n info = true ->
  (forall rev' info', In (rev', info') items ->
                      number_matches n info' = true -> rev' = rev) ->
  scan_revisions items n = Ok (JStr rev).
Proof.
  induction items as [| [k v] rest IH]; intros Hobj Hin Hm Huniq.
  - destruct Hin.
  - inversion Hobj as [| ? ? Hv Hrest]; subst. simpl in Hv.
    destruct (is_object_inv _ Hv) as [fields ->].
    destruct (py_get_object fields "_number") as [num Hnum].
    cbn [scan_revisions]. rewrite Hnum; cbn [rbind].
    destruct (String.eqb (py_str num) n) eqn:Heq.
    + assert (k = rev) as ->.
      { apply (Huniq k (JObj fields)); [left; reflexivity |].
        rewrite (number_matches_get _ _ _ Hnum). exact Heq. }
      reflexivity.
    + apply IH; try assumption.
      * destruct Hin as [Hhd | Htl]; [| exact Htl].
        inversion Hhd; subst.
        rewrite (number_matches_get _ _ _ Hnum) in Hm. congruence.
      * intros rev' info' Hin'. apply Huniq. right; exact Hin'.
Qed.

(** Without a match the scan finds nothing. *)
Lemma scan_revisions_none (items : list (string * json)) (n : string) :
  Forall (fun kv => is_object (snd kv) = true) items ->
  (forall rev info, In (rev, info) items -> number_matches n info = false) ->
  scan_revisions items n = Ok JNull.
Proof.
  induction items as [| [k v] rest IH]; intros Hobj Hno.
  - reflexivity.
  - inversion Hobj as [| ? ? Hv Hrest]; subst. simpl in Hv.
    destruct (is_object_inv _ Hv) as [fields ->].
    destruct (py_get_object fields "_number") as [num Hnum].
    cbn [scan_revisions]. rewrite Hnum; cbn [rbind].
    rewrite <- (number_matches_get n _ _ Hnum).
    rewrite (Hno k (JObj fields)) by (left; reflexivity).
    apply IH; [assumption |].
    intros rev info Hin. apply (Hno rev info). right; exact Hin.
Qed.

(** The printed numbers of revisions that are objects. *)
Lemma patchset_numbers_objects (items : list (string * json)) :
  Forall (fun kv => is_object (snd kv) = true) items ->
  patchset_numbers items = Ok (map (fun kv => number_string (snd kv)) items).
Proof.
  induction items as [| [k v] rest IH]; intros Hobj.
  - reflexivity.
  - inversion Hobj as [| ? ? Hv Hrest]; subst. simpl in Hv.
    destruct (is_object_inv _ Hv) as [fields ->].
    cbn [patchset_numbers map]. unfold number_string at 1.
    destruct (py_get_object fields "_number") as [num Hnum].
    cbn [snd]. rewrite Hnum; cbn [rbind].
    rewrite (IH Hrest). reflexivity.
Qed.

Lemma keys_In {A} (k : string) (v : A) (l : list (string * A)) :
  In (k, v) l -> In k (keys l).
Proof. intros Hin. unfold keys. apply (in_map fst) in Hin. exact Hin. Qed.

Lemma truthy_str (s : string) : s <> "" -> truthy (JStr s) = true.
Proof.
  intros Hne. simpl. apply negb_true_iff. now apply String.eqb_neq.
Qed.

Lemma truthy_opt_some (s : string) : s <> "" -> truthy_opt (Some s) = true.
Proof.
  intros Hne. simpl. apply negb_true_iff. now apply String.eqb_neq.
Qed.

(** The guard of lines 115-117 lets a non-empty key of [revisions] pass. *)
Lemma guard_passes (items : list (string * json)) (rev : string) :
  rev <> "" -> In rev (keys items) ->
  (if negb (truthy (JStr rev)) then Err revision_not_found
   else rbind (py_contains (JObj items) (JStr rev))
              (fun present =>
                 if negb present then Err revision_not_found
                 else Ok (JObj items, JStr rev)))
  = Ok (JObj items, JStr rev).
Proof.
  intros Hne Hin. rewrite (truthy_str _ Hne). simpl negb. cbv iota.
  unfold py_contains. apply mem_In in Hin. rewrite Hin. reflexivity.
Qed.

End ResolveRevision.

(** C1, as amended.  Take a ChangeDetail [D] whose revisions map [items]
    holds RevisionInfo objects.  If an entry with a non-empty revision-id
    [rev] carries the sequence number [z], and no entry with another
    revision-id prints as [str(z)], then resolving with [str(z)] returns
    exactly [rev].  Resolving with the patchset number absent returns
    [current_revision] when that is a non-empty key of the revisions map;
    when it is null, empty, or not a key, resolution fails with "Revision
    information not found". *)
Theorem resolve_revision_correct {RT : Runtime}
        (D : json) (items : list (string * json)) :
  py_get_default D "revisions" (JObj []) = Ok (JObj items) ->
  (forall rev info z,
      Forall (fun kv => is_object (snd kv) = true) items ->
      In (rev, info) items ->
      py_get info "_number" = Ok (JInt z) ->
      rev <> "" ->
      (forall rev' info',
          In (rev', info') items ->
          number_matches (Py.str_of_int z) info' = true -> rev' = rev) ->
      GerritService.resolve_revision D (Some (Py.str_of_int z))
      = Ok (JObj items, JStr rev))
  /\ (forall r,
         py_get D "current_revision" = Ok (JStr r) ->
         r <> "" -> In r (keys items) ->
         GerritService.resolve_revision D None = Ok (JObj items, JStr r))
  /\ (forall r,
         py_get D "current_revision" = Ok (JStr r) ->
         r = "" \/ ~ In r (keys items) ->
         GerritService.resolve_revision D None
         = Err GerritService.revision_not_found)
  /\ (py_get D "current_revision" = Ok JNull ->
      GerritService.resolve_revision D None
      = Err GerritService.revision_not_found).
Proof.
  intros Hrevs.
  destruct (py_get_default_object _ _ _ _ Hrevs) as [fields ->].
  destruct (py_get_object fields "current_revision") as [cur Hcur].
  unfold GerritService.resolve_revision.
  rewrite Hcur, Hrevs. cbn [rbind].
  repeat split.
  - intros rev info z Hobj Hin Hnum Hne Huniq.
    rewrite (truthy_opt_some _ (str_of_int_nonempty z)).
    cbn [py_items rbind str_opt].
    rewrite (scan_revisions_unique items _ rev info Hobj Hin); cycle 1.
    { rewrite (number_matches_get _ _ _ Hnum). apply String.eqb_refl. }
    { exact Huniq. }
    cbn [rbind]. rewrite (truthy_str _ Hne). cbn [negb].
    apply (guard_passes items rev Hne (keys_In _ _ _ Hin)).
  - intros r Hr Hne Hin.
    assert (cur = JStr r) as -> by congruence.
    cbn [truthy_opt rbind].
    apply (guard_passes items r Hne Hin).
  - intros r Hr Hbad.
    assert (cur = JStr r) as -> by congruence.
    cbn [truthy_opt rbind].
    destruct (String.eqb r "") eqn:Hempty.
    + apply String.eqb_eq in Hempty. subst r. reflexivity.
    + apply String.eqb_neq in Hempty.
      rewrite (truthy_str _ Hempty). cbn [negb].
      destruct Hbad as [Hbad | Hbad]; [contradiction |].
      unfold py_contains.
      destruct (Py.mem r (keys items)) eqn:Hmem.
      * apply mem_In in Hmem. contradiction.
      * reflexivity.
  - intros Hnull.
    assert (cur = JNull) as -> by congruence.
    reflexivity.
Qed.

(** On change 500: patchset "1" resolves to [r1], no patchset number to
    the current revision [r2]. *)
Lemma resolve_revision_correct_witness :
  GerritService.resolve_revision (RT := Examples.offline)
    Examples.change_500 (Some "1")
  = Ok (JObj Examples.revisions_500, JStr "r1")
  /\ GerritService.resolve_revision (RT := Examples.offline)
       Examples.change_500 None
     = Ok (JObj Examples.revisions_500, JStr "r2").
Proof.
  assert (Hobj : Forall (fun kv : string * json => is_object (snd kv) = true)
                        Examples.revisions_500)
    by (repeat constructor).
  destruct (@resolve_revision_correct Examples.offline Examples.change_500
              Examples.revisions_500 eq_refl) as [Hnum [Hcur _]].
  split.
  - apply (Hnum "r1" (Examples.revision 1 Examples.files_r1) 1).
    + exact Hobj.
    + left; reflexivity.
    + reflexivity.
    + discriminate.
    + intros rev' info' [Hin | [Hin | []]] Hm; inversion Hin; subst.
      * reflexivity.
      * vm_compute in Hm. discriminate.
  - apply (Hcur "r2").
    + reflexivity.
    + discriminate.
    + right; left; reflexivity.
Defined.

(** C1 as stated fails: with the patchset number absent, a
    [current_revision] that is no key of the revisions map is not
    returned; of two entries with the same number the first one is
    returned, not the second; and an entry whose revision-id is the empty
    string is reported as not found. *)
Lemma resolve_revision_counterexample :
  (py_get Examples.change_orphan "current_revision" = Ok (JStr "r9")
   /\ GerritService.resolve_revision (RT := Examples.offline)
        Examples.change_orphan None
      = Err GerritService.revision_not_found)
  /\ (In ("rb", Examples.revision 2 []) Examples.revisions_tie
      /\ GerritService.resolve_revision (RT := Examples.offline)
           Examples.change_tie (Some "2")
         = Ok (JObj Examples.revisions_tie, JStr "ra"))
  /\ GerritService.resolve_revision (RT := Examples.offline)
       Examples.change_empty_id (Some "1")
     = Err (GerritService.patchset_not_found (Some "1") ["1"]).
Proof.
  repeat split.
  right; left; reflexivity.
Qed.

(** C2, as amended.  For every ChangeDetail [D] whose revisions map
    [items] holds RevisionInfo objects, and every non-empty requested
    patchset number [n] that no revision's sequence number prints as,
    resolution fails with the patchset-not-found error whose payload is
    the printed sequence numbers of all revisions of [D], one per
    revision, in ascending lexicographic order of the strings; the
    payload is free of duplicates whenever the printed numbers are
    pairwise distinct. *)
Theorem patchset_not_found_payload {RT : Runtime}
        (D : json) (items : list (string * json)) (n : string) :
  py_get_default D "revisions" (JObj []) = Ok (JObj items) ->
  Forall (fun kv => is_object (snd kv) = true) items ->
  n <> "" ->
  (forall rev info, In (rev, info) items -> number_matches n info = false) ->
  let numbers := map (fun kv => number_string (snd kv)) items in
  GerritService.resolve_revision D (Some n)
  = Err (GerritService.patchset_not_found (Some n) (Py.sorted numbers))
  /\ StronglySorted str_le (Py.sorted numbers)
  /\ Permutation numbers (Py.sorted numbers)
  /\ (NoDup numbers -> NoDup (Py.sorted numbers)).
Proof.
  intros Hrevs Hobj Hne Hno numbers.
  repeat split.
  - destruct (py_get_default_object _ _ _ _ Hrevs) as [fields ->].
    destruct (py_get_object fields "current_revision") as [cur Hcur].
    unfold GerritService.resolve_revision.
    rewrite Hcur, Hrevs. cbn [rbind].
    rewrite (truthy_opt_some _ Hne). cbn [py_items rbind str_opt].
    rewrite (scan_revisions_none items n Hobj Hno).
    cbn [rbind truthy negb].
    unfold GerritService.available_patchsets.
    rewrite (patchset_numbers_objects items Hobj). reflexivity.
  - apply sorted_strongly.
  - apply sorted_perm.
  - intros Hnd. exact (Permutation_NoDup (sorted_perm numbers) Hnd).
Qed.

(** On change 500: patchset "9" is not found, and "1, 2" are offered. *)
Lemma patchset_not_found_payload_witness :
  GerritService.resolve_revision (RT := Examples.offline)
    Examples.change_500 (Some "9")
  = Err (GerritService.patchset_not_found (Some "9") ["1"; "2"])
  /\ StronglySorted str_le ["1"; "2"]
  /\ NoDup ["1"; "2"].
Proof.
  assert (Hobj : Forall (fun kv : string * json => is_object (snd kv) = true)
                        Examples.revisions_500)
    by (repeat constructor).
  assert (Hne : "9" <> "") by discriminate.
  assert (Hno : forall rev info,
             In (rev, info) Examples.revisions_500 ->
             number_matches (RT := Examples.offline) "9" info = false).
  { intros rev info [Hin | [Hin | []]]; inversion Hin; subst; reflexivity. }
  destruct (@patchset_not_found_payload Examples.offline Examples.change_500
              Examples.revisions_500 "9" eq_refl Hobj Hne Hno)
    as [Herr [Hsorted [_ Hnodup]]].
  split; [exact Herr | split; [exact Hsorted |]].
  apply Hnodup.
  constructor; [intros [H | []]; discriminate |].
  constructor; [intros [] | constructor].
Defined.

(** C2 as stated fails: the empty string matches no sequence number of
    change 500, yet resolution succeeds with the current revision; when
    two revisions carry the same number, the payload lists it twice; and
    the order of the payload is that of the strings, in which "10" comes
    before "2". *)
Lemma patchset_not_found_counterexample :
  (forallb (fun kv => negb (number_matches (RT := Examples.offline) ""
                                           (snd kv)))
           Examples.revisions_500 = true
   /\ GerritService.resolve_revision (RT := Examples.offline)
        Examples.change_500 (Some "")
      = Ok (JObj Examples.revisions_500, JStr "r2"))
  /\ GerritService.resolve_revision (RT := Examples.offline)
       Examples.change_tie (Some "9")
     = Err (GerritService.patchset_not_found (Some "9") ["2"; "2"])
  /\ GerritService.resolve_revision (RT := Examples.offline)
       Examples.change_ten (Some "9")
     = Err (GerritService.patchset_not_found (Some "9") ["10"; "2"]).
Proof. repeat split. Qed.

(** ** The provider and the core service *)

Lemma try_except_reraise {RT : Runtime} {A} (m : M A) (w : world) :
  try_except m (fun e => raise e) w = m w.
Proof. unfold try_except, raise. destruct (m w) as [[a | e] w']; reflexivity. Qed.

Lemma provider_fetch_change_eq {RT : Runtime} ctx change_id patchset_number w :
  GerritProvider.fetch_change ctx change_id patchset_number w
  = GerritService.fetch_gerrit_change ctx change_id patchset_number w.
Proof. apply try_except_reraise. Qed.

Lemma provider_fetch_patchset_diff_eq {RT : Runtime}
      ctx change_id base_patchset target_patchset file_path w :
  GerritProvider.fetch_patchset_diff ctx change_id base_patchset
                                     target_patchset file_path w
  = GerritService.fetch_patchset_diff ctx change_id base_patchset
                                      target_patchset file_path w.
Proof. apply try_except_reraise. Qed.

Lemma core_fetch_change_eq {RT : Runtime} ctx change_id patchset_number w :
  CoreService.fetch_change ctx change_id patchset_number w
  = GerritService.fetch_gerrit_change ctx change_id patchset_number w.
Proof.
  unfold CoreService.fetch_change.
  rewrite try_except_reraise. apply provider_fetch_change_eq.
Qed.

Lemma core_fetch_patchset_diff_eq {RT : Runtime}
      ctx change_id base_patchset target_patchset file_path w :
  CoreService.fetch_patchset_diff ctx change_id base_patchset
                                  target_patchset file_path w
  = GerritService.fetch_patchset_diff ctx change_id base_patchset
                                      target_patchset file_path w.
Proof.
  unfold CoreService.fetch_patchset_diff.
  rewrite try_except_reraise. apply provider_fetch_patchset_diff_eq.
Qed.

(** ** Diff aggregation *)

Section Aggregation.

Context {RT : Runtime}.

Import GerritApi GerritService.

Lemma dict_set_keys {A} (k x : string) (v : A) (l : list (string * A)) :
  In x (keys (dict_set k v l)) <-> x = k \/ In x (keys l).
Proof.
  induction l as [| [k' v'] r IH]; simpl.
  - intuition.
  - destruct (String.eqb k' k) eqn:Heq; simpl.
    + apply String.eqb_eq in Heq. subst. intuition.
    + rewrite IH. intuition.
Qed.

Lemma nodup_keys_functional {A} (l : list (string * A)) (k : string) (a b : A) :
  NoDup (keys l) -> In (k, a) l -> In (k, b) l -> a = b.
Proof.
  induction l as [| [k' v'] r IH]; simpl; intros Hnd Ha Hb.
  - destruct Ha.
  - inversion Hnd as [| ? ? Hnotin Hnd']; subst.
    destruct Ha as [Ha | Ha], Hb as [Hb | Hb].
    + congruence.
    + inversion Ha; subst. exfalso. apply Hnotin. exact (keys_In _ _ _ Hb).
    + inversion Hb; subst. exfalso. apply Hnotin. exact (keys_In _ _ _ Ha).
    + exact (IH Hnd' Ha Hb).
Qed.

Lemma not_same_iff (v : json) : not_same v = true <-> v <> JStr "SAME".
Proof.
  destruct v; simpl; try (split; [discriminate | reflexivity]).
  rewrite negb_true_iff, String.eqb_neq. split; congruence.
Qed.

Lemma make_file_data_path (file_path : string) (file_info diff_info : json)
      (fd : file_data) :
  make_file_data file_path file_info diff_info = Ok fd ->
  fd_path fd = file_path.
Proof.
  unfold make_file_data. destruct file_info; simpl; try discriminate.
  intros H. inversion H. reflexivity.
Qed.

(** Every path the loop of [fetch_gerrit_change] adds is a key of the
    revision's file map other than the commit-message pseudo-path. *)
Lemma process_files_paths (ctx : Context) (change_id : string)
      (target_revision : json) (items : list (string * json)) :
  forall processed w out w',
    process_files ctx change_id target_revision items processed w
    = (Ok out, w') ->
    forall p, In p (map fd_path out) ->
              In p (map fd_path processed)
              \/ (In p (keys items) /\ p <> COMMIT_MSG).
Proof.
  induction items as [| [file_path file_info] rest IH];
    intros processed w out w' Hrun p Hp.
  - inversion Hrun; subst. left; exact Hp.
  - cbn [process_files] in Hrun.
    destruct (String.eqb file_path COMMIT_MSG) eqn:Hcm.
    + destruct (IH _ _ _ _ Hrun p Hp) as [H | [H1 H2]]; [left; exact H |].
      right. split; [right; exact H1 | exact H2].
    + unfold bind in Hrun.
      destruct (make_gerrit_rest_request ctx _ w) as [[diff_info | e] w1];
        [| discriminate].
      unfold lift in Hrun.
      destruct (make_file_data file_path file_info diff_info)
        as [fd | e] eqn:Hfd; [| discriminate].
      destruct (IH _ _ _ _ Hrun p Hp) as [H | [H1 H2]].
      * rewrite map_app in H. apply in_app_or in H.
        destruct H as [H | H]; [left; exact H |].
        simpl in H. destruct H as [H | []].
        rewrite (make_file_data_path _ _ _ _ Hfd) in H. subst p.
        right. split; [left; reflexivity |].
        apply String.eqb_neq. exact Hcm.
      * right. split; [right; exact H1 | exact H2].
Qed.

(** Every key the loop of [fetch_patchset_diff] adds belongs to an entry
    of the upstream map, other than the pseudo-path, whose status is not
    SAME. *)
Lemma changed_files_loop_keys (ctx : Context) (change_id : string)
      (target_revision base_revision : option string)
      (items : list (string * json)) :
  forall changed w out w',
    changed_files_loop ctx change_id target_revision base_revision
                       items changed w = (Ok out, w') ->
    forall k, In k (keys out) ->
              In k (keys changed)
              \/ (k <> COMMIT_MSG
                  /\ exists info status,
                       In (k, info) items
                       /\ py_get info "status" = Ok status
                       /\ status <> JStr "SAME").
Proof.
  induction items as [| [fpath file_info] rest IH];
    intros changed w out w' Hrun k Hk.
  - inversion Hrun; subst. left; exact Hk.
  - cbn [changed_files_loop] in Hrun.
    assert (Hlater :
              (k <> COMMIT_MSG
               /\ exists info status,
                    In (k, info) rest
                    /\ py_get info "status" = Ok status
                    /\ status <> JStr "SAME") ->
              (k <> COMMIT_MSG
               /\ exists info status,
                    In (k, info) ((fpath, file_info) :: rest)
                    /\ py_get info "status" = Ok status
                    /\ status <> JStr "SAME")).
    { intros [Hne [info [status [Hin Hst]]]].
      split; [exact Hne |]. exists info, status.
      split; [right; exact Hin | exact Hst]. }
    destruct (String.eqb fpath COMMIT_MSG) eqn:Hcm.
    + destruct (IH _ _ _ _ Hrun k Hk) as [H | H]; [left; exact H |].
      right; exact (Hlater H).
    + unfold bind, lift in Hrun.
      destruct (py_get file_info "status") as [status | e] eqn:Hstatus;
        [| discriminate].
      destruct (not_same status) eqn:Hns.
      * destruct (make_gerrit_rest_request ctx _ w) as [[diff_info | e] w1];
          [| discriminate].
        destruct (make_diff_entry file_info diff_info) as [entry | e];
          [| discriminate].
        destruct (IH _ _ _ _ Hrun k Hk) as [H | H];
          [| right; exact (Hlater H)].
        apply dict_set_keys in H. destruct H as [-> | H]; [| left; exact H].
        right. split; [apply String.eqb_neq; exact Hcm |].
        exists file_info, status.
        split; [left; reflexivity |].
        split; [exact Hstatus | apply not_same_iff; exact Hns].
      * destruct (IH _ _ _ _ Hrun k Hk) as [H | H]; [left; exact H |].
        right; exact (Hlater H).
Qed.

(** What a successful [fetch_gerrit_change] went through. *)
Lemma fetch_gerrit_change_inv (ctx : Context) (change_id : string)
      (patchset_number : option string) (w w' : world) (r : change_result) :
  fetch_gerrit_change ctx change_id patchset_number w = (Ok r, w') ->
  exists revisions files w1,
    make_gerrit_rest_request ctx (change_endpoint change_id) w
    = (Ok (cr_change_info r), w1)
    /\ py_get (cr_change_info r) "project" = Ok (cr_project r)
    /\ truthy (cr_project r) = true
    /\ resolve_revision (cr_change_info r) patchset_number
       = Ok (revisions, cr_revision r)
    /\ py_getitem revisions (cr_revision r) = Ok (cr_patchset r)
    /\ py_get_default (cr_patchset r) "files" (JObj []) = Ok (JObj files)
    /\ process_files ctx change_id (cr_revision r) files [] w1
       = (Ok (cr_files r), w').
Proof.
  unfold fetch_gerrit_change, bind, lift. intros H.
  destruct (make_gerrit_rest_request ctx (change_endpoint change_id) w)
    as [[change_info | e] w1]; [| discriminate].
  destruct (truthy change_info); cbn [negb] in H; [| discriminate].
  destruct (py_get change_info "project") as [project | e] eqn:Hproject;
    [| discriminate].
  destruct (truthy project) eqn:Htruthy; cbn [negb] in H; [| discriminate].
  destruct (resolve_revision change_info patchset_number)
    as [[revisions target_revision] | e] eqn:Hresolve; [| discriminate].
  destruct (py_getitem revisions target_revision)
    as [revision_info | e] eqn:Hinfo; [| discriminate].
  destruct (py_get_default revision_info "files" (JObj []))
    as [files_value | e] eqn:Hfiles; cbn [rbind] in H; [| discriminate].
  destruct files_value as [| | | | | files]; try discriminate.
  cbn [py_items] in H.
  destruct (process_files ctx change_id target_revision files [] w1)
    as [[processed | e] w2] eqn:Hloop; [| discriminate].
  inversion H; subst. cbn.
  exists revisions, files, w1. repeat split; assumption.
Qed.

(** A failure of the resolution is the failure of [fetch_gerrit_change]. *)
Lemma fetch_gerrit_change_resolution_error (ctx : Context)
      (change_id : string) (patchset_number : option string)
      (w w1 : world) (change_info project : json) (e : exn) :
  make_gerrit_rest_request ctx (change_endpoint change_id) w
  = (Ok change_info, w1) ->
  truthy change_info = true ->
  py_get change_info "project" = Ok project ->
  truthy project = true ->
  resolve_revision change_info patchset_number = Err e ->
  fetch_gerrit_change ctx change_id patchset_number w = (Err e, w1).
Proof.
  intros Hreq Hinfo Hget Hproject Hresolve.
  unfold fetch_gerrit_change, bind, lift.
  rewrite Hreq, Hinfo. cbn [negb].
  rewrite Hget, Hproject. cbn [negb].
  rewrite Hresolve. reflexivity.
Qed.

Lemma truthy_opt_inv (o : option string) :
  truthy_opt o = true -> exists s, o = Some s /\ s <> "".
Proof.
  destruct o as [s |]; simpl; [| discriminate].
  intros H. exists s. split; [reflexivity |].
  apply negb_true_iff in H. now apply String.eqb_neq.
Qed.

(** What a successful [fetch_patchset_diff] went through. *)
Lemma fetch_patchset_diff_inv (ctx : Context) (change_id : string)
      (base_patchset target_patchset : string) (file_path : option string)
      (w w' : world) (r : diff_result) :
  fetch_patchset_diff ctx change_id base_patchset target_patchset file_path w
  = (Ok r, w') ->
  exists change_info items w1 upstream w2,
    make_gerrit_rest_request ctx
      ("a/changes/" ++ change_id ++ "/detail?o=ALL_REVISIONS&o=ALL_FILES") w
    = (Ok change_info, w1)
    /\ py_get_default change_info "revisions" (JObj []) = Ok (JObj items)
    /\ scan_base_target items base_patchset target_patchset None None
       = Ok (Some (dr_base_revision r), Some (dr_target_revision r))
    /\ dr_base_revision r <> "" /\ dr_target_revision r <> ""
    /\ dr_base_patchset r = base_patchset
    /\ dr_target_patchset r = target_patchset
    /\ make_gerrit_rest_request ctx
         (files_endpoint change_id (Some (dr_target_revision r))
                         (Some (dr_base_revision r))) w1
       = (Ok (JObj upstream), w2)
    /\ changed_files_loop ctx change_id (Some (dr_target_revision r))
                          (Some (dr_base_revision r)) upstream [] w2
       = (Ok (dr_files r), w').
Proof.
  unfold fetch_patchset_diff, bind, lift. intros H.
  destruct (make_gerrit_rest_request ctx _ w)
    as [[change_info | e] w1] eqn:Hchange; [| discriminate].
  destruct (truthy change_info); cbn [negb] in H; [| discriminate].
  destruct (py_get_default change_info "revisions" (JObj []))
    as [revisions | e] eqn:Hrevs; [| discriminate].
  destruct revisions as [| | | | | items]; try discriminate.
  cbn [py_items] in H.
  destruct (scan_base_target items base_patchset target_patchset None None)
    as [[base_revision target_revision] | e] eqn:Hscan; [| discriminate].
  destruct (truthy_opt base_revision) eqn:Hbase; cbn [negb orb] in H.
  2:{ destruct (available_patchsets items); discriminate. }
  destruct (truthy_opt target_revision) eqn:Htarget; cbn [negb] in H.
  2:{ destruct (available_patchsets items); discriminate. }
  destruct (truthy_opt_inv _ Hbase) as [base [-> Hbase_ne]].
  destruct (truthy_opt_inv _ Htarget) as [target [-> Htarget_ne]].
  destruct (make_gerrit_rest_request ctx
              (files_endpoint change_id (Some target) (Some base)) w1)
    as [[files_diff | e] w2] eqn:Hfiles; [| discriminate].
  destruct files_diff as [| | | | | upstream]; try discriminate.
  cbn [py_items] in H.
  destruct (changed_files_loop ctx change_id (Some target) (Some base)
                               upstream [] w2)
    as [[changed | e] w3] eqn:Hloop; [| discriminate].
  inversion H; subst. cbn.
  exists change_info, items, w1, upstream, w2.
  repeat split; assumption.
Qed.

End Aggregation.

(** C3.  Whatever the backend answers, the file sequence returned by
    [fetch_gerrit_change] and the file map returned by
    [fetch_patchset_diff] have no entry for the commit-message
    pseudo-path [/COMMIT_MSG]. *)
Theorem commit_msg_excluded {RT : Runtime} (ctx : Context)
        (change_id : string) :
  (forall patchset_number w r w',
      GerritService.fetch_gerrit_change ctx change_id patchset_number w
      = (Ok r, w') ->
      ~ In GerritService.COMMIT_MSG
           (map GerritService.fd_path (GerritService.cr_files r)))
  /\ (forall base_patchset target_patchset file_path w r w',
         GerritService.fetch_patchset_diff ctx change_id base_patchset
                                           target_patchset file_path w
         = (Ok r, w') ->
         ~ In GerritService.COMMIT_MSG (keys (GerritService.dr_files r))).
Proof.
  split.
  - intros patchset_number w r w' Hrun Hin.
    destruct (fetch_gerrit_change_inv _ _ _ _ _ _ Hrun)
      as [revisions [files [w1 [_ [_ [_ [_ [_ [_ Hloop]]]]]]]]].
    destruct (process_files_paths _ _ _ _ _ _ _ _ Hloop _ Hin)
      as [[] | [_ Hne]].
    apply Hne; reflexivity.
  - intros base_patchset target_patchset file_path w r w' Hrun Hin.
    destruct (fetch_patchset_diff_inv _ _ _ _ _ _ _ _ Hrun)
      as [change_info [items [w1 [upstream [w2 H]]]]].
    destruct H as [_ [_ [_ [_ [_ [_ [_ [_ Hloop]]]]]]]].
    destruct (changed_files_loop_keys _ _ _ _ _ _ _ _ _ Hloop _ Hin)
      as [[] | [Hne _]].
    apply Hne; reflexivity.
Qed.

(** C4.  When [fetch_patchset_diff] (or the provider's method of that
    name) returns, its file map was built from the map [upstream] that
    the file-list request relative to the base revision returned: every
    key of the output is a key of [upstream] whose status is not SAME,
    and no entry of [upstream] whose status is SAME has its key in the
    output. *)
Theorem patchset_diff_only_changed {RT : Runtime} (ctx : Context)
        (change_id base_patchset target_patchset : string)
        (file_path : option string) (w w' : world)
        (r : GerritService.diff_result) :
  GerritService.fetch_patchset_diff ctx change_id base_patchset
                                    target_patchset file_path w = (Ok r, w')
  \/ GerritProvider.fetch_patchset_diff ctx change_id base_patchset
                                        target_patchset file_path w
     = (Ok r, w') ->
  exists w1 w2 upstream,
    GerritApi.make_gerrit_rest_request ctx
      ("a/changes/" ++ change_id ++ "/revisions/"
       ++ GerritService.dr_target_revision r ++ "/files?base="
       ++ GerritService.dr_base_revision r) w1
    = (Ok (JObj upstream), w2)
    /\ (forall k, In k (keys (GerritService.dr_files r)) ->
                  exists info status,
                    In (k, info) upstream
                    /\ py_get info "status" = Ok status
                    /\ status <> JStr "SAME")
    /\ (NoDup (keys upstream) ->
        forall k info,
          In (k, info) upstream ->
          py_get info "status" = Ok (JStr "SAME") ->
          ~ In k (keys (GerritService.dr_files r))).
Proof.
  intros Hrun.
  assert (Hserver :
            GerritService.fetch_patchset_diff ctx change_id base_patchset
              target_patchset file_path w = (Ok r, w')).
  { destruct Hrun as [H | H]; [exact H |].
    rewrite provider_fetch_patchset_diff_eq in H. exact H. }
  destruct (fetch_patchset_diff_inv _ _ _ _ _ _ _ _ Hserver)
    as [change_info [items [w1 [upstream [w2 H]]]]].
  destruct H as [_ [_ [_ [Hbase [_ [_ [_ [Hfiles Hloop]]]]]]]].
  exists w1, w2, upstream.
  assert (Hkeys :
            forall k, In k (keys (GerritService.dr_files r)) ->
                      exists info status,
                        In (k, info) upstream
                        /\ py_get info "status" = Ok status
                        /\ status <> JStr "SAME").
  { intros k Hk.
    destruct (changed_files_loop_keys _ _ _ _ _ _ _ _ _ Hloop _ Hk)
      as [[] | [_ H]].
    exact H. }
  split; [| split].
  - unfold GerritService.files_endpoint, GerritService.base_query in Hfiles.
    rewrite (truthy_opt_some _ Hbase) in Hfiles.
    exact Hfiles.
  - exact Hkeys.
  - intros Hnodup k info Hin Hsame Hk.
    destruct (Hkeys k Hk) as [info' [status [Hin' [Hstatus Hne]]]].
    assert (info' = info) as ->
        by exact (nodup_keys_functional _ _ _ _ Hnodup Hin' Hin).
    rewrite Hsame in Hstatus. inversion Hstatus. congruence.
Qed.

(** C9.  The optional [file_path] argument of [fetch_patchset_diff] has no
    effect: with the other arguments and the world fixed, the result and
    the world afterwards are the same for any two values of it, in the
    server function, in the provider and in the core service. *)
Theorem file_path_ignored {RT : Runtime} (ctx : Context)
        (change_id base_patchset target_patchset : string)
        (file_path file_path' : option string) (w : world) :
  GerritService.fetch_patchset_diff ctx change_id base_patchset
                                    target_patchset file_path w
  = GerritService.fetch_patchset_diff ctx change_id base_patchset
                                      target_patchset file_path' w
  /\ GerritProvider.fetch_patchset_diff ctx change_id base_patchset
                                        target_patchset file_path w
     = GerritProvider.fetch_patchset_diff ctx change_id base_patchset
                                          target_patchset file_path' w
  /\ CoreService.fetch_patchset_diff ctx change_id base_patchset
                                     target_patchset file_path w
     = CoreService.fetch_patchset_diff ctx change_id base_patchset
                                       target_patchset file_path' w.
Proof. repeat split. Qed.

(** A run on change 500, whose current revision lists [/COMMIT_MSG]
    and two files: the two files come back. *)
Lemma commit_msg_excluded_witness :
  exists r w',
    GerritService.fetch_gerrit_change (RT := Examples.online)
      Examples.ctx "500" None [] = (Ok r, w')
    /\ In GerritService.COMMIT_MSG (keys Examples.files_r2)
    /\ map GerritService.fd_path (GerritService.cr_files r)
       = ["a.txt"; "b c.txt"]
    /\ ~ In GerritService.COMMIT_MSG
           (map GerritService.fd_path (GerritService.cr_files r)).
Proof.
  eexists. eexists.
  split; [vm_compute; reflexivity |].
  split; [left; reflexivity |].
  split; [reflexivity |].
  eapply (proj1 (@commit_msg_excluded Examples.online Examples.ctx "500")
                None []).
  vm_compute; reflexivity.
Defined.

(** A run on change 500 from patchset 1 to patchset 2: of the four
    upstream entries, the pseudo-path and the SAME entry are left out. *)
Lemma patchset_diff_only_changed_witness :
  exists r w',
    GerritService.fetch_patchset_diff (RT := Examples.online)
      Examples.ctx "500" "1" "2" None [] = (Ok r, w')
    /\ keys (GerritService.dr_files r) = ["a.txt"; "b c.txt"]
    /\ exists w1 w2 upstream,
         GerritApi.make_gerrit_rest_request (RT := Examples.online)
           Examples.ctx
           ("a/changes/500/revisions/"
            ++ GerritService.dr_target_revision r ++ "/files?base="
            ++ GerritService.dr_base_revision r) w1
         = (Ok (JObj upstream), w2)
         /\ (forall k, In k (keys (GerritService.dr_files r)) ->
                       exists info status,
                         In (k, info) upstream
                         /\ py_get info "status" = Ok status
                         /\ status <> JStr "SAME")
         /\ (NoDup (keys upstream) ->
             forall k info,
               In (k, info) upstream ->
               py_get info "status" = Ok (JStr "SAME") ->
               ~ In k (keys (GerritService.dr_files r))).
Proof.
  eexists. eexists.
  split; [vm_compute; reflexivity |].
  split; [reflexivity |].
  eapply (@patchset_diff_only_changed Examples.online Examples.ctx
            "500" "1" "2" None []).
  left. vm_compute; reflexivity.
Defined.

(** ** The request primitive *)

Section RequestPrimitive.

Context {RT : Runtime}.

Import GerritApi.

Lemma startswith_magic (s : string) :
  Py.startswith magic_prefix (magic_prefix ++ s) = true.
Proof. reflexivity. Qed.

Lemma drop_magic (s : string) : Py.drop 4 (magic_prefix ++ s) = s.
Proof. reflexivity. Qed.

(** A body that begins with the magic prefix is decoded without it. *)
Lemma parse_body_strips (s : string) :
  parse_body (magic_prefix ++ s)
  = match json_loads s with
    | inr v => Ok v
    | inl (JSONDecodeError m) => Err (parse_failed m)
    | inl (Raised e) => Err e
    end.
Proof.
  unfold parse_body. rewrite startswith_magic, drop_magic. reflexivity.
Qed.

(** A body that does not begin with it is decoded as it is. *)
Lemma parse_body_plain (s : string) :
  Py.startswith magic_prefix s = false ->
  parse_body s
  = match json_loads s with
    | inr v => Ok v
    | inl (JSONDecodeError m) => Err (parse_failed m)
    | inl (Raised e) => Err e
    end.
Proof. unfold parse_body. now intros ->. Qed.

End RequestPrimitive.

(** Where the errors of the primitive come from. *)

Section RequestErrors.

Context {RT : Runtime}.

Import GerritApi.

Lemma startswith_app (p s t : string) :
  Py.startswith p s = true -> Py.startswith p (s ++ t) = true.
Proof.
  revert s. induction p as [| a p IH]; intros s; [reflexivity |].
  destruct s as [| b s]; simpl; [discriminate |].
  destruct (Ascii.eqb a b); simpl; [apply IH | discriminate].
Qed.

(** Without a password the call raises at once. *)
Lemma make_request_no_password (ctx : Context) (endpoint : string)
      (w : world) :
  truthy_opt (http_password (lifespan_context ctx)) = false ->
  make_gerrit_rest_request ctx endpoint w = (Err password_not_set, w).
Proof.
  unfold make_gerrit_rest_request, raise.
  destruct (http_password (lifespan_context ctx)) as [password |];
    [| reflexivity].
  simpl. destruct (String.eqb password ""); [reflexivity | discriminate].
Qed.

(** With a password the call sends one request and handles its outcome. *)
Lemma make_request_sent (ctx : Context) (endpoint password : string)
      (w : world) :
  http_password (lifespan_context ctx) = Some password ->
  password <> "" ->
  make_gerrit_rest_request ctx endpoint w
  = match requests_get (request_of ctx endpoint password) w with
    | (Response r, w') => (handle_response r, w')
    | (RequestFailed msg (Some _), w') => (Err (request_failed msg), w')
    | (RequestFailed msg None, w') =>
        (Err (attribute_error JNull "status_code"), w')
    | (GetRaised e, w') => (Err e, w')
    end.
Proof.
  intros Hpw Hne. unfold make_gerrit_rest_request, request_of.
  rewrite Hpw. apply String.eqb_neq in Hne. rewrite Hne. reflexivity.
Qed.

(** The text that is decoded: the body without the magic prefix. *)
Lemma parse_body_error (content : string) (e : exn) :
  parse_body content = Err e ->
  (exists m, e = parse_failed m)
  \/ json_loads (if Py.startswith magic_prefix content
                 then Py.drop 4 content else content)
     = inl (Raised e).
Proof.
  unfold parse_body.
  destruct (json_loads _) as [[m | e'] | v]; [| | discriminate].
  - intros H. inversion H. left. exists m; reflexivity.
  - intros H. inversion H. right. reflexivity.
Qed.

Lemma handle_response_error (r : response) (e : exn) :
  handle_response r = Err e ->
  e = authentication_failed
  \/ (exists m, e = request_failed m)
  \/ (exists m, e = parse_failed m)
  \/ json_loads (if Py.startswith magic_prefix (text r)
                 then Py.drop 4 (text r) else text r)
     = inl (Raised e).
Proof.
  unfold handle_response.
  destruct (status_code r =? 401).
  - intros H. inversion H. left; reflexivity.
  - destruct (raise_for_status r) as [m |].
    + intros H. inversion H. right; left. exists m; reflexivity.
    + intros H. right; right. exact (parse_body_error _ _ H).
Qed.

End RequestErrors.

(** C5, as amended.  For every request that is sent (the context holds a
    non-empty password) and answered with status 401, the request
    primitive fails with the authentication error, whatever the response
    body is; that error differs from every transport-failure error and
    from every response-format error; its message is a constant, the
    same for every response body. *)
Theorem unauthorized_is_authentication_error {RT : Runtime}
        (ctx : Context) (endpoint password : string)
        (w w' : world) (r : response) :
  http_password (lifespan_context ctx) = Some password ->
  password <> "" ->
  requests_get
    {| req_url := GerritApi.request_url (lifespan_context ctx) endpoint;
       req_user := user (lifespan_context ctx);
       req_password := password;
       req_verify := GerritApi.verify_ssl |} w = (Response r, w') ->
  status_code r = 401 ->
  GerritApi.make_gerrit_rest_request ctx endpoint w
  = (Err GerritApi.authentication_failed, w')
  /\ (forall msg,
         GerritApi.authentication_failed <> GerritApi.request_failed msg)
  /\ (forall msg,
         GerritApi.authentication_failed <> GerritApi.parse_failed msg)
  /\ exn_msg GerritApi.authentication_failed
     = "Authentication failed. Please check your Gerrit HTTP password in your account settings.".
Proof.
  intros Hpw Hne Hget Hstatus.
  repeat split; try discriminate.
  unfold GerritApi.make_gerrit_rest_request.
  rewrite Hpw.
  apply String.eqb_neq in Hne. rewrite Hne.
  rewrite Hget.
  unfold GerritApi.handle_response. rewrite Hstatus. reflexivity.
Qed.

(** A backend that answers 401: the request is sent once and the
    authentication error comes back. *)
Lemma unauthorized_is_authentication_error_witness :
  GerritApi.make_gerrit_rest_request
    (RT := Examples.unauthorized "Unauthorized") Examples.ctx
    "changes/500/detail" []
  = (Err GerritApi.authentication_failed,
     [{| req_url := "https://host/a/changes/500/detail";
         req_user := "alice";
         req_password := "secret";
         req_verify := true |}]).
Proof.
  refine (proj1 (@unauthorized_is_authentication_error
                   (Examples.unauthorized "Unauthorized") Examples.ctx
                   "changes/500/detail" "secret" [] _
                   {| status_code := 401; reason := "Unauthorized";
                      resp_url := "https://host/a/changes/500/detail";
                      text := "Unauthorized" |}
                   eq_refl _ eq_refl eq_refl)).
  discriminate.
Defined.

(** C5 as stated fails: two responses with status 401 and different
    bodies raise one and the same error, whose message contains neither
    body; the error does not carry the response body. *)
Lemma unauthorized_counterexample :
  fst (GerritApi.make_gerrit_rest_request
         (RT := Examples.unauthorized "Unauthorized") Examples.ctx
         "changes/500/detail" [])
  = Err GerritApi.authentication_failed
  /\ fst (GerritApi.make_gerrit_rest_request
            (RT := Examples.unauthorized "Token expired") Examples.ctx
            "changes/500/detail" [])
     = Err GerritApi.authentication_failed
  /\ "Unauthorized" <> "Token expired"
  /\ Examples.has "Unauthorized" (exn_msg GerritApi.authentication_failed)
     = false
  /\ Examples.has "Token expired" (exn_msg GerritApi.authentication_failed)
     = false.
Proof. repeat split. discriminate. Qed.

(** The reference decoder accepts no text that begins with the magic
    prefix. *)
Lemma reference_rejects_magic (s : string) (v : json) :
  Reference.json_loads s = inr v ->
  Py.startswith GerritApi.magic_prefix s = false.
Proof.
  destruct s as [| a s]; [reflexivity |].
  intros Hv. unfold GerritApi.magic_prefix.
  cbn [Py.startswith].
  destruct (Ascii.eqb ")" a) eqn:Ha; [| reflexivity].
  apply Ascii.eqb_eq in Ha. subst a.
  exfalso. revert Hv.
  unfold Reference.json_loads. simpl. discriminate.
Qed.

(** C6.  Let the JSON decoder accept no text that begins with the magic
    prefix [)]}'] (no JSON text does).  Then for every valid JSON body
    [j], a response whose body is the prefix followed by [j] is handled
    exactly like the response whose body is [j] alone, and both yield the
    value of [j]: the prefix is stripped when present at the start of the
    body, before decoding. *)
Theorem magic_prefix_transparent {RT : Runtime} (j : string) (v : json) :
  (forall s v', json_loads s = inr v' ->
                Py.startswith GerritApi.magic_prefix s = false) ->
  json_loads j = inr v ->
  GerritApi.parse_body (GerritApi.magic_prefix ++ j) = GerritApi.parse_body j
  /\ GerritApi.parse_body j = Ok v
  /\ (forall code why url,
         GerritApi.handle_response
           {| status_code := code; reason := why; resp_url := url;
              text := GerritApi.magic_prefix ++ j |}
         = GerritApi.handle_response
             {| status_code := code; reason := why; resp_url := url;
                text := j |}).
Proof.
  intros Hjson Hj.
  assert (Hplain : GerritApi.parse_body j = Ok v).
  { rewrite (parse_body_plain j (Hjson j v Hj)), Hj. reflexivity. }
  assert (Hsame : GerritApi.parse_body (GerritApi.magic_prefix ++ j)
                  = GerritApi.parse_body j).
  { rewrite parse_body_strips, Hj, Hplain. reflexivity. }
  split; [exact Hsame | split; [exact Hplain |]].
  intros code why url. unfold GerritApi.handle_response.
  cbn [status_code text]. unfold GerritApi.raise_for_status.
  cbn [status_code reason resp_url]. rewrite Hsame. reflexivity.
Qed.

(** The reference decoder meets the assumption; the body of change 500
    decodes to the same value with and without the prefix. *)
Lemma magic_prefix_transparent_witness :
  GerritApi.parse_body (RT := Examples.online)
    (GerritApi.magic_prefix ++ Reference.json_dumps Examples.change_500)
  = GerritApi.parse_body (RT := Examples.online)
      (Reference.json_dumps Examples.change_500)
  /\ GerritApi.parse_body (RT := Examples.online)
       (Reference.json_dumps Examples.change_500)
     = Ok Examples.change_500.
Proof.
  destruct (@magic_prefix_transparent Examples.online
              (Reference.json_dumps Examples.change_500)
              Examples.change_500 reference_rejects_magic)
    as [Hsame [Hplain _]].
  - vm_compute; reflexivity.
  - split; [exact Hsame | exact Hplain].
Defined.

(** ** The empty patchset number *)

(** What the reference decoder raises. *)

Lemma read_number_raises (s : string) (e : exn) :
  Reference.read_number s = Reference.Raises e -> decoder_error e.
Proof.
  assert (Hint : forall negative t,
             Reference.read_integer negative t = Reference.Raises e ->
             decoder_error e).
  { intros negative t. unfold Reference.read_integer.
    destruct (Reference.read_digits t 0 0) as [[z digits] rest].
    destruct (Reference.starts_fraction rest); [discriminate |].
    destruct (Nat.ltb Reference.int_max_str_digits digits); [| discriminate].
    intros H. inversion H. left. exists digits. reflexivity. }
  unfold Reference.read_number.
  repeat match goal with
         | |- context [match ?x with _ => _ end] =>
             lazymatch x with
             | Reference.read_integer _ _ => fail
             | _ => destruct x
             end
         end; try discriminate; apply Hint.
Qed.

Section ReferenceContainers.
Variable rv : string -> Reference.scan json.
Hypothesis Hrv : forall s e, rv s = Reference.Raises e -> decoder_error e.

Lemma read_elements_raises (fuel : nat) :
  forall s acc e,
    Reference.read_elements rv fuel s acc = Reference.Raises e -> decoder_error e.
Proof.
  induction fuel as [| fuel IH]; intros s acc e; cbn [Reference.read_elements];
    [discriminate |].
  destruct (Reference.skip_ws s) as [| a r]; [discriminate |].
  destruct (Ascii.eqb a "]") eqn:Hclose.
  - apply Ascii.eqb_eq in Hclose. subst a. discriminate.
  - destruct (Ascii.eqb a ",") eqn:Hcomma.
    + apply Ascii.eqb_eq in Hcomma. subst a.
      destruct (rv r) as [v rest | | e'] eqn:Hv; [apply IH | discriminate |].
      intros H. inversion H; subst. exact (Hrv _ _ Hv).
    + destruct a as [[] [] [] [] [] [] [] []]; try discriminate.
Qed.

Lemma read_member_raises (s : string) (e : exn) :
  Reference.read_member rv s = Reference.Raises e -> decoder_error e.
Proof.
  unfold Reference.read_member.
  destruct (Reference.skip_ws s) as [| a r]; [discriminate |].
  destruct (Ascii.eqb a Reference.dquote); [| discriminate].
  destruct (Reference.read_string r) as [[k rest] |]; [| discriminate].
  destruct (Reference.skip_ws rest) as [| c rest'] eqn:Hrest; [discriminate |].
  destruct (Ascii.eqb c ":") eqn:Hc.
  - apply Ascii.eqb_eq in Hc. subst c.
    destruct (rv rest') as [v rest'' | | e'] eqn:Hv; try discriminate.
    intros H. inversion H; subst. exact (Hrv _ _ Hv).
  - destruct c as [[] [] [] [] [] [] [] []]; try discriminate.
Qed.

Lemma read_members_raises (fuel : nat) :
  forall s acc e,
    Reference.read_members rv fuel s acc = Reference.Raises e -> decoder_error e.
Proof.
  induction fuel as [| fuel IH]; intros s acc e; cbn [Reference.read_members];
    [discriminate |].
  destruct (Reference.skip_ws s) as [| a r]; [discriminate |].
  destruct (Ascii.eqb a "}") eqn:Hclose.
  - apply Ascii.eqb_eq in Hclose. subst a. discriminate.
  - destruct (Ascii.eqb a ",") eqn:Hcomma.
    + apply Ascii.eqb_eq in Hcomma. subst a.
      destruct (Reference.read_member rv r) as [[k v] rest | | e'] eqn:Hm;
        [apply IH | discriminate |].
      intros H. inversion H; subst. exact (read_member_raises _ _ Hm).
    + destruct a as [[] [] [] [] [] [] [] []]; try discriminate.
Qed.
End ReferenceContainers.

Lemma read_value_raises (depth : nat) :
  forall s e, Reference.read_value depth s = Reference.Raises e -> decoder_error e.
Proof.
  induction depth as [| depth IH]; intros s e.
  - cbn [Reference.read_value].
    destruct (Reference.skip_ws s) as [| a r]; [discriminate |].
    destruct (Ascii.eqb a "{") eqn:Hobj.
    { apply Ascii.eqb_eq in Hobj. subst a. intros H. inversion H.
      right. eexists; reflexivity. }
    destruct (Ascii.eqb a "[") eqn:Harr.
    { apply Ascii.eqb_eq in Harr. subst a. intros H. inversion H.
      right. eexists; reflexivity. }
    destruct (Ascii.eqb a Reference.dquote) eqn:Hq.
    { apply Ascii.eqb_eq in Hq. subst a. cbn.
      destruct (Reference.read_string r) as [[body rest] |]; discriminate. }
    intros H.
    assert (Hnum : Reference.read_number (String a r) = Reference.Raises e
                   \/ False).
    { revert H.
      destruct a as [[] [] [] [] [] [] [] []]; try discriminate;
        cbn [Ascii.eqb Bool.eqb Reference.dquote ascii_of_nat] in *;
        repeat match goal with
               | |- context [match ?x with _ => _ end] =>
                   lazymatch x with
                   | Reference.read_number _ => fail
                   | _ => destruct x
                   end
               end; try discriminate; intros H; left; exact H. }
    destruct Hnum as [Hnum | []]. exact (read_number_raises _ _ Hnum).
  - cbn [Reference.read_value].
    destruct (Reference.skip_ws s) as [| a r]; [discriminate |].
    destruct (Ascii.eqb a "{") eqn:Hobj.
    { apply Ascii.eqb_eq in Hobj. subst a.
      destruct (Reference.skip_ws r) as [| b r'].
      - destruct (Reference.read_member (Reference.read_value depth) r)
          as [[k v] rest | | e'] eqn:Hm; try discriminate.
        + apply read_members_raises. exact IH.
        + intros H. inversion H; subst.
          exact (read_member_raises _ IH _ _ Hm).
      - destruct (Ascii.eqb b "}") eqn:Hb.
        + apply Ascii.eqb_eq in Hb. subst b. discriminate.
        + assert (Hgo : match Reference.read_member
                                (Reference.read_value depth) r with
                        | Reference.Scanned (k, v) rest =>
                            Reference.read_members (Reference.read_value depth)
                              (String.length r) rest [(k, v)]
                        | Reference.Malformed => Reference.Malformed
                        | Reference.Raises e0 => Reference.Raises e0
                        end = Reference.Raises e -> decoder_error e).
          { destruct (Reference.read_member (Reference.read_value depth) r)
              as [[k v] rest | | e'] eqn:Hm; try discriminate.
            - apply read_members_raises. exact IH.
            - intros H. inversion H; subst.
              exact (read_member_raises _ IH _ _ Hm). }
          destruct b as [[] [] [] [] [] [] [] []]; try discriminate;
            exact Hgo. }
    destruct (Ascii.eqb a "[") eqn:Harr.
    { apply Ascii.eqb_eq in Harr. subst a.
      assert (Hgo : match Reference.read_value depth r with
                    | Reference.Scanned v rest =>
                        Reference.read_elements (Reference.read_value depth)
                          (String.length r) rest [v]
                    | Reference.Malformed => Reference.Malformed
                    | Reference.Raises e0 => Reference.Raises e0
                    end = Reference.Raises e -> decoder_error e).
      { destruct (Reference.read_value depth r) as [v rest | | e'] eqn:Hv;
          try discriminate.
        - apply read_elements_raises. exact IH.
        - intros H. inversion H; subst. exact (IH _ _ Hv). }
      destruct (Reference.skip_ws r) as [| b r']; [exact Hgo |].
      destruct (Ascii.eqb b "]") eqn:Hb.
      - apply Ascii.eqb_eq in Hb. subst b. discriminate.
      - destruct b as [[] [] [] [] [] [] [] []]; try discriminate;
          exact Hgo. }
    destruct (Ascii.eqb a Reference.dquote) eqn:Hq.
    { apply Ascii.eqb_eq in Hq. subst a. cbn.
      destruct (Reference.read_string r) as [[body rest] |]; discriminate. }
    intros H.
    assert (Hnum : Reference.read_number (String a r) = Reference.Raises e
                   \/ False).
    { revert H.
      destruct a as [[] [] [] [] [] [] [] []]; try discriminate;
        cbn [Ascii.eqb Bool.eqb Reference.dquote ascii_of_nat] in *;
        repeat match goal with
               | |- context [match ?x with _ => _ end] =>
                   lazymatch x with
                   | Reference.read_number _ => fail
                   | _ => destruct x
                   end
               end; try discriminate; intros H; left; exact H. }
    destruct Hnum as [Hnum | []]. exact (read_number_raises _ _ Hnum).
Qed.

Lemma reference_raises (text : string) (e : exn) :
  Reference.json_loads text = inl (Raised e) -> decoder_error e.
Proof.
  unfold Reference.json_loads.
  destruct (Reference.read_value Reference.max_nesting text)
    as [v rest | | e'] eqn:Hv.
  - destruct (Reference.skip_ws rest); discriminate.
  - discriminate.
  - intros H. inversion H; subst. exact (read_value_raises _ _ _ Hv).
Qed.

(** The reference decoder raises no patchset-not-found error. *)
Lemma reference_never_patchset (text : string) (n : option string)
      (available : list string) :
  Reference.json_loads text
  <> inl (Raised (GerritService.patchset_not_found n available)).
Proof.
  intros H. apply reference_raises in H.
  destruct H as [[digits H] | [container H]]; discriminate H.
Qed.

Section EmptyPatchsetNumber.

Context {RT : Runtime}.

Import GerritApi GerritService.

Lemma assoc_In {A} (k : string) (v : A) (l : list (string * A)) :
  assoc k l = Some v -> In (k, v) l.
Proof.
  induction l as [| [k' v'] r IH]; simpl; [discriminate |].
  destruct (String.eqb k' k) eqn:Heq.
  - intros H. inversion H. apply String.eqb_eq in Heq. subst. left; reflexivity.
  - intros H. right. exact (IH H).
Qed.

(** What a successful resolution returns. *)
Lemma resolve_revision_inv (change_info : json)
      (patchset_number : option string) (revisions target : json) :
  resolve_revision change_info patchset_number = Ok (revisions, target) ->
  py_get_default change_info "revisions" (JObj []) = Ok revisions
  /\ truthy target = true
  /\ py_contains revisions target = Ok true
  /\ (truthy_opt patchset_number = false ->
      py_get change_info "current_revision" = Ok target)
  /\ (truthy_opt patchset_number = true ->
      exists items,
        revisions = JObj items
        /\ scan_revisions items (str_opt patchset_number) = Ok target).
Proof.
  unfold resolve_revision.
  destruct (py_get change_info "current_revision") as [cur | e];
    cbn [rbind]; [| discriminate].
  destruct (py_get_default change_info "revisions" (JObj []))
    as [revs | e]; cbn [rbind]; [| discriminate].
  destruct (truthy_opt patchset_number) eqn:Hpn.
  - destruct (py_items revs) as [items | e] eqn:Hitems; cbn [rbind];
      [| discriminate].
    destruct (scan_revisions items (str_opt patchset_number))
      as [found | e] eqn:Hscan; cbn [rbind]; [| discriminate].
    destruct (truthy found) eqn:Hfound; cbn [negb].
    2:{ destruct (available_patchsets items); discriminate. }
    cbn [rbind]. rewrite Hfound. cbn [negb].
    destruct (py_contains revs found) as [[|] | e] eqn:Hc; cbn [rbind negb];
      try discriminate.
    intros H. inversion H; subst.
    destruct revisions; try discriminate.
    cbn [py_items] in Hitems. inversion Hitems; subst.
    repeat split; try assumption; try discriminate.
    intros _. eexists. split; [reflexivity | exact Hscan].
  - cbn [rbind].
    destruct (truthy cur) eqn:Hcur; cbn [negb]; [| discriminate].
    destruct (py_contains revs cur) as [[|] | e] eqn:Hc; cbn [rbind negb];
      try discriminate.
    intros H. inversion H; subst.
    repeat split; try assumption; try discriminate.
Qed.

(** With the empty patchset number the current revision is taken, when
    it is a non-empty key of the revisions. *)
Lemma resolve_empty_current (D : json) (items : list (string * json))
      (rev : string) :
  py_get D "current_revision" = Ok (JStr rev) ->
  py_get_default D "revisions" (JObj []) = Ok (JObj items) ->
  rev <> "" ->
  In rev (keys items) ->
  resolve_revision D (Some "") = Ok (JObj items, JStr rev).
Proof.
  intros Hcur Hrevs Hne Hin. unfold resolve_revision.
  rewrite Hcur, Hrevs. cbn [rbind truthy_opt String.eqb negb].
  exact (guard_passes items rev Hne Hin).
Qed.

(** Without such a current revision the resolution fails at line 117. *)
Lemma resolve_empty_missing (D cur : json) (items : list (string * json)) :
  py_get D "current_revision" = Ok cur ->
  py_get_default D "revisions" (JObj []) = Ok (JObj items) ->
  cur = JNull
  \/ (exists rev, cur = JStr rev /\ (rev = "" \/ ~ In rev (keys items))) ->
  resolve_revision D (Some "") = Err revision_not_found.
Proof.
  intros Hcur Hrevs Hmissing. unfold resolve_revision.
  rewrite Hcur, Hrevs. cbn [rbind truthy_opt String.eqb negb].
  destruct Hmissing as [-> | [rev [-> [-> | Hnot]]]]; try reflexivity.
  destruct (truthy (JStr rev)); cbn [negb]; [| reflexivity].
  cbn [py_contains rbind].
  destruct (Py.mem rev (keys items)) eqn:Hmem; [| reflexivity].
  exfalso. apply Hnot. apply mem_In. exact Hmem.
Qed.

(** Lines 103-112 are not entered with the empty patchset number. *)
Lemma resolve_empty_not_patchset (D : json) (n : option string)
      (available : list string) :
  resolve_revision D (Some "") <> Err (patchset_not_found n available).
Proof.
  destruct D; simpl; try discriminate.
  unfold resolve_revision, py_get, py_get_default.
  cbn [rbind truthy_opt String.eqb negb].
  match goal with
  | |- context [truthy ?c] => destruct (truthy c)
  end; cbn [negb]; [| discriminate].
  match goal with
  | |- context [py_contains ?r ?c] =>
      destruct (py_contains r c) as [[|] |] eqn:Hc
  end; cbn [rbind negb]; try discriminate.
  intros H. inversion H; subst.
  unfold py_contains in Hc.
  repeat match type of Hc with
         | match ?x with _ => _ end = _ => destruct x
         end; discriminate.
Qed.

(** Where an error of the request primitive comes from. *)
Lemma make_request_error_origin (ctx : Context) (endpoint : string)
      (w w' : world) (e : exn) :
  make_gerrit_rest_request ctx endpoint w = (Err e, w') ->
  e = password_not_set
  \/ exn_cls e = PyException
  \/ exn_cls e = AttributeError
  \/ (exists text, json_loads text = inl (Raised e))
  \/ (exists r w0, fst (requests_get r w0) = GetRaised e).
Proof.
  destruct (truthy_opt (http_password (lifespan_context ctx))) eqn:Hpw.
  - destruct (truthy_opt_inv _ Hpw) as [password [Hsome Hne]].
    rewrite (make_request_sent ctx endpoint password w Hsome Hne).
    destruct (requests_get _ w) as [[r | msg [status |] | e'] w1] eqn:Hget;
      intros H.
    + inversion H as [[Hr Hw]].
      destruct (handle_response_error r e Hr)
        as [-> | [[m ->] | [[m ->] | Hloads]]].
      * right; left; reflexivity.
      * right; left; reflexivity.
      * right; left; reflexivity.
      * right; right; right; left. eexists. exact Hloads.
    + inversion H. right; left; reflexivity.
    + inversion H. right; right; left; reflexivity.
    + inversion H; subst. right; right; right; right.
      eexists. eexists. rewrite Hget. reflexivity.
  - rewrite (make_request_no_password ctx endpoint w Hpw).
    intros H. inversion H. left; reflexivity.
Qed.

Lemma make_file_data_error (file_path : string) (file_info diff_info : json)
      (e : exn) :
  make_file_data file_path file_info diff_info = Err e ->
  exn_cls e = AttributeError.
Proof.
  unfold make_file_data.
  destruct file_info; simpl; try discriminate;
    intros H; inversion H; reflexivity.
Qed.

(** An error of the loop over the files is an error of a diff request or
    of a [get] on a file entry that is not a dict. *)
Lemma process_files_error (ctx : Context) (change_id : string)
      (target_revision : json) (items : list (string * json)) :
  forall processed w e w',
    process_files ctx change_id target_revision items processed w
    = (Err e, w') ->
    e = password_not_set
    \/ exn_cls e = PyException
    \/ exn_cls e = AttributeError
    \/ (exists text, json_loads text = inl (Raised e))
    \/ (exists r w0, fst (requests_get r w0) = GetRaised e).
Proof.
  induction items as [| [file_path file_info] rest IH];
    intros processed w e w' Hrun.
  - discriminate.
  - cbn [process_files] in Hrun.
    destruct (String.eqb file_path COMMIT_MSG).
    + exact (IH _ _ _ _ Hrun).
    + unfold bind, lift in Hrun.
      destruct (make_gerrit_rest_request ctx _ w) as [[diff_info | e1] w1]
        eqn:Hreq.
      * destruct (make_file_data file_path file_info diff_info)
          as [fd | e2] eqn:Hfd.
        -- exact (IH _ _ _ _ Hrun).
        -- inversion Hrun; subst. right; right; left.
           exact (make_file_data_error _ _ _ _ Hfd).
      * inversion Hrun; subst.
        exact (make_request_error_origin _ _ _ _ _ Hreq).
Qed.

End EmptyPatchsetNumber.



(** ** Clone-URL derivation *)

Section CloneUrl.

Context {RT : Runtime}.

Import GerritService.

Lemma index_some_mem (x : string) (l : list string) (k : nat) :
  Py.index x l = Some k -> Py.mem x l = true.
Proof.
  revert k. induction l as [| y r IH]; simpl; intros k; [discriminate |].
  rewrite (String.eqb_sym x y).
  destruct (String.eqb y x); [reflexivity |].
  destruct (Py.index x r) as [k' |]; [| discriminate].
  intros _. exact (IH k' eq_refl).
Qed.

Lemma index_none_mem (x : string) (l : list string) :
  Py.index x l = None -> Py.mem x l = false.
Proof.
  induction l as [| y r IH]; simpl; [reflexivity |].
  rewrite (String.eqb_sym x y).
  destruct (String.eqb y x); [discriminate |].
  destruct (Py.index x r); [discriminate |].
  intros _. exact (IH eq_refl).
Qed.

Lemma plus_index_some (path_parts : list string) (k : nat) :
  Py.index "+" path_parts = Some k -> plus_index path_parts = Z.of_nat k.
Proof.
  intros H. unfold plus_index.
  rewrite (index_some_mem _ _ _ H), H. reflexivity.
Qed.

Lemma plus_index_none (path_parts : list string) :
  Py.index "+" path_parts = None -> plus_index path_parts = (-1)%Z.
Proof.
  intros H. unfold plus_index.
  rewrite (index_none_mem _ _ H). reflexivity.
Qed.

Lemma split_nonempty (c : ascii) (s : string) : Py.split c s <> [].
Proof.
  induction s as [| a r IH]; simpl; [discriminate |].
  destruct (Ascii.eqb a c); [discriminate |].
  destruct (Py.split c r); discriminate.
Qed.

Lemma last_item_some (l : list string) :
  l <> [] -> exists x, Py.last_item l = Some x.
Proof.
  destruct l as [| x r]; [congruence |].
  intros _. eexists; reflexivity.
Qed.

(** With a [+] at index [k > 1] that is not the last segment, the body of
    the [try] returns without touching the network. *)
Lemma derive_clone_url_direct (ctx : Context)
      (change_url clone_url_type : string) (parsed : ParseResult)
      (k : nat) (w : world) :
  urlparse change_url = Ok parsed ->
  Py.index "+" (Py.split "/" (Py.strip "/" (path parsed))) = Some k ->
  (1 < k)%nat ->
  (k + 1 < length (Py.split "/" (Py.strip "/" (path parsed))))%nat ->
  derive_clone_url ctx change_url clone_url_type w
  = (Ok (full_clone_url clone_url_type (scheme parsed) (hostname parsed)
           (acting_user ctx)
           (Py.join "/" (Py.slice 1 k
                           (Py.split "/" (Py.strip "/" (path parsed)))))),
     w).
Proof.
  intros Hparse Hindex Hk Hlen.
  unfold derive_clone_url, bind, lift. rewrite Hparse.
  rewrite (plus_index_some _ _ Hindex).
  assert (Hgt : (1 <? Z.of_nat k)%Z = true) by (apply Z.ltb_lt; lia).
  rewrite Hgt.
  unfold list_getitem.
  replace (Z.to_nat (Z.of_nat k + 1)) with (k + 1)%nat by lia.
  destruct (nth_error (Py.split "/" (Py.strip "/" (path parsed))) (k + 1))
    as [change_id |] eqn:Hnth.
  - rewrite Nat2Z.id. reflexivity.
  - apply nth_error_None in Hnth. lia.
Qed.

(** Without a [+] at an index above 1, the body of the [try] looks the
    change up under the last path segment. *)
Lemma derive_clone_url_lookup (ctx : Context)
      (change_url clone_url_type : string) (parsed : ParseResult)
      (w : world) :
  urlparse change_url = Ok parsed ->
  (plus_index (Py.split "/" (Py.strip "/" (path parsed))) <= 1)%Z ->
  exists change_id,
    Py.last_item (Py.split "/" (Py.strip "/" (path parsed))) = Some change_id
    /\ derive_clone_url ctx change_url clone_url_type w
       = match fetch_gerrit_change ctx change_id None w with
         | (Ok change, w') =>
             (Ok (full_clone_url clone_url_type (scheme parsed)
                    (hostname parsed) (acting_user ctx)
                    (py_str (cr_project change))), w')
         | (Err e, w') => (Err e, w')
         end.
Proof.
  intros Hparse Hle.
  destruct (last_item_some _ (split_nonempty "/" (Py.strip "/" (path parsed))))
    as [change_id Hlast].
  exists change_id. split; [exact Hlast |].
  unfold derive_clone_url, bind, lift. rewrite Hparse.
  assert (Hgt : (1 <? plus_index
                        (Py.split "/" (Py.strip "/" (path parsed))))%Z
                = false) by (apply Z.ltb_ge; exact Hle).
  rewrite Hgt, Hlast.
  destruct (fetch_gerrit_change ctx change_id None w) as [[change | e] w'];
    reflexivity.
Qed.

End CloneUrl.

(** C7, as amended.  For every change URL whose path, split at [/], has
    its first [+] segment at a position above 1 and at least one segment
    after it, [get_repository_path_from_change] with clone URL type "ssh"
    takes the segments between the leading segment and [+] as the project
    path and returns [ssh://{user@}{host}:29418/{project}.git], without
    any request to the backend.  In particular, with [urlparse] splitting
    "http://host/c/proj/sub/+/777" in the standard way and the acting
    user "alice", the result is "ssh://alice@host:29418/proj/sub.git". *)
Theorem clone_url_ssh {RT : Runtime} (ctx : Context) (w : world) :
  (forall change_url parsed k,
      urlparse change_url = Ok parsed ->
      let path_parts := Py.split "/" (Py.strip "/" (path parsed)) in
      Py.index "+" path_parts = Some k ->
      (1 < k)%nat ->
      (k + 1 < length path_parts)%nat ->
      GerritService.get_repository_path_from_change ctx change_url "ssh" w
      = (Ok ("ssh://"
             ++ GerritService.user_prefix (GerritService.acting_user ctx)
             ++ str_opt (hostname parsed) ++ ":29418/"
             ++ Py.join "/" (Py.slice 1 k path_parts) ++ ".git"), w))
  /\ (urlparse "http://host/c/proj/sub/+/777"
      = Ok {| scheme := "http"; hostname := Some "host";
              path := "/c/proj/sub/+/777" |} ->
      GerritService.acting_user ctx = "alice" ->
      GerritService.get_repository_path_from_change
        ctx "http://host/c/proj/sub/+/777" "ssh" w
      = (Ok "ssh://alice@host:29418/proj/sub.git", w)).
Proof.
  assert (Hgeneral :
            forall change_url parsed k,
              urlparse change_url = Ok parsed ->
              Py.index "+" (Py.split "/" (Py.strip "/" (path parsed)))
              = Some k ->
              (1 < k)%nat ->
              (k + 1 < length (Py.split "/" (Py.strip "/" (path parsed))))%nat ->
              GerritService.get_repository_path_from_change
                ctx change_url "ssh" w
              = (Ok (GerritService.full_clone_url "ssh" (scheme parsed)
                       (hostname parsed) (GerritService.acting_user ctx)
                       (Py.join "/"
                          (Py.slice 1 k
                             (Py.split "/" (Py.strip "/" (path parsed)))))),
                 w)).
  { intros change_url parsed k Hparse Hindex Hk Hlen.
    unfold GerritService.get_repository_path_from_change, try_except.
    rewrite (derive_clone_url_direct ctx change_url "ssh" parsed k w
               Hparse Hindex Hk Hlen).
    reflexivity. }
  split.
  - intros change_url parsed k Hparse path_parts Hindex Hk Hlen.
    exact (Hgeneral change_url parsed k Hparse Hindex Hk Hlen).
  - intros Hparse Huser.
    rewrite (Hgeneral _ _ 3%nat Hparse eq_refl); [| lia | simpl; lia].
    unfold GerritService.full_clone_url. rewrite Huser. reflexivity.
Qed.

(** The scenario of the specification, and a URL with a patchset
    segment after the change number. *)
Lemma clone_url_ssh_witness :
  GerritService.get_repository_path_from_change (RT := Examples.online)
    Examples.ctx "http://host/c/proj/sub/+/777" "ssh" []
  = (Ok "ssh://alice@host:29418/proj/sub.git", [])
  /\ GerritService.get_repository_path_from_change (RT := Examples.online)
       Examples.ctx "https://review.example.org/c/platform/tools/+/42/3"
       "ssh" []
     = (Ok "ssh://alice@review.example.org:29418/platform/tools.git", []).
Proof.
  destruct (@clone_url_ssh Examples.online Examples.ctx [])
    as [Hgeneral Hscenario].
  split.
  - apply Hscenario; reflexivity.
  - refine (Hgeneral "https://review.example.org/c/platform/tools/+/42/3"
                     {| scheme := "https";
                        hostname := Some "review.example.org";
                        path := "/c/platform/tools/+/42/3" |}
                     3%nat eq_refl eq_refl _ _).
    + lia.
    + simpl; lia.
Defined.

(** C7 as stated fails: in "http://host/c/proj/+" the [+] segment is at
    position 2, yet no clone URL is returned; reading the segment after
    [+] raises [IndexError], which the function re-raises as
    [ValueError].  And in "http://host/c/+/x/+/500" there is a [+] at
    position 3, but the first [+] is at position 1: the project is not
    taken from the path, the change is looked up instead. *)
Lemma clone_url_ssh_counterexample :
  (urlparse (Runtime := Examples.online) "http://host/c/proj/+"
   = Ok {| scheme := "http"; hostname := Some "host"; path := "/c/proj/+" |}
   /\ Py.index "+" (Py.split "/" (Py.strip "/" "/c/proj/+")) = Some 2%nat
   /\ GerritService.get_repository_path_from_change (RT := Examples.online)
        Examples.ctx "http://host/c/proj/+" "ssh" []
      = (Err (Exn ValueError
                "Failed to extract repository path: list index out of range"),
         []))
  /\ (Py.split "/" (Py.strip "/" "/c/+/x/+/500")
      = ["c"; "+"; "x"; "+"; "500"]
      /\ fst (GerritService.get_repository_path_from_change
                (RT := Examples.online)
                Examples.ctx "http://host/c/+/x/+/500" "ssh" [])
         = Ok "ssh://alice@host:29418/proj/sub.git"
      /\ map req_url
             (snd (GerritService.get_repository_path_from_change
                     (RT := Examples.online)
                     Examples.ctx "http://host/c/+/x/+/500" "ssh" []))
         <> []).
Proof. repeat split. vm_compute. discriminate. Qed.

(** C8.  For every change URL whose path has no [+] segment, or has its
    first [+] segment at a position of at most 1,
    [get_repository_path_from_change] takes the last path segment as the
    change id and runs [fetch_gerrit_change] on it, with no patchset
    number: it returns the clone URL built from the project of the change
    found, and fails only if that lookup fails, with the lookup's
    message.  In particular, with [urlparse] splitting
    "http://host/c/+/777" in the standard way, the lookup is for change
    "777". *)
Theorem clone_url_fallback {RT : Runtime} (ctx : Context) (w : world) :
  (forall change_url clone_url_type parsed,
      urlparse change_url = Ok parsed ->
      let path_parts := Py.split "/" (Py.strip "/" (path parsed)) in
      Py.index "+" path_parts = None
      \/ (exists k, Py.index "+" path_parts = Some k /\ (k <= 1)%nat) ->
      exists change_id,
        Py.last_item path_parts = Some change_id
        /\ GerritService.get_repository_path_from_change
             ctx change_url clone_url_type w
           = match GerritService.fetch_gerrit_change ctx change_id None w with
             | (Ok change, w') =>
                 (Ok (GerritService.full_clone_url clone_url_type
                        (scheme parsed) (hostname parsed)
                        (GerritService.acting_user ctx)
                        (py_str (GerritService.cr_project change))), w')
             | (Err e, w') =>
                 (Err (Exn ValueError
                           ("Failed to extract repository path: "
                            ++ exn_msg e)), w')
             end)
  /\ (urlparse "http://host/c/+/777"
      = Ok {| scheme := "http"; hostname := Some "host";
              path := "/c/+/777" |} ->
      forall clone_url_type,
        GerritService.get_repository_path_from_change
          ctx "http://host/c/+/777" clone_url_type w
        = match GerritService.fetch_gerrit_change ctx "777" None w with
          | (Ok change, w') =>
              (Ok (GerritService.full_clone_url clone_url_type
                     "http" (Some "host")
                     (GerritService.acting_user ctx)
                     (py_str (GerritService.cr_project change))), w')
          | (Err e, w') =>
              (Err (Exn ValueError
                        ("Failed to extract repository path: "
                         ++ exn_msg e)), w')
          end).
Proof.
  assert (Hgeneral :
            forall change_url clone_url_type parsed,
              urlparse change_url = Ok parsed ->
              (GerritService.plus_index
                 (Py.split "/" (Py.strip "/" (path parsed))) <= 1)%Z ->
              exists change_id,
                Py.last_item (Py.split "/" (Py.strip "/" (path parsed)))
                = Some change_id
                /\ GerritService.get_repository_path_from_change
                     ctx change_url clone_url_type w
                   = match GerritService.fetch_gerrit_change
                             ctx change_id None w with
                     | (Ok change, w') =>
                         (Ok (GerritService.full_clone_url clone_url_type
                                (scheme parsed) (hostname parsed)
                                (GerritService.acting_user ctx)
                                (py_str (GerritService.cr_project change))),
                          w')
                     | (Err e, w') =>
                         (Err (Exn ValueError
                                   ("Failed to extract repository path: "
                                    ++ exn_msg e)), w')
                     end).
  { intros change_url clone_url_type parsed Hparse Hle.
    destruct (derive_clone_url_lookup ctx change_url clone_url_type parsed w
                Hparse Hle) as [change_id [Hlast Hrun]].
    exists change_id. split; [exact Hlast |].
    unfold GerritService.get_repository_path_from_change, try_except.
    rewrite Hrun.
    destruct (GerritService.fetch_gerrit_change ctx change_id None w)
      as [[change | e] w']; reflexivity. }
  split.
  - intros change_url clone_url_type parsed Hparse path_parts Hplus.
    subst path_parts.
    apply (Hgeneral change_url clone_url_type parsed Hparse).
    destruct Hplus as [Hnone | [k [Hsome Hk]]].
    + rewrite (plus_index_none _ Hnone). lia.
    + rewrite (plus_index_some _ _ Hsome). lia.
  - intros Hparse clone_url_type.
    destruct (Hgeneral _ clone_url_type _ Hparse) as [change_id [Hlast Hrun]].
    + vm_compute. discriminate.
    + cbn in Hlast. inversion Hlast; subst change_id.
      exact Hrun.
Qed.

(** The scenario of the specification on the example backend: the
    first request is the lookup of change 777, and its project makes the
    clone URL. *)
Lemma clone_url_fallback_witness :
  fst (GerritService.get_repository_path_from_change (RT := Examples.online)
         Examples.ctx "http://host/c/+/777" "http" [])
  = Ok "http://alice@host/a/proj/sub.git"
  /\ map req_url
         (snd (GerritService.get_repository_path_from_change
                 (RT := Examples.online)
                 Examples.ctx "http://host/c/+/777" "http" []))
     = ["https://host/a/changes/777/detail?o=CURRENT_REVISION&o=CURRENT_COMMIT&o=MESSAGES&o=DETAILED_LABELS&o=DETAILED_ACCOUNTS&o=ALL_REVISIONS&o=ALL_COMMITS&o=ALL_FILES&o=COMMIT_FOOTERS";
        "https://host/a/changes/777/revisions/r2/files/a.txt/diff";
        "https://host/a/changes/777/revisions/r2/files/b%20c.txt/diff"].
Proof.
  rewrite (proj2 (@clone_url_fallback Examples.online Examples.ctx [])
                 eq_refl "http").
  vm_compute. split; reflexivity.
Defined.

(** ** The scenario of change 500

    Change "500" has revisions [r1] (patchset 1) and [r2] (patchset 2,
    current).  Without a patchset number [fetch_gerrit_change] shows
    [r2], with "1" it shows [r1], and with "9" it fails and offers the
    patchsets 1 and 2. *)
Example scenario_change_500 :
  option_map GerritService.cr_revision
    (match fst (GerritService.fetch_gerrit_change (RT := Examples.online)
                  Examples.ctx "500" None []) with
     | Ok r => Some r
     | Err _ => None
     end) = Some (JStr "r2")
  /\ option_map GerritService.cr_revision
       (match fst (GerritService.fetch_gerrit_change (RT := Examples.online)
                     Examples.ctx "500" (Some "1") []) with
        | Ok r => Some r
        | Err _ => None
        end) = Some (JStr "r1")
  /\ fst (GerritService.fetch_gerrit_change (RT := Examples.online)
            Examples.ctx "500" (Some "9") [])
     = Err (GerritService.patchset_not_found (Some "9") ["1"; "2"])
  /\ exn_msg (GerritService.patchset_not_found (Some "9") ["1"; "2"])
     = "Patchset 9 not found. Available patchsets: 1, 2".
Proof. vm_compute. repeat split. Qed.

(** * Further properties of the code *)

(** ** The request primitive: errors and URLs *)

(** X1.  When the context holds no password ([None] or the empty
    string), [make_gerrit_rest_request] raises "HTTP password not set"
    and leaves the world as it was: no request is sent.  The two fetch
    operations, which begin with such a call, fail in the same way. *)
Theorem no_password_no_request {RT : Runtime} (ctx : Context) (w : world) :
  truthy_opt (http_password (lifespan_context ctx)) = false ->
  (forall endpoint,
      GerritApi.make_gerrit_rest_request ctx endpoint w
      = (Err GerritApi.password_not_set, w))
  /\ (forall change_id patchset_number,
         GerritService.fetch_gerrit_change ctx change_id patchset_number w
         = (Err GerritApi.password_not_set, w))
  /\ (forall change_id base_patchset target_patchset file_path,
         GerritService.fetch_patchset_diff ctx change_id base_patchset
                                           target_patchset file_path w
         = (Err GerritApi.password_not_set, w)).
Proof.
  intros Hpw. repeat split.
  - intros endpoint. exact (make_request_no_password ctx endpoint w Hpw).
  - intros change_id patchset_number.
    unfold GerritService.fetch_gerrit_change, bind.
    rewrite (make_request_no_password ctx _ w Hpw). reflexivity.
  - intros change_id base_patchset target_patchset file_path.
    unfold GerritService.fetch_patchset_diff, bind.
    rewrite (make_request_no_password ctx _ w Hpw). reflexivity.
Qed.

(** A session started without [GERRIT_HTTP_PASSWORD] holds the empty
    password: against a backend that would answer, nothing is sent. *)
Lemma no_password_no_request_witness :
  GerritService.fetch_gerrit_change (RT := Examples.online)
    {| lifespan_context :=
         {| host := "host"; user := "alice"; http_password := Some "" |};
       user_attr := None |}
    "500" None []
  = (Err GerritApi.password_not_set, [])
  /\ GerritService.fetch_patchset_diff (RT := Examples.online)
       {| lifespan_context :=
            {| host := "host"; user := "alice"; http_password := None |};
          user_attr := None |}
       "500" "1" "2" None []
     = (Err GerritApi.password_not_set, []).
Proof.
  split.
  - exact (proj1 (proj2 (@no_password_no_request Examples.online
                           {| lifespan_context :=
                                {| host := "host"; user := "alice";
                                   http_password := Some "" |};
                              user_attr := None |} [] eq_refl))
                 "500" None).
  - exact (proj2 (proj2 (@no_password_no_request Examples.online
                           {| lifespan_context :=
                                {| host := "host"; user := "alice";
                                   http_password := None |};
                              user_attr := None |} [] eq_refl))
                 "500" "1" "2" None).
Defined.

(** X2.  An error of [make_gerrit_rest_request] is one of five that the
    function raises itself, or an exception of a library call that its
    handlers do not catch.  The five are the missing-password error (and
    then the world is untouched), the authentication error, a transport
    error, a response-format error and the [AttributeError] of the
    handler.  The others are whatever [json.loads] raises on the body of
    a sent request, the magic prefix taken off, that is not a
    [JSONDecodeError] (line 58 catches that class only, so a
    [RecursionError] or a plain [ValueError] leaves the function
    unchanged, with no "Failed to parse" around it), and whatever
    [requests.get] raises that is not a [RequestException] (line 62
    catches that class only). *)
Theorem request_error_kinds {RT : Runtime} (ctx : Context)
        (endpoint : string) (w w' : world) (e : exn) :
  GerritApi.make_gerrit_rest_request ctx endpoint w = (Err e, w') ->
  (e = GerritApi.password_not_set /\ w' = w)
  \/ e = GerritApi.authentication_failed
  \/ (exists m, e = GerritApi.request_failed m)
  \/ (exists m, e = GerritApi.parse_failed m)
  \/ e = attribute_error JNull "status_code"
  \/ (exists password r w0,
        http_password (lifespan_context ctx) = Some password
        /\ requests_get (request_of ctx endpoint password) w
           = (Response r, w0)
        /\ json_loads (if Py.startswith GerritApi.magic_prefix (text r)
                       then Py.drop 4 (text r) else text r)
           = inl (Raised e))
  \/ (exists password w0,
        http_password (lifespan_context ctx) = Some password
        /\ requests_get (request_of ctx endpoint password) w
           = (GetRaised e, w0)).
Proof.
  destruct (truthy_opt (http_password (lifespan_context ctx))) eqn:Hpw.
  - destruct (truthy_opt_inv _ Hpw) as [password [Hsome Hne]].
    rewrite (make_request_sent ctx endpoint password w Hsome Hne).
    destruct (requests_get _ w) as [[r | msg [status |] | e'] w1] eqn:Hget;
      intros H.
    + inversion H as [[Hr Hw]].
      destruct (handle_response_error r e Hr) as [He | [He | [He | He]]].
      * right; left; exact He.
      * right; right; left; exact He.
      * right; right; right; left; exact He.
      * right; right; right; right; right; left.
        exists password, r, w1.
        split; [exact Hsome | split; [exact Hget | exact He]].
    + inversion H. right; right; left. exists msg; reflexivity.
    + inversion H. right; right; right; right; left. reflexivity.
    + inversion H; subst. right; right; right; right; right; right.
      exists password, w'. split; [exact Hsome | exact Hget].
  - rewrite (make_request_no_password ctx endpoint w Hpw).
    intros H. inversion H. left. split; reflexivity.
Qed.

(** A body that is one integer of 4301 digits: the [ValueError] of the
    conversion comes out as [json.loads] raised it, where a body that is
    not JSON gives the response-format error. *)
Lemma request_error_kinds_witness :
  fst (GerritApi.make_gerrit_rest_request
         (RT := Examples.answering 200 "OK" "<html>") Examples.ctx
         "changes/500/detail" [])
  = Err (GerritApi.parse_failed "Expecting value")
  /\ exists e w',
       GerritApi.make_gerrit_rest_request
         (RT := Examples.answering 200 "OK" (Examples.ones 4301))
         Examples.ctx "changes/500/detail" [] = (Err e, w')
       /\ e = Exn ValueError
                  "Exceeds the limit (4300 digits) for integer string conversion: value has 4301 digits; use sys.set_int_max_str_digits() to increase the limit"
       /\ ((e = GerritApi.password_not_set /\ w' = [])
           \/ e = GerritApi.authentication_failed
           \/ (exists m, e = GerritApi.request_failed m)
           \/ (exists m, e = GerritApi.parse_failed m)
           \/ e = attribute_error JNull "status_code"
           \/ (exists password r w0,
                 http_password (lifespan_context Examples.ctx) = Some password
                 /\ @requests_get
                      (Examples.answering 200 "OK" (Examples.ones 4301))
                      (request_of
                         (RT := Examples.answering 200 "OK"
                                  (Examples.ones 4301))
                         Examples.ctx "changes/500/detail" password) []
                    = (Response r, w0)
                 /\ @json_loads
                      (Examples.answering 200 "OK" (Examples.ones 4301))
                      (if Py.startswith GerritApi.magic_prefix (text r)
                       then Py.drop 4 (text r) else text r)
                    = inl (Raised e))
           \/ (exists password w0,
                 http_password (lifespan_context Examples.ctx) = Some password
                 /\ @requests_get
                      (Examples.answering 200 "OK" (Examples.ones 4301))
                      (request_of
                         (RT := Examples.answering 200 "OK"
                                  (Examples.ones 4301))
                         Examples.ctx "changes/500/detail" password) []
                    = (GetRaised e, w0))).
Proof.
  split; [reflexivity |].
  eexists. eexists.
  split; [vm_compute; reflexivity |].
  split; [reflexivity |].
  eapply (@request_error_kinds
            (Examples.answering 200 "OK" (Examples.ones 4301))
            Examples.ctx "changes/500/detail" []).
  vm_compute; reflexivity.
Defined.

(** X3.  A response with a status from 400 to 599 other than 401 makes
    the call fail with the transport error, whose message names the
    status, "Client Error" below 500 and "Server Error" from 500, the
    reason and the URL; the body is not looked at, valid JSON or not. *)
Theorem error_status_is_transport_error {RT : Runtime} (ctx : Context)
        (endpoint password : string) (w w' : world) (r : response) :
  http_password (lifespan_context ctx) = Some password ->
  password <> "" ->
  requests_get (request_of ctx endpoint password) w = (Response r, w') ->
  400 <= status_code r < 600 ->
  status_code r <> 401 ->
  GerritApi.make_gerrit_rest_request ctx endpoint w
  = (Err (GerritApi.request_failed
            (Py.str_of_int (status_code r)
             ++ (if status_code r <? 500 then " Client Error: "
                 else " Server Error: ")
             ++ reason r ++ " for url: " ++ resp_url r)), w').
Proof.
  intros Hpw Hne Hget Hrange H401.
  rewrite (make_request_sent ctx endpoint password w Hpw Hne), Hget.
  unfold GerritApi.handle_response, GerritApi.raise_for_status.
  apply Z.eqb_neq in H401. rewrite H401.
  destruct (status_code r <? 500) eqn:Hlt.
  - assert (H400 : (400 <=? status_code r) = true) by (apply Z.leb_le; lia).
    rewrite H400. reflexivity.
  - apply Z.ltb_ge in Hlt.
    assert (H400 : (400 <=? status_code r) = true) by (apply Z.leb_le; lia).
    assert (H500 : (500 <=? status_code r) = true) by (apply Z.leb_le; lia).
    assert (H600 : (status_code r <? 600) = true) by (apply Z.ltb_lt; lia).
    rewrite H400, H500, H600. reflexivity.
Qed.

(** A backend that answers 404 with a body that is valid JSON. *)
Lemma error_status_is_transport_error_witness :
  GerritApi.make_gerrit_rest_request
    (RT := Examples.answering 404 "Not Found" "{}") Examples.ctx
    "changes/500/detail" []
  = (Err (GerritApi.request_failed
            "404 Client Error: Not Found for url: https://host/a/changes/500/detail"),
     [request_of (RT := Examples.answering 404 "Not Found" "{}")
                 Examples.ctx "changes/500/detail" "secret"]).
Proof.
  refine (@error_status_is_transport_error
            (Examples.answering 404 "Not Found" "{}") Examples.ctx
            "changes/500/detail" "secret" [] _
            {| status_code := 404; reason := "Not Found";
               resp_url := "https://host/a/changes/500/detail";
               text := "{}" |}
            eq_refl _ eq_refl _ _).
  - discriminate.
  - simpl; lia.
  - simpl; lia.
Defined.

(** X4.  A response with a status below 400 or from 600 on is taken as a
    success, not only one with a status from 200 to 299: its body is
    decoded after the magic prefix is stripped.  The call returns the
    decoded value, or fails with the response-format error when
    [json.loads] raises a [JSONDecodeError], or fails with the exception
    of [json.loads] itself when that is of another class. *)
Theorem other_status_is_decoded {RT : Runtime} (ctx : Context)
        (endpoint password : string) (w w' : world) (r : response) :
  http_password (lifespan_context ctx) = Some password ->
  password <> "" ->
  requests_get (request_of ctx endpoint password) w = (Response r, w') ->
  status_code r < 400 \/ 600 <= status_code r ->
  GerritApi.make_gerrit_rest_request ctx endpoint w
  = (GerritApi.parse_body (text r), w')
  /\ ((exists v, GerritApi.parse_body (text r) = Ok v)
      \/ (exists m,
             GerritApi.parse_body (text r) = Err (GerritApi.parse_failed m))
      \/ (exists e,
             GerritApi.parse_body (text r) = Err e
             /\ json_loads (if Py.startswith GerritApi.magic_prefix (text r)
                            then Py.drop 4 (text r) else text r)
                = inl (Raised e))).
Proof.
  intros Hpw Hne Hget Hrange.
  split.
  - rewrite (make_request_sent ctx endpoint password w Hpw Hne), Hget.
    unfold GerritApi.handle_response, GerritApi.raise_for_status.
    assert (H401 : (status_code r =? 401) = false)
      by (apply Z.eqb_neq; lia).
    rewrite H401.
    destruct Hrange as [Hlow | Hhigh].
    + assert (H400 : (400 <=? status_code r) = false)
        by (apply Z.leb_gt; lia).
      assert (H500 : (500 <=? status_code r) = false)
        by (apply Z.leb_gt; lia).
      rewrite H400, H500. reflexivity.
    + assert (H500 : (status_code r <? 500) = false)
        by (apply Z.ltb_ge; lia).
      assert (H600 : (status_code r <? 600) = false)
        by (apply Z.ltb_ge; lia).
      rewrite H500, H600, !andb_false_r. reflexivity.
  - destruct (GerritApi.parse_body (text r)) as [v | e] eqn:Hparse.
    + left. exists v; reflexivity.
    + right. destruct (parse_body_error _ _ Hparse) as [[m ->] | Hloads].
      * left. exists m; reflexivity.
      * right. exists e. split; [reflexivity | exact Hloads].
Qed.

(** A redirect that is not followed, with a JSON body, a 204 with an
    empty body, and a 200 whose body nests 995 arrays. *)
Lemma other_status_is_decoded_witness :
  fst (GerritApi.make_gerrit_rest_request
         (RT := Examples.answering 302 "Found" ")]}'[1, 2]") Examples.ctx
         "changes/500/detail" [])
  = Ok (JArr [JInt 1; JInt 2])
  /\ fst (GerritApi.make_gerrit_rest_request
            (RT := Examples.answering 204 "No Content" "") Examples.ctx
            "changes/500/detail" [])
     = Err (GerritApi.parse_failed "Expecting value")
  /\ fst (GerritApi.make_gerrit_rest_request
            (RT := Examples.answering 200 "OK" (Examples.nested 995))
            Examples.ctx "changes/500/detail" [])
     = Err (Exn RecursionError
                "maximum recursion depth exceeded while decoding a JSON array from a unicode string").
Proof.
  split; [| split].
  - rewrite (proj1 (@other_status_is_decoded
                      (Examples.answering 302 "Found" ")]}'[1, 2]")
                      Examples.ctx "changes/500/detail" "secret" [] _
                      {| status_code := 302; reason := "Found";
                         resp_url := "https://host/a/changes/500/detail";
                         text := ")]}'[1, 2]" |}
                      eq_refl ltac:(discriminate) eq_refl
                      ltac:(left; simpl; lia))).
    reflexivity.
  - rewrite (proj1 (@other_status_is_decoded
                      (Examples.answering 204 "No Content" "")
                      Examples.ctx "changes/500/detail" "secret" [] _
                      {| status_code := 204; reason := "No Content";
                         resp_url := "https://host/a/changes/500/detail";
                         text := "" |}
                      eq_refl ltac:(discriminate) eq_refl
                      ltac:(left; simpl; lia))).
    reflexivity.
  - rewrite (proj1 (@other_status_is_decoded
                      (Examples.answering 200 "OK" (Examples.nested 995))
                      Examples.ctx "changes/500/detail" "secret" [] _
                      {| status_code := 200; reason := "OK";
                         resp_url := "https://host/a/changes/500/detail";
                         text := Examples.nested 995 |}
                      eq_refl ltac:(discriminate) eq_refl
                      ltac:(left; simpl; lia))).
    vm_compute. reflexivity.
Defined.



(** X6.  When [requests.get] raises an exception that carries no
    response (a refused connection, a timeout), the handler of lines
    62-66 reads [e.response.status_code] on [None]: the call fails with
    an [AttributeError], not with the transport error, and the message
    of the original exception is lost.  An exception that carries a
    response gives the transport error with its message. *)
Theorem connection_failure_is_attribute_error {RT : Runtime} (ctx : Context)
        (endpoint password msg : string) (status : option Z)
        (w w' : world) :
  http_password (lifespan_context ctx) = Some password ->
  password <> "" ->
  requests_get (request_of ctx endpoint password) w
  = (RequestFailed msg status, w') ->
  GerritApi.make_gerrit_rest_request ctx endpoint w
  = (match status with
     | None =>
         Err (Exn AttributeError
                  "'NoneType' object has no attribute 'status_code'")
     | Some _ => Err (GerritApi.request_failed msg)
     end, w')
  /\ (forall m,
         Exn AttributeError "'NoneType' object has no attribute 'status_code'"
         <> GerritApi.request_failed m).
Proof.
  intros Hpw Hne Hget. split; [| discriminate].
  rewrite (make_request_sent ctx endpoint password w Hpw Hne), Hget.
  destruct status; reflexivity.
Qed.

(** A backend that cannot be reached. *)
Lemma connection_failure_is_attribute_error_witness :
  GerritApi.make_gerrit_rest_request (RT := Examples.offline) Examples.ctx
    "changes/500/detail" []
  = (Err (Exn AttributeError
              "'NoneType' object has no attribute 'status_code'"),
     [request_of (RT := Examples.offline) Examples.ctx
                 "changes/500/detail" "secret"]).
Proof.
  refine (proj1 (@connection_failure_is_attribute_error Examples.offline
                   Examples.ctx "changes/500/detail" "secret" "offline"
                   None [] _ eq_refl _ eq_refl)).
  discriminate.
Defined.

(** ** [fetch_gerrit_change]: lookups that fail, and what a result holds *)

Section ChangeResults.

Context {RT : Runtime}.

Import GerritApi GerritService.

Lemma make_file_data_fields (file_path : string) (file_info diff_info : json)
      (fd : file_data) :
  make_file_data file_path file_info diff_info = Ok fd ->
  file_data_of (file_path, file_info) fd /\ fd_diff fd = diff_info.
Proof.
  unfold make_file_data, file_data_of.
  destruct file_info; simpl; try discriminate.
  intros H. inversion H. cbn. repeat split.
Qed.

(** The loop appends one FileDiff for each entry other than the
    pseudo-path, in the order of the map. *)
Lemma process_files_appends (ctx : Context) (change_id : string)
      (target_revision : json) (items : list (string * json)) :
  forall processed w out w',
    process_files ctx change_id target_revision items processed w
    = (Ok out, w') ->
    exists added,
      out = (processed ++ added)%list
      /\ Forall2 file_data_of
                 (filter (fun kv => negb (String.eqb (fst kv) COMMIT_MSG))
                         items)
                 added.
Proof.
  induction items as [| [file_path file_info] rest IH];
    intros processed w out w' Hrun.
  - inversion Hrun; subst. exists []. split; [| constructor].
    symmetry; apply app_nil_r.
  - cbn [process_files] in Hrun. cbn [filter fst].
    destruct (String.eqb file_path COMMIT_MSG) eqn:Hcm; cbn [negb].
    + exact (IH _ _ _ _ Hrun).
    + unfold bind, lift in Hrun.
      destruct (make_gerrit_rest_request ctx _ w) as [[diff_info | e] w1];
        [| discriminate].
      destruct (make_file_data file_path file_info diff_info)
        as [fd | e] eqn:Hfd; [| discriminate].
      destruct (IH _ _ _ _ Hrun) as [added [Hout Hrel]].
      exists (fd :: added). split.
      * rewrite Hout, <- app_assoc. reflexivity.
      * constructor; [| exact Hrel].
        exact (proj1 (make_file_data_fields _ _ _ _ Hfd)).
Qed.

Lemma real_files_keys (items : list (string * json)) :
  map fst (filter (fun kv => negb (String.eqb (fst kv) COMMIT_MSG)) items)
  = real_files (keys items).
Proof.
  unfold real_files, keys.
  induction items as [| [k v] rest IH]; simpl; [reflexivity |].
  destruct (String.eqb k COMMIT_MSG); simpl; rewrite IH; reflexivity.
Qed.

(** What the scan finds is an entry whose number prints as asked. *)
Lemma scan_revisions_found (items : list (string * json)) (n : string)
      (found : json) :
  scan_revisions items n = Ok found ->
  truthy found = true ->
  exists rev info num,
    found = JStr rev /\ In (rev, info) items
    /\ py_get info "_number" = Ok num /\ py_str num = n.
Proof.
  induction items as [| [k v] rest IH]; cbn [scan_revisions].
  - intros H Ht. inversion H; subst. discriminate.
  - destruct (py_get v "_number") as [num | e] eqn:Hnum; cbn [rbind];
      [| discriminate].
    destruct (String.eqb (py_str num) n) eqn:Heq.
    + intros H _. inversion H; subst.
      exists k, v, num. apply String.eqb_eq in Heq.
      repeat split; [left; reflexivity | exact Hnum | exact Heq].
    + intros H Ht.
      destruct (IH H Ht) as [rev [info [num' [Hf [Hin Hrest]]]]].
      exists rev, info, num'. split; [exact Hf |].
      split; [right; exact Hin | exact Hrest].
Qed.

Lemma assoc_nodup_in {A} (l : list (string * A)) (k : string) (v : A) :
  NoDup (keys l) -> In (k, v) l -> assoc k l = Some v.
Proof.
  induction l as [| [k' v'] r IH]; simpl; intros Hnd Hin; [destruct Hin |].
  inversion Hnd as [| ? ? Hnotin Hnd']; subst.
  destruct Hin as [Hin | Hin].
  - inversion Hin; subst. rewrite String.eqb_refl. reflexivity.
  - destruct (String.eqb k' k) eqn:Heq.
    + apply String.eqb_eq in Heq. subst.
      exfalso. apply Hnotin. exact (keys_In _ _ _ Hin).
    + exact (IH Hnd' Hin).
Qed.

End ChangeResults.

(** X7.  When the change lookup answers with an empty value (the empty
    object, [null], an empty list or string, 0 or [false]), both fetch
    operations fail with "Change <id> not found" right after that one
    request, whatever patchset numbers were asked for. *)
Theorem empty_lookup_is_not_found {RT : Runtime} (ctx : Context)
        (change_id : string) (w w1 : world) (answer : json) :
  truthy answer = false ->
  (GerritApi.make_gerrit_rest_request
     ctx (GerritService.change_endpoint change_id) w = (Ok answer, w1) ->
   forall patchset_number,
     GerritService.fetch_gerrit_change ctx change_id patchset_number w
     = (Err (Exn ValueError ("Change " ++ change_id ++ " not found")), w1))
  /\ (GerritApi.make_gerrit_rest_request
        ctx ("a/changes/" ++ change_id
             ++ "/detail?o=ALL_REVISIONS&o=ALL_FILES") w = (Ok answer, w1) ->
      forall base_patchset target_patchset file_path,
        GerritService.fetch_patchset_diff ctx change_id base_patchset
                                          target_patchset file_path w
        = (Err (Exn ValueError ("Change " ++ change_id ++ " not found")),
           w1)).
Proof.
  intros Hfalsy. split.
  - intros Hreq patchset_number.
    unfold GerritService.fetch_gerrit_change, bind.
    rewrite Hreq, Hfalsy. reflexivity.
  - intros Hreq base_patchset target_patchset file_path.
    unfold GerritService.fetch_patchset_diff, bind.
    rewrite Hreq, Hfalsy. reflexivity.
Qed.

(** A backend that answers every request with the empty object. *)
Lemma empty_lookup_is_not_found_witness :
  fst (GerritService.fetch_gerrit_change
         (RT := Examples.answering 200 "OK" "{}") Examples.ctx "42"
         (Some "3") [])
  = Err (Exn ValueError "Change 42 not found")
  /\ fst (GerritService.fetch_patchset_diff
            (RT := Examples.answering 200 "OK" "{}") Examples.ctx "42"
            "1" "2" None [])
     = Err (Exn ValueError "Change 42 not found").
Proof.
  destruct (@empty_lookup_is_not_found
              (Examples.answering 200 "OK" "{}") Examples.ctx "42" []
              [request_of (RT := Examples.answering 200 "OK" "{}")
                          Examples.ctx
                          (GerritService.change_endpoint "42") "secret"]
              (JObj []) eq_refl) as [Hchange _].
  destruct (@empty_lookup_is_not_found
              (Examples.answering 200 "OK" "{}") Examples.ctx "42" []
              [request_of (RT := Examples.answering 200 "OK" "{}")
                          Examples.ctx
                          "a/changes/42/detail?o=ALL_REVISIONS&o=ALL_FILES"
                          "secret"]
              (JObj []) eq_refl) as [_ Hdiff].
  split.
  - rewrite (Hchange eq_refl (Some "3")). reflexivity.
  - rewrite (Hdiff eq_refl "1" "2" None). reflexivity.
Defined.

(** X8.  [fetch_gerrit_change] checks the project before it looks at
    the revisions: when the change found is an object whose ["project"]
    is missing, [null] or empty, it fails with "Project information not
    found in change" for every patchset number, also for one that no
    revision carries. *)
Theorem missing_project_is_reported_first {RT : Runtime} (ctx : Context)
        (change_id : string) (w w1 : world)
        (fields : list (string * json)) :
  GerritApi.make_gerrit_rest_request
    ctx (GerritService.change_endpoint change_id) w
  = (Ok (JObj fields), w1) ->
  fields <> [] ->
  truthy (info_field (JObj fields) "project" JNull) = false ->
  forall patchset_number,
    GerritService.fetch_gerrit_change ctx change_id patchset_number w
    = (Err (Exn ValueError "Project information not found in change"), w1).
Proof.
  intros Hreq Hne Hproject patchset_number.
  unfold GerritService.fetch_gerrit_change, bind, lift.
  rewrite Hreq.
  assert (Htruthy : truthy (JObj fields) = true)
    by (destruct fields; [congruence | reflexivity]).
  rewrite Htruthy. cbn [negb].
  unfold py_get, py_get_default. unfold info_field in Hproject.
  rewrite Hproject. reflexivity.
Qed.

(** A backend whose change has revisions but no project. *)
Lemma missing_project_is_reported_first_witness :
  fst (GerritService.fetch_gerrit_change
         (RT := Examples.answering 200 "OK"
                  (Reference.json_dumps
                     (JObj [("revisions", JObj Examples.revisions_500)])))
         Examples.ctx "500" (Some "9") [])
  = Err (Exn ValueError "Project information not found in change").
Proof.
  erewrite (@missing_project_is_reported_first
              (Examples.answering 200 "OK"
                 (Reference.json_dumps
                    (JObj [("revisions", JObj Examples.revisions_500)])))
              Examples.ctx "500" [] _
              [("revisions", JObj Examples.revisions_500)]).
  - reflexivity.
  - vm_compute. reflexivity.
  - discriminate.
  - reflexivity.
Defined.

(** X9.  The ["files"] of a result of [fetch_gerrit_change] are made
    from the file map of the patchset returned: one FileDiff for each
    entry other than [/COMMIT_MSG], in the order of the map, none left
    out and none added.  Each has the path of its entry and the entry's
    status, inserted and deleted lines and size delta, where a missing
    status counts as "MODIFIED" and a missing number as 0. *)
Theorem change_files_follow_the_map {RT : Runtime} (ctx : Context)
        (change_id : string) (patchset_number : option string)
        (w w' : world) (r : GerritService.change_result) :
  GerritService.fetch_gerrit_change ctx change_id patchset_number w
  = (Ok r, w') ->
  exists files,
    py_get_default (GerritService.cr_patchset r) "files" (JObj [])
    = Ok (JObj files)
    /\ Forall2 file_data_of
               (filter (fun kv => negb (String.eqb (fst kv)
                                          GerritService.COMMIT_MSG)) files)
               (GerritService.cr_files r)
    /\ map GerritService.fd_path (GerritService.cr_files r)
       = real_files (keys files).
Proof.
  intros Hrun.
  destruct (fetch_gerrit_change_inv _ _ _ _ _ _ Hrun)
    as [revisions [files [w1 [_ [_ [_ [_ [_ [Hfiles Hloop]]]]]]]]].
  exists files. split; [exact Hfiles |].
  destruct (process_files_appends _ _ _ _ _ _ _ _ Hloop)
    as [added [Hout Hrel]].
  cbn [app] in Hout. subst added.
  split; [exact Hrel |].
  rewrite <- real_files_keys.
  clear Hloop. induction Hrel as [| entry fd entries fds Hone _ IH];
    [reflexivity |].
  cbn [map]. rewrite IH.
  destruct Hone as [_ [Hpath _]]. rewrite Hpath. reflexivity.
Qed.

(** Change 500: the current revision lists the pseudo-path and two
    files, one of them without a status. *)
Lemma change_files_follow_the_map_witness :
  exists r w',
    GerritService.fetch_gerrit_change (RT := Examples.online)
      Examples.ctx "500" None [] = (Ok r, w')
    /\ map (fun fd => (GerritService.fd_path fd, GerritService.fd_status fd))
           (GerritService.cr_files r)
       = [("a.txt", JStr "MODIFIED"); ("b c.txt", JStr "A")]
    /\ exists files,
         py_get_default (GerritService.cr_patchset r) "files" (JObj [])
         = Ok (JObj files)
         /\ Forall2 file_data_of
                    (filter (fun kv => negb (String.eqb (fst kv)
                                               GerritService.COMMIT_MSG))
                            files)
                    (GerritService.cr_files r)
         /\ map GerritService.fd_path (GerritService.cr_files r)
            = real_files (keys files).
Proof.
  eexists. eexists.
  split; [vm_compute; reflexivity |].
  split; [reflexivity |].
  eapply (@change_files_follow_the_map Examples.online Examples.ctx
            "500" None []).
  vm_compute; reflexivity.
Defined.

(** X10.  The parts of a result of [fetch_gerrit_change] fit together:
    ["project"] is the non-empty project of ["change_info"],
    ["revision"] is a non-empty key of the revisions of
    ["change_info"], and ["patchset"] is the entry of that key. *)
Theorem change_result_is_coherent {RT : Runtime} (ctx : Context)
        (change_id : string) (patchset_number : option string)
        (w w' : world) (r : GerritService.change_result) :
  GerritService.fetch_gerrit_change ctx change_id patchset_number w
  = (Ok r, w') ->
  py_get (GerritService.cr_change_info r) "project"
  = Ok (GerritService.cr_project r)
  /\ truthy (GerritService.cr_project r) = true
  /\ truthy (GerritService.cr_revision r) = true
  /\ exists revisions,
       py_get_default (GerritService.cr_change_info r) "revisions" (JObj [])
       = Ok revisions
       /\ py_contains revisions (GerritService.cr_revision r) = Ok true
       /\ py_getitem revisions (GerritService.cr_revision r)
          = Ok (GerritService.cr_patchset r).
Proof.
  intros Hrun.
  destruct (fetch_gerrit_change_inv _ _ _ _ _ _ Hrun)
    as [revisions [files [w1 [_ [Hproject [Htruthy [Hres [Hitem _]]]]]]]].
  destruct (resolve_revision_inv _ _ _ _ Hres)
    as [Hrevs [Htarget [Hin _]]].
  split; [exact Hproject | split; [exact Htruthy | split; [exact Htarget |]]].
  exists revisions. repeat split; assumption.
Qed.

Lemma change_result_is_coherent_witness :
  exists r w',
    GerritService.fetch_gerrit_change (RT := Examples.online)
      Examples.ctx "500" (Some "1") [] = (Ok r, w')
    /\ GerritService.cr_project r = JStr "proj/sub"
    /\ GerritService.cr_revision r = JStr "r1"
    /\ py_getitem (RT := Examples.online) (JObj Examples.revisions_500)
                  (GerritService.cr_revision r)
       = Ok (GerritService.cr_patchset r)
    /\ truthy (GerritService.cr_revision r) = true.
Proof.
  eexists. eexists.
  split; [vm_compute; reflexivity |].
  split; [reflexivity |]. split; [reflexivity |]. split; [reflexivity |].
  eapply (@change_result_is_coherent Examples.online Examples.ctx
            "500" (Some "1") []).
  vm_compute; reflexivity.
Defined.

(** X11.  The patchset returned is the one asked for.  With a non-empty
    patchset number, and the revisions of the change a dict (distinct
    keys), the ["patchset"] of a result of [fetch_gerrit_change] carries
    a [_number] that prints as the number requested; with no patchset
    number, or the empty one, ["revision"] is the [current_revision] of
    the change. *)
Theorem change_result_is_the_requested_patchset {RT : Runtime}
        (ctx : Context) (change_id : string)
        (patchset_number : option string) (w w' : world)
        (r : GerritService.change_result) :
  GerritService.fetch_gerrit_change ctx change_id patchset_number w
  = (Ok r, w') ->
  (truthy_opt patchset_number = true ->
   forall items,
     py_get_default (GerritService.cr_change_info r) "revisions" (JObj [])
     = Ok (JObj items) ->
     NoDup (keys items) ->
     exists num,
       py_get (GerritService.cr_patchset r) "_number" = Ok num
       /\ Some (py_str num) = patchset_number)
  /\ (truthy_opt patchset_number = false ->
      py_get (GerritService.cr_change_info r) "current_revision"
      = Ok (GerritService.cr_revision r)).
Proof.
  intros Hrun.
  destruct (fetch_gerrit_change_inv _ _ _ _ _ _ Hrun)
    as [revisions [files [w1 [_ [_ [_ [Hres [Hitem _]]]]]]]].
  destruct (resolve_revision_inv _ _ _ _ Hres)
    as [Hrevs [Htarget [_ [Habsent Hgiven]]]].
  split; [| exact Habsent].
  intros Hpn items Hitems Hnodup.
  destruct (Hgiven Hpn) as [items' [-> Hscan]].
  assert (items' = items) as -> by congruence.
  destruct (scan_revisions_found _ _ _ Hscan Htarget)
    as [rev [info [num [Hfound [Hin [Hnum Hstr]]]]]].
  rewrite Hfound in Hitem. cbn [py_getitem] in Hitem.
  rewrite (assoc_nodup_in _ _ _ Hnodup Hin) in Hitem.
  inversion Hitem as [Hinfo].
  exists num. split; [rewrite <- Hinfo; exact Hnum |].
  destruct patchset_number as [n |]; [| discriminate].
  cbn [str_opt] in Hstr. rewrite Hstr. reflexivity.
Qed.

Lemma change_result_is_the_requested_patchset_witness :
  exists r w',
    GerritService.fetch_gerrit_change (RT := Examples.online)
      Examples.ctx "500" (Some "1") [] = (Ok r, w')
    /\ exists num,
         py_get (GerritService.cr_patchset r) "_number" = Ok num
         /\ Some (py_str (RT := Examples.online) num) = Some "1".
Proof.
  eexists. eexists.
  split; [vm_compute; reflexivity |].
  refine (proj1 (@change_result_is_the_requested_patchset Examples.online
                   Examples.ctx "500" (Some "1") [] _ _ _)
                eq_refl Examples.revisions_500 _ _).
  - vm_compute; reflexivity.
  - reflexivity.
  - repeat constructor; simpl; intuition discriminate.
Defined.

(** ** [fetch_patchset_diff]: the two revisions and the file map *)

Section DiffResults.

Context {RT : Runtime}.

Import GerritApi GerritService.

(** A revision the scan of lines 175-179 ends with was there before or
    is the id of an entry whose number prints as asked. *)
Lemma scan_base_target_found (items : list (string * json))
      (base_patchset target_patchset : string) :
  forall base0 target0 base target,
    scan_base_target items base_patchset target_patchset base0 target0
    = Ok (base, target) ->
    (base = base0
     \/ exists rev info num,
          base = Some rev /\ In (rev, info) items
          /\ py_get info "_number" = Ok num /\ py_str num = base_patchset)
    /\ (target = target0
        \/ exists rev info num,
             target = Some rev /\ In (rev, info) items
             /\ py_get info "_number" = Ok num
             /\ py_str num = target_patchset).
Proof.
  induction items as [| [k v] rest IH]; intros base0 target0 base target.
  - cbn. intros H. inversion H. split; left; reflexivity.
  - cbn [scan_base_target].
    destruct (py_get v "_number") as [num | e] eqn:Hnum; cbn [rbind];
      [| discriminate].
    intros H. destruct (IH _ _ _ _ H) as [Hb Ht]. split.
    + destruct Hb as [Hb | [rev [info [num' [Hb [Hin Hrest]]]]]].
      * destruct (String.eqb (py_str num) base_patchset) eqn:Heq;
          [| left; exact Hb].
        right. exists k, v, num. apply String.eqb_eq in Heq.
        repeat split; [exact Hb | left; reflexivity | exact Hnum | exact Heq].
      * right. exists rev, info, num'.
        split; [exact Hb | split; [right; exact Hin | exact Hrest]].
    + destruct Ht as [Ht | [rev [info [num' [Ht [Hin Hrest]]]]]].
      * destruct (String.eqb (py_str num) target_patchset) eqn:Heq;
          [| left; exact Ht].
        right. exists k, v, num. apply String.eqb_eq in Heq.
        repeat split; [exact Ht | left; reflexivity | exact Hnum | exact Heq].
      * right. exists rev, info, num'.
        split; [exact Ht | split; [right; exact Hin | exact Hrest]].
Qed.

(** Asked for the same number twice, the scan answers the same twice. *)
Lemma scan_base_target_same (items : list (string * json)) (n : string) :
  forall start base target,
    scan_base_target items n n start start = Ok (base, target) ->
    base = target.
Proof.
  induction items as [| [k v] rest IH]; intros start base target.
  - cbn. intros H. inversion H. reflexivity.
  - cbn [scan_base_target].
    destruct (py_get v "_number") as [num | e]; cbn [rbind];
      [| discriminate].
    apply IH.
Qed.

(** The scan keeps the last match. *)
Lemma scan_base_target_last (pre post : list (string * json))
      (rev : string) (info : json) (base_patchset target_patchset : string) :
  forall base0 target0,
    Forall (fun kv => is_object (snd kv) = true)
           (pre ++ (rev, info) :: post) ->
    number_matches base_patchset info = true ->
    (forall rev' info', In (rev', info') post ->
                        number_matches base_patchset info' = false) ->
    exists target,
      scan_base_target (pre ++ (rev, info) :: post)
                       base_patchset target_patchset base0 target0
      = Ok (Some rev, target).
Proof.
  induction pre as [| [k v] pre IH]; intros base0 target0 Hobj Hm Hpost.
  - cbn [app] in *. inversion Hobj as [| ? ? Hv Hrest]; subst.
    cbn [snd] in Hv.
    destruct (is_object_inv _ Hv) as [fields ->].
    cbn [scan_base_target].
    destruct (py_get_object fields "_number") as [num Hnum].
    rewrite Hnum. cbn [rbind].
    rewrite (number_matches_get _ _ _ Hnum) in Hm. rewrite Hm.
    clear Hm Hnum Hv Hobj.
    generalize (if String.eqb (py_str num) target_patchset
                then Some rev else target0).
    clear target0 base0 num fields.
    induction post as [| [k v] post IHpost]; intros target1.
    + eexists; reflexivity.
    + inversion Hrest as [| ? ? Hv Hrest']; subst. cbn [snd] in Hv.
      destruct (is_object_inv _ Hv) as [fields ->].
      cbn [scan_base_target].
      destruct (py_get_object fields "_number") as [num Hnum].
      rewrite Hnum. cbn [rbind].
      rewrite <- (number_matches_get base_patchset _ _ Hnum).
      rewrite (Hpost k (JObj fields)) by (left; reflexivity).
      apply IHpost; [| exact Hrest'].
      intros rev' info' Hin. apply (Hpost rev' info'). right; exact Hin.
  - cbn [app] in *. inversion Hobj as [| ? ? Hv Hrest]; subst.
    cbn [snd] in Hv.
    destruct (is_object_inv _ Hv) as [fields ->].
    cbn [scan_base_target].
    destruct (py_get_object fields "_number") as [num Hnum].
    rewrite Hnum. cbn [rbind].
    apply IH; assumption.
Qed.

(** The scan of [fetch_gerrit_change] keeps the first match. *)
Lemma scan_revisions_first (pre post : list (string * json))
      (rev : string) (info : json) (n : string) :
  Forall (fun kv => is_object (snd kv) = true) pre ->
  (forall rev' info', In (rev', info') pre ->
                      number_matches n info' = false) ->
  number_matches n info = true ->
  scan_revisions (pre ++ (rev, info) :: post) n = Ok (JStr rev).
Proof.
  induction pre as [| [k v] pre IH]; intros Hobj Hpre Hm.
  - cbn [app scan_revisions]. unfold number_matches in Hm.
    destruct (py_get info "_number") as [num | e]; [| discriminate].
    cbn [rbind]. rewrite Hm. reflexivity.
  - inversion Hobj as [| ? ? Hv Hrest]; subst. cbn [snd] in Hv.
    destruct (is_object_inv _ Hv) as [fields ->].
    cbn [app scan_revisions].
    destruct (py_get_object fields "_number") as [num Hnum].
    rewrite Hnum. cbn [rbind].
    rewrite <- (number_matches_get n _ _ Hnum).
    rewrite (Hpre k (JObj fields)) by (left; reflexivity).
    apply IH; [exact Hrest | | exact Hm].
    intros rev' info' Hin. apply (Hpre rev' info'). right; exact Hin.
Qed.

(** On revisions that are objects the scan does not raise. *)
Lemma scan_base_target_objects (items : list (string * json))
      (base_patchset target_patchset : string) :
  Forall (fun kv => is_object (snd kv) = true) items ->
  forall base0 target0,
    exists base target,
      scan_base_target items base_patchset target_patchset base0 target0
      = Ok (base, target).
Proof.
  induction items as [| [k v] rest IH]; intros Hobj base0 target0.
  - eexists; eexists; reflexivity.
  - inversion Hobj as [| ? ? Hv Hrest]; subst. cbn [snd] in Hv.
    destruct (is_object_inv _ Hv) as [fields ->].
    cbn [scan_base_target].
    destruct (py_get_object fields "_number") as [num Hnum].
    rewrite Hnum. cbn [rbind]. apply IH. exact Hrest.
Qed.

Lemma no_match_not_found (items : list (string * json)) (n : string)
      (rev : string) (info num : json) :
  (forall rev' info', In (rev', info') items ->
                      number_matches n info' = false) ->
  In (rev, info) items ->
  py_get info "_number" = Ok num ->
  py_str num = n -> False.
Proof.
  intros Hno Hin Hnum Hstr.
  pose proof (Hno rev info Hin) as H.
  rewrite (number_matches_get _ _ _ Hnum), Hstr, String.eqb_refl in H.
  discriminate.
Qed.

End DiffResults.

(** X12.  The parts of a result of [fetch_patchset_diff] fit together:
    the two patchset numbers are those of the call, and ["base_revision"]
    and ["target_revision"] are non-empty ids of revisions of the change
    whose [_number] prints as the base and as the target patchset number.
    Asked to compare a patchset with itself, it takes the same revision
    for both. *)
Theorem diff_result_is_coherent {RT : Runtime} (ctx : Context)
        (change_id base_patchset target_patchset : string)
        (file_path : option string) (w w' : world)
        (r : GerritService.diff_result) :
  GerritService.fetch_patchset_diff ctx change_id base_patchset
                                    target_patchset file_path w
  = (Ok r, w') ->
  GerritService.dr_base_patchset r = base_patchset
  /\ GerritService.dr_target_patchset r = target_patchset
  /\ GerritService.dr_base_revision r <> ""
  /\ GerritService.dr_target_revision r <> ""
  /\ (base_patchset = target_patchset ->
      GerritService.dr_base_revision r = GerritService.dr_target_revision r)
  /\ exists change_info items w1,
       GerritApi.make_gerrit_rest_request ctx
         ("a/changes/" ++ change_id
          ++ "/detail?o=ALL_REVISIONS&o=ALL_FILES") w
       = (Ok change_info, w1)
       /\ py_get_default change_info "revisions" (JObj []) = Ok (JObj items)
       /\ (exists info num,
              In (GerritService.dr_base_revision r, info) items
              /\ py_get info "_number" = Ok num
              /\ py_str num = base_patchset)
       /\ (exists info num,
              In (GerritService.dr_target_revision r, info) items
              /\ py_get info "_number" = Ok num
              /\ py_str num = target_patchset).
Proof.
  intros Hrun.
  destruct (fetch_patchset_diff_inv _ _ _ _ _ _ _ _ Hrun)
    as [change_info [items [w1 [upstream [w2 H]]]]].
  destruct H as [Hreq [Hrevs [Hscan [Hb [Ht [Hbp [Htp _]]]]]]].
  repeat (split; [assumption |]).
  split.
  - intros ->.
    pose proof (scan_base_target_same _ _ _ _ _ Hscan) as Heq.
    congruence.
  - exists change_info, items, w1.
    split; [exact Hreq | split; [exact Hrevs |]].
    destruct (scan_base_target_found _ _ _ _ _ _ _ Hscan) as [Hbase Htarget].
    split.
    + destruct Hbase as [Hnone | [rev [info [num [Hsome Hrest]]]]];
        [discriminate |].
      inversion Hsome; subst rev. exists info, num. exact Hrest.
    + destruct Htarget as [Hnone | [rev [info [num [Hsome Hrest]]]]];
        [discriminate |].
      inversion Hsome; subst rev. exists info, num. exact Hrest.
Qed.

Lemma diff_result_is_coherent_witness :
  exists r w',
    GerritService.fetch_patchset_diff (RT := Examples.online)
      Examples.ctx "500" "1" "2" None [] = (Ok r, w')
    /\ GerritService.dr_base_revision r = "r1"
    /\ GerritService.dr_target_revision r = "r2"
    /\ GerritService.dr_base_patchset r = "1"
    /\ GerritService.dr_target_patchset r = "2".
Proof.
  eexists. eexists.
  split; [vm_compute; reflexivity |].
  split; [reflexivity |]. split; [reflexivity |].
  refine ((fun H => conj (proj1 H) (proj1 (proj2 H)))
            (@diff_result_is_coherent Examples.online Examples.ctx
               "500" "1" "2" None [] _ _ _)).
  vm_compute; reflexivity.
Defined.

(** X13.  When several revisions carry the number asked for, the two
    operations choose differently.  [fetch_gerrit_change] stops at the
    first such revision in the order of the map; [fetch_patchset_diff]
    runs through the map and keeps the last. *)
Theorem tie_break_first_and_last {RT : Runtime} (D : json)
        (pre post : list (string * json)) (rev n : string) (info : json) :
  py_get_default D "revisions" (JObj [])
  = Ok (JObj (pre ++ (rev, info) :: post)) ->
  Forall (fun kv => is_object (snd kv) = true)
         (pre ++ (rev, info) :: post) ->
  number_matches n info = true ->
  rev <> "" ->
  n <> "" ->
  ((forall rev' info', In (rev', info') pre ->
                       number_matches n info' = false) ->
   GerritService.resolve_revision D (Some n)
   = Ok (JObj (pre ++ (rev, info) :: post), JStr rev))
  /\ ((forall rev' info', In (rev', info') post ->
                          number_matches n info' = false) ->
      forall ctx change_id target_patchset file_path w w1 r w',
        GerritApi.make_gerrit_rest_request ctx
          ("a/changes/" ++ change_id
           ++ "/detail?o=ALL_REVISIONS&o=ALL_FILES") w = (Ok D, w1) ->
        GerritService.fetch_patchset_diff ctx change_id n target_patchset
                                          file_path w = (Ok r, w') ->
        GerritService.dr_base_revision r = rev).
Proof.
  intros Hrevs Hobj Hm Hrev Hn. split.
  - intros Hpre.
    destruct (py_get_default_object _ _ _ _ Hrevs) as [fields ->].
    destruct (py_get_object fields "current_revision") as [cur Hcur].
    unfold GerritService.resolve_revision.
    rewrite Hcur, Hrevs. cbn [rbind].
    rewrite (truthy_opt_some _ Hn). cbn [py_items rbind str_opt].
    assert (Hpre_obj : Forall (fun kv : string * json =>
                                 is_object (snd kv) = true) pre).
    { apply Forall_app in Hobj. exact (proj1 Hobj). }
    rewrite (scan_revisions_first pre post rev info n Hpre_obj Hpre Hm).
    cbn [rbind]. rewrite (truthy_str _ Hrev). cbn [negb].
    apply guard_passes; [exact Hrev |].
    unfold keys. rewrite map_app. apply in_or_app. right. left. reflexivity.
  - intros Hpost ctx change_id target_patchset file_path w w1 r w' Hreq Hrun.
    destruct (fetch_patchset_diff_inv _ _ _ _ _ _ _ _ Hrun)
      as [change_info [items [w1' [upstream [w2 H]]]]].
    destruct H as [Hreq' [Hrevs' [Hscan _]]].
    rewrite Hreq in Hreq'. inversion Hreq'; subst change_info w1'.
    rewrite Hrevs in Hrevs'. inversion Hrevs'; subst items.
    destruct (scan_base_target_last pre post rev info n target_patchset
                None None Hobj Hm Hpost) as [target Hlast].
    rewrite Hlast in Hscan. inversion Hscan. reflexivity.
Qed.

(** Two revisions numbered 2: [ra] first, [rb] last. *)
Lemma tie_break_first_and_last_witness :
  GerritService.resolve_revision
    (RT := Examples.serving Examples.change_tie Examples.files_1_2)
    Examples.change_tie (Some "2")
  = Ok (JObj Examples.revisions_tie, JStr "ra")
  /\ exists r w',
       GerritService.fetch_patchset_diff
         (RT := Examples.serving Examples.change_tie Examples.files_1_2)
         Examples.ctx "7" "2" "2" None [] = (Ok r, w')
       /\ GerritService.dr_base_revision r = "rb".
Proof.
  split.
  - refine (proj1 (@tie_break_first_and_last
                     (Examples.serving Examples.change_tie Examples.files_1_2)
                     Examples.change_tie []
                     [("rb", Examples.revision 2 [])] "ra" "2"
                     (Examples.revision 2 []) eq_refl _ eq_refl _ _) _).
    + repeat constructor.
    + discriminate.
    + discriminate.
    + intros rev' info' [].
  - eexists. eexists.
    split; [vm_compute; reflexivity |].
    refine (proj2 (@tie_break_first_and_last
                     (Examples.serving Examples.change_tie Examples.files_1_2)
                     Examples.change_tie
                     [("ra", Examples.revision 2 [])] [] "rb" "2"
                     (Examples.revision 2 []) eq_refl _ eq_refl _ _) _
                  Examples.ctx "7" "2" None [] _ _ _ _ _).
    + repeat constructor.
    + discriminate.
    + discriminate.
    + intros rev' info' [].
    + vm_compute; reflexivity.
    + vm_compute; reflexivity.
Defined.

(** X14.  [fetch_patchset_diff] reports one error for both numbers.
    When the change found is non-empty, its revisions are objects, and
    the base number or the target number is printed by no revision's
    [_number], the operation fails with "Patchset(s) not found" and the
    sorted numbers of all patchsets, right after the change lookup: no
    file list and no diff is requested.  This holds in particular for an
    empty patchset number, which [fetch_gerrit_change] would take as "the
    current one". *)
Theorem unresolved_patchsets_fail {RT : Runtime} (ctx : Context)
        (change_id base_patchset target_patchset : string)
        (file_path : option string) (w w1 : world)
        (D : json) (items : list (string * json)) :
  GerritApi.make_gerrit_rest_request ctx
    ("a/changes/" ++ change_id ++ "/detail?o=ALL_REVISIONS&o=ALL_FILES") w
  = (Ok D, w1) ->
  truthy D = true ->
  py_get_default D "revisions" (JObj []) = Ok (JObj items) ->
  Forall (fun kv => is_object (snd kv) = true) items ->
  (forall rev info, In (rev, info) items ->
                    number_matches base_patchset info = false)
  \/ (forall rev info, In (rev, info) items ->
                       number_matches target_patchset info = false) ->
  GerritService.fetch_patchset_diff ctx change_id base_patchset
                                    target_patchset file_path w
  = (Err (GerritService.patchsets_not_found
            (Py.sorted (map (fun kv => number_string (snd kv)) items))),
     w1).
Proof.
  intros Hreq Htruthy Hrevs Hobj Hno.
  unfold GerritService.fetch_patchset_diff, bind, lift.
  rewrite Hreq, Htruthy. cbn [negb]. rewrite Hrevs. cbn [py_items].
  destruct (scan_base_target_objects items base_patchset target_patchset
              Hobj None None) as [base [target Hscan]].
  rewrite Hscan.
  destruct (scan_base_target_found _ _ _ _ _ _ _ Hscan) as [Hbase Htarget].
  assert (Hfalsy : (negb (truthy_opt base) || negb (truthy_opt target))%bool
                   = true).
  { destruct Hno as [Hno | Hno].
    - destruct Hbase as [-> | [rev [info [num [_ [Hin [Hnum Hstr]]]]]]];
        [reflexivity |].
      exfalso. exact (no_match_not_found _ _ _ _ _ Hno Hin Hnum Hstr).
    - destruct Htarget as [-> | [rev [info [num [_ [Hin [Hnum Hstr]]]]]]];
        [apply orb_true_r |].
      exfalso. exact (no_match_not_found _ _ _ _ _ Hno Hin Hnum Hstr). }
  rewrite Hfalsy.
  unfold GerritService.available_patchsets.
  rewrite (patchset_numbers_objects items Hobj). reflexivity.
Qed.

(** Change 500 has the patchsets 1 and 2: neither "3" nor the empty
    number is found, and one request was sent. *)
Lemma unresolved_patchsets_fail_witness :
  GerritService.fetch_patchset_diff (RT := Examples.online)
    Examples.ctx "500" "1" "3" None []
  = (Err (Exn ValueError "Patchset(s) not found. Available patchsets: 1, 2"),
     [request_of (RT := Examples.online) Examples.ctx
        "a/changes/500/detail?o=ALL_REVISIONS&o=ALL_FILES" "secret"])
  /\ fst (GerritService.fetch_patchset_diff (RT := Examples.online)
            Examples.ctx "500" "" "2" None [])
     = Err (Exn ValueError "Patchset(s) not found. Available patchsets: 1, 2").
Proof.
  assert (Hobj : Forall (fun kv : string * json => is_object (snd kv) = true)
                        Examples.revisions_500)
    by (repeat constructor).
  split.
  - refine (@unresolved_patchsets_fail Examples.online Examples.ctx
              "500" "1" "3" None [] _ Examples.change_500
              Examples.revisions_500 _ eq_refl eq_refl Hobj _).
    + vm_compute; reflexivity.
    + right. intros rev info [Hin | [Hin | []]]; inversion Hin; reflexivity.
  - rewrite (@unresolved_patchsets_fail Examples.online Examples.ctx
               "500" "" "2" None []
               [request_of (RT := Examples.online) Examples.ctx
                  "a/changes/500/detail?o=ALL_REVISIONS&o=ALL_FILES"
                  "secret"]
               Examples.change_500 Examples.revisions_500
               ltac:(vm_compute; reflexivity) eq_refl eq_refl Hobj).
    + reflexivity.
    + left. intros rev info [Hin | [Hin | []]]; inversion Hin; reflexivity.
Defined.

Section DiffFiles.

Context {RT : Runtime}.

Import GerritApi GerritService.

Lemma dict_set_fresh {A} (k : string) (v : A) (l : list (string * A)) :
  ~ In k (keys l) -> dict_set k v l = (l ++ [(k, v)])%list.
Proof.
  induction l as [| [k' v'] r IH]; simpl; intros Hfresh; [reflexivity |].
  destruct (String.eqb k' k) eqn:Heq.
  - apply String.eqb_eq in Heq. exfalso. apply Hfresh. left; exact Heq.
  - rewrite IH; [reflexivity |]. intros Hin. apply Hfresh. right; exact Hin.
Qed.

Lemma make_diff_entry_fields (fpath : string) (file_info diff_info : json)
      (entry : diff_entry) :
  make_diff_entry file_info diff_info = Ok entry ->
  diff_entry_of (fpath, file_info) (fpath, entry).
Proof.
  unfold make_diff_entry, diff_entry_of.
  destruct file_info; simpl; try discriminate.
  intros H. inversion H. cbn. repeat split.
Qed.

Lemma py_get_info_field (file_info : json) (k : string) (v : json) :
  py_get file_info k = Ok v -> info_field file_info k JNull = v.
Proof.
  destruct file_info; simpl; try discriminate.
  intros H. inversion H. reflexivity.
Qed.

(** On a dict the loop appends one value for each reported entry, in
    the order of the map. *)
Lemma changed_files_loop_appends (ctx : Context) (change_id : string)
      (target_revision base_revision : option string)
      (items : list (string * json)) :
  forall changed w out w',
    NoDup (keys items) ->
    (forall k, In k (keys changed) -> ~ In k (keys items)) ->
    changed_files_loop ctx change_id target_revision base_revision
                       items changed w = (Ok out, w') ->
    exists added,
      out = (changed ++ added)%list
      /\ Forall2 diff_entry_of (filter reported items) added.
Proof.
  induction items as [| [fpath file_info] rest IH];
    intros changed w out w' Hnodup Hfresh Hrun.
  - inversion Hrun; subst. exists []. split; [| constructor].
    symmetry; apply app_nil_r.
  - inversion Hnodup as [| ? ? Hnotin Hnodup']; subst.
    assert (Hfresh' : forall k, In k (keys changed) -> ~ In k (keys rest)).
    { intros k Hk Hin. apply (Hfresh k Hk). right; exact Hin. }
    cbn [changed_files_loop] in Hrun. cbn [filter]. unfold reported at 1.
    cbn [fst snd].
    destruct (String.eqb fpath COMMIT_MSG) eqn:Hcm; cbn [negb andb].
    + exact (IH _ _ _ _ Hnodup' Hfresh' Hrun).
    + unfold bind, lift in Hrun.
      destruct (py_get file_info "status") as [status | e] eqn:Hstatus;
        [| discriminate].
      rewrite (py_get_info_field _ _ _ Hstatus).
      destruct (not_same status) eqn:Hns.
      * destruct (make_gerrit_rest_request ctx _ w) as [[diff_info | e] w1];
          [| discriminate].
        destruct (make_diff_entry file_info diff_info) as [entry | e]
          eqn:Hentry; [| discriminate].
        rewrite dict_set_fresh in Hrun.
        2:{ intros Hin. apply (Hfresh fpath Hin). left; reflexivity. }
        assert (Hfresh'' : forall k,
                   In k (keys (changed ++ [(fpath, entry)])) ->
                   ~ In k (keys rest)).
        { intros k Hk Hin. unfold keys in Hk. rewrite map_app in Hk.
          apply in_app_or in Hk. destruct Hk as [Hk | [Hk | []]].
          - exact (Hfresh' k Hk Hin).
          - cbn in Hk. subst k. exact (Hnotin Hin). }
        destruct (IH _ _ _ _ Hnodup' Hfresh'' Hrun) as [added [Hout Hrel]].
        exists ((fpath, entry) :: added). split.
        -- rewrite Hout, <- app_assoc. reflexivity.
        -- constructor; [| exact Hrel].
           exact (make_diff_entry_fields fpath _ _ _ Hentry).
      * exact (IH _ _ _ _ Hnodup' Hfresh' Hrun).
Qed.

End DiffFiles.

(** X15.  The ["files"] of a result of [fetch_patchset_diff] are made
    from the file map [upstream] that the backend answered for the
    target revision relative to the base: when [upstream] is a dict,
    the result has one value for each entry that is not [/COMMIT_MSG]
    and whose status is not "SAME" (a missing status counts as changed),
    under the entry's path and in the order of the map, none left out.
    Each value has the entry's status, inserted and deleted lines and
    size delta, where a missing status is given as "MODIFIED" and a
    missing number as 0. *)
Theorem diff_files_follow_the_map {RT : Runtime} (ctx : Context)
        (change_id base_patchset target_patchset : string)
        (file_path : option string) (w w' : world)
        (r : GerritService.diff_result) :
  GerritService.fetch_patchset_diff ctx change_id base_patchset
                                    target_patchset file_path w
  = (Ok r, w') ->
  exists w1 w2 upstream,
    GerritApi.make_gerrit_rest_request ctx
      (GerritService.files_endpoint change_id
         (Some (GerritService.dr_target_revision r))
         (Some (GerritService.dr_base_revision r))) w1
    = (Ok (JObj upstream), w2)
    /\ (NoDup (keys upstream) ->
        Forall2 diff_entry_of (filter reported upstream)
                (GerritService.dr_files r)
        /\ keys (GerritService.dr_files r)
           = map fst (filter reported upstream)).
Proof.
  intros Hrun.
  destruct (fetch_patchset_diff_inv _ _ _ _ _ _ _ _ Hrun)
    as [change_info [items [w1 [upstream [w2 H]]]]].
  destruct H as [_ [_ [_ [_ [_ [_ [_ [Hfiles Hloop]]]]]]]].
  exists w1, w2, upstream. split; [exact Hfiles |].
  intros Hnodup.
  assert (Hfresh : forall k,
             In k (keys (@nil (string * GerritService.diff_entry))) ->
             ~ In k (keys upstream)) by (intros k []).
  destruct (changed_files_loop_appends _ _ _ _ _ _ _ _ _
              Hnodup Hfresh Hloop) as [added [Hout Hrel]].
  cbn [app] in Hout. subst added.
  split; [exact Hrel |].
  clear Hloop. unfold keys.
  induction Hrel as [| entry stored entries rest Hone _ IH];
    [reflexivity |].
  cbn [map]. rewrite IH.
  destruct Hone as [_ [Hpath _]]. rewrite Hpath. reflexivity.
Qed.

(** Change 500 from patchset 1 to 2: of the four upstream entries the
    pseudo-path and the SAME one are left out; [a.txt] has no status. *)
Lemma diff_files_follow_the_map_witness :
  exists r w',
    GerritService.fetch_patchset_diff (RT := Examples.online)
      Examples.ctx "500" "1" "2" None [] = (Ok r, w')
    /\ map (fun kv => (fst kv, GerritService.de_status (snd kv)))
           (GerritService.dr_files r)
       = [("a.txt", JStr "MODIFIED"); ("b c.txt", JStr "A")]
    /\ keys (GerritService.dr_files r)
       = map fst (filter reported Examples.files_1_2).
Proof.
  eexists. eexists.
  split; [vm_compute; reflexivity |].
  split; [reflexivity |].
  destruct (@diff_files_follow_the_map Examples.online Examples.ctx
              "500" "1" "2" None [] _ _ ltac:(vm_compute; reflexivity))
    as [w1 [w2 [upstream [Hfiles Hexact]]]].
  assert (upstream = Examples.files_1_2) as ->.
  { vm_compute in Hfiles. inversion Hfiles. reflexivity. }
  apply Hexact.
  repeat constructor; simpl; intuition discriminate.
Defined.

(** ** [get_repository_path_from_change]: formats, failures, projects *)

Section CloneUrlMore.

Context {RT : Runtime}.

Import GerritService.

Lemma append_assoc (a b c : string) : (a ++ b) ++ c = a ++ b ++ c.
Proof.
  induction a as [| x a IH]; cbn; [reflexivity |]. rewrite IH. reflexivity.
Qed.

Lemma split_app_sep (c : ascii) (a b : string) :
  Py.split c (a ++ String c b) = (Py.split c a ++ Py.split c b)%list.
Proof.
  induction a as [| x a IH]; cbn [String.append Py.split app].
  - rewrite Ascii.eqb_refl. reflexivity.
  - destruct (Ascii.eqb x c).
    + rewrite IH. reflexivity.
    + rewrite IH.
      destruct (Py.split c a) as [| p ps] eqn:Hsplit.
      * exfalso. exact (split_nonempty c a Hsplit).
      * reflexivity.
Qed.

Lemma join_cons (sep x y : string) (l : list string) :
  Py.join sep (x :: y :: l) = x ++ sep ++ Py.join sep (y :: l).
Proof. reflexivity. Qed.

Lemma join_split (c : ascii) (s : string) :
  Py.join (String c EmptyString) (Py.split c s) = s.
Proof.
  induction s as [| x s IH]; [reflexivity |].
  cbn [Py.split].
  destruct (Py.split c s) as [| p ps] eqn:Hsplit;
    [exfalso; exact (split_nonempty c s Hsplit) |].
  destruct (Ascii.eqb x c) eqn:Hx.
  - apply Ascii.eqb_eq in Hx. subst x.
    rewrite join_cons, IH. reflexivity.
  - destruct ps as [| q ps].
    + cbn in IH. subst p. reflexivity.
    + rewrite join_cons in IH. rewrite join_cons.
      cbn [String.append] in IH |- *. rewrite IH. reflexivity.
Qed.

Lemma rstrip_app (c : ascii) (a b : string) :
  Py.rstrip c b <> "" -> Py.rstrip c (a ++ b) = a ++ Py.rstrip c b.
Proof.
  intros Hne. induction a as [| x a IH]; [reflexivity |].
  cbn [String.append Py.rstrip]. rewrite IH.
  destruct (a ++ Py.rstrip c b) eqn:Happ; [| reflexivity].
  exfalso. destruct a; cbn in Happ; [contradiction | discriminate].
Qed.

Lemma index_app_here (x : string) (a b : list string) :
  Py.mem x a = false ->
  Py.index x (a ++ x :: b) = Some (length a).
Proof.
  induction a as [| y a IH]; cbn [app Py.index length].
  - intros _. rewrite String.eqb_refl. reflexivity.
  - unfold Py.mem. cbn [existsb]. intros Hmem.
    apply orb_false_iff in Hmem. destruct Hmem as [Hxy Hrest].
    rewrite String.eqb_sym, Hxy.
    unfold Py.mem in IH. rewrite (IH Hrest). reflexivity.
Qed.

(** The segments of a path of the shape [/c/<project>/+/<rest>]. *)
Lemma change_path_parts (project rest : string) :
  Py.rstrip "/" rest <> "" ->
  Py.split "/" (Py.strip "/" ("/c/" ++ project ++ "/+/" ++ rest))
  = ("c" :: Py.split "/" project
         ++ "+" :: Py.split "/" (Py.rstrip "/" rest))%list.
Proof.
  intros Hrest. unfold Py.strip.
  change (Py.lstrip "/" ("/c/" ++ project ++ "/+/" ++ rest))
    with ("c/" ++ project ++ "/+/" ++ rest).
  replace ("c/" ++ project ++ "/+/" ++ rest)
    with (("c/" ++ project ++ "/+/") ++ rest).
  2:{ cbn. f_equal. f_equal. apply append_assoc. }
  rewrite (rstrip_app "/" _ rest Hrest).
  replace (("c/" ++ project ++ "/+/") ++ Py.rstrip "/" rest)
    with ("c" ++ String "/" (project
                             ++ String "/" ("+" ++ String "/"
                                              (Py.rstrip "/" rest)))).
  2:{ cbn. f_equal. f_equal. symmetry. apply append_assoc. }
  rewrite !split_app_sep. reflexivity.
Qed.

End CloneUrlMore.

Section CloneUrlCases.

Context {RT : Runtime}.

Import GerritService.

Lemma index_some_lt (x : string) (l : list string) (k : nat) :
  Py.index x l = Some k -> (k < length l)%nat.
Proof.
  revert k. induction l as [| y r IH]; cbn; intros k; [discriminate |].
  destruct (String.eqb y x).
  - intros H. inversion H. lia.
  - destruct (Py.index x r) as [k' |]; cbn; [| discriminate].
    intros H. inversion H. specialize (IH k' eq_refl). lia.
Qed.

(** An index above 1 is the index of a [+] that was found. *)
Lemma plus_index_above (path_parts : list string) :
  (1 <? plus_index path_parts)%Z = true ->
  exists k, Py.index "+" path_parts = Some k
            /\ plus_index path_parts = Z.of_nat k /\ (1 < k)%nat.
Proof.
  unfold plus_index. intros H.
  destruct (Py.mem "+" path_parts); [| discriminate].
  destruct (Py.index "+" path_parts) as [k |]; [| discriminate].
  exists k. apply Z.ltb_lt in H. repeat split; lia.
Qed.

End CloneUrlCases.

(** X16.  With any clone URL type other than "ssh" (the default "http",
    but also "https", "SSH" or the empty string), a change URL whose
    first [+] segment is at a position above 1 and is followed by a
    segment gives [{scheme}://{user@}{host}/a/{project}.git], where the
    scheme is that of the change URL, not the clone URL type; no request
    is sent. *)
Theorem clone_url_http {RT : Runtime} (ctx : Context)
        (change_url clone_url_type : string) (parsed : ParseResult)
        (k : nat) (w : world) :
  urlparse change_url = Ok parsed ->
  Py.index "+" (Py.split "/" (Py.strip "/" (path parsed))) = Some k ->
  (1 < k)%nat ->
  (k + 1 < length (Py.split "/" (Py.strip "/" (path parsed))))%nat ->
  clone_url_type <> "ssh" ->
  GerritService.get_repository_path_from_change ctx change_url
                                                clone_url_type w
  = (Ok (scheme parsed ++ "://"
         ++ GerritService.user_prefix (GerritService.acting_user ctx)
         ++ str_opt (hostname parsed) ++ "/a/"
         ++ Py.join "/" (Py.slice 1 k
                           (Py.split "/" (Py.strip "/" (path parsed))))
         ++ ".git"), w).
Proof.
  intros Hparse Hindex Hk Hlen Htype.
  unfold GerritService.get_repository_path_from_change, try_except.
  rewrite (derive_clone_url_direct ctx change_url clone_url_type parsed k w
             Hparse Hindex Hk Hlen).
  unfold GerritService.full_clone_url.
  apply String.eqb_neq in Htype. rewrite Htype. reflexivity.
Qed.

(** An https change URL, asked for "http" and for "SSH". *)
Lemma clone_url_http_witness :
  GerritService.get_repository_path_from_change (RT := Examples.online)
    Examples.ctx "https://review.example.org/c/platform/tools/+/42" "http" []
  = (Ok "https://alice@review.example.org/a/platform/tools.git", [])
  /\ GerritService.get_repository_path_from_change (RT := Examples.online)
       Examples.ctx "https://review.example.org/c/platform/tools/+/42"
       "SSH" []
     = (Ok "https://alice@review.example.org/a/platform/tools.git", []).
Proof.
  split.
  - refine (@clone_url_http Examples.online Examples.ctx
              "https://review.example.org/c/platform/tools/+/42" "http"
              {| scheme := "https"; hostname := Some "review.example.org";
                 path := "/c/platform/tools/+/42" |}
              3%nat [] eq_refl eq_refl _ _ _);
      [lia | simpl; lia | discriminate].
  - refine (@clone_url_http Examples.online Examples.ctx
              "https://review.example.org/c/platform/tools/+/42" "SSH"
              {| scheme := "https"; hostname := Some "review.example.org";
                 path := "/c/platform/tools/+/42" |}
              3%nat [] eq_refl eq_refl _ _ _);
      [lia | simpl; lia | discriminate].
Defined.

(** X17.  [get_repository_path_from_change] fails in three ways only,
    and always with a [ValueError] whose message is "Failed to extract
    repository path: " followed by the message of the cause: [urlparse]
    raised; or the first [+] segment is at a position above 1 and is the
    last segment, so that reading the segment after it raises
    [IndexError]; or the [+] is missing or at a position of at most 1 and
    the lookup of the change named by the last segment failed.  In the
    first two cases nothing was requested. *)
Theorem clone_url_failures {RT : Runtime} (ctx : Context)
        (change_url clone_url_type : string) (w w' : world) (e : exn) :
  GerritService.get_repository_path_from_change ctx change_url
                                                clone_url_type w
  = (Err e, w') ->
  exists cause,
    e = Exn ValueError ("Failed to extract repository path: "
                        ++ exn_msg cause)
    /\ ((urlparse change_url = Err cause /\ w' = w)
        \/ (exists parsed k,
              urlparse change_url = Ok parsed
              /\ Py.index "+" (Py.split "/" (Py.strip "/" (path parsed)))
                 = Some k
              /\ (1 < k)%nat
              /\ length (Py.split "/" (Py.strip "/" (path parsed)))
                 = (k + 1)%nat
              /\ cause = Exn IndexError "list index out of range"
              /\ w' = w)
        \/ (exists parsed change_id,
              urlparse change_url = Ok parsed
              /\ (GerritService.plus_index
                    (Py.split "/" (Py.strip "/" (path parsed))) <= 1)%Z
              /\ Py.last_item (Py.split "/" (Py.strip "/" (path parsed)))
                 = Some change_id
              /\ GerritService.fetch_gerrit_change ctx change_id None w
                 = (Err cause, w'))).
Proof.
  unfold GerritService.get_repository_path_from_change, try_except.
  destruct (urlparse change_url) as [parsed | cause] eqn:Hparse.
  - destruct (1 <? GerritService.plus_index
                     (Py.split "/" (Py.strip "/" (path parsed))))%Z
      eqn:Hgt.
    + destruct (plus_index_above _ Hgt) as [k [Hindex [Hplus Hk]]].
      unfold GerritService.derive_clone_url, bind, lift, raise.
      rewrite Hparse, Hgt, Hplus. unfold GerritService.list_getitem.
      replace (Z.to_nat (Z.of_nat k + 1)) with (k + 1)%nat by lia.
      destruct (nth_error (Py.split "/" (Py.strip "/" (path parsed)))
                          (k + 1)) as [segment |] eqn:Hnth.
      * cbn. discriminate.
      * cbn. intros H. inversion H; subst.
        exists (Exn IndexError "list index out of range").
        split; [reflexivity |]. right; left.
        exists parsed, k.
        apply nth_error_None in Hnth.
        pose proof (index_some_lt _ _ _ Hindex) as Hlt.
        repeat split; try assumption; try reflexivity. lia.
    + assert (Hle : (GerritService.plus_index
                       (Py.split "/" (Py.strip "/" (path parsed))) <= 1)%Z)
        by (apply Z.ltb_ge; exact Hgt).
      destruct (derive_clone_url_lookup ctx change_url clone_url_type
                  parsed w Hparse Hle) as [change_id [Hlast Hrun]].
      rewrite Hrun.
      destruct (GerritService.fetch_gerrit_change ctx change_id None w)
        as [[change | cause] w1] eqn:Hfetch; [discriminate |].
      unfold raise. intros H. inversion H; subst.
      exists cause. split; [reflexivity |]. right; right.
      exists parsed, change_id. repeat split; assumption.
  - unfold GerritService.derive_clone_url, bind, lift, raise.
    rewrite Hparse. intros H. inversion H; subst.
    exists cause. split; [reflexivity |]. left. split; reflexivity.
Qed.

(** A change URL that ends with the [+] segment. *)
Lemma clone_url_failures_witness :
  exists cause,
    fst (GerritService.get_repository_path_from_change
           (RT := Examples.online) Examples.ctx "http://host/c/proj/+"
           "http" [])
    = Err (Exn ValueError ("Failed to extract repository path: "
                           ++ exn_msg cause)).
Proof.
  destruct (@clone_url_failures Examples.online Examples.ctx
              "http://host/c/proj/+" "http" [] []
              (Exn ValueError
                   "Failed to extract repository path: list index out of range")
              eq_refl) as [cause [Hwrapped _]].
  exists cause. cbn [fst]. rewrite <- Hwrapped. reflexivity.
Defined.

(** X18.  The project comes back as it was written.  For a change URL
    whose path is [/c/<project>/+/<rest>], where no segment of the
    project is [+] and [rest] holds more than slashes, the clone URL is
    built from exactly [<project>], nested segments, empty segments and
    all, whatever follows the [+] segment. *)
Theorem clone_url_keeps_project {RT : Runtime} (ctx : Context)
        (change_url clone_url_type project rest : string)
        (parsed : ParseResult) (w : world) :
  urlparse change_url = Ok parsed ->
  path parsed = "/c/" ++ project ++ "/+/" ++ rest ->
  Py.mem "+" (Py.split "/" project) = false ->
  Py.rstrip "/" rest <> "" ->
  GerritService.get_repository_path_from_change ctx change_url
                                                clone_url_type w
  = (Ok (GerritService.full_clone_url clone_url_type (scheme parsed)
           (hostname parsed) (GerritService.acting_user ctx) project), w).
Proof.
  intros Hparse Hpath Hplus Hrest.
  pose proof (change_path_parts project rest Hrest) as Hparts.
  rewrite <- Hpath in Hparts.
  assert (Hindex : Py.index "+" (Py.split "/" (Py.strip "/" (path parsed)))
                   = Some (S (length (Py.split "/" project)))).
  { rewrite Hparts. cbn [Py.index]. cbn [String.eqb Ascii.eqb Bool.eqb].
    rewrite (index_app_here "+" _ _ Hplus). reflexivity. }
  assert (Hpos : (0 < length (Py.split "/" project))%nat).
  { destruct (Py.split "/" project) eqn:Hsplit;
      [exfalso; exact (split_nonempty _ _ Hsplit) | cbn; lia]. }
  assert (Hrest_pos : (0 < length (Py.split "/" (Py.rstrip "/" rest)))%nat).
  { destruct (Py.split "/" (Py.rstrip "/" rest)) eqn:Hsplit;
      [exfalso; exact (split_nonempty _ _ Hsplit) | cbn; lia]. }
  unfold GerritService.get_repository_path_from_change, try_except.
  rewrite (derive_clone_url_direct ctx change_url clone_url_type parsed
             (S (length (Py.split "/" project))) w Hparse Hindex).
  - rewrite Hparts. unfold Py.slice.
    replace (S (length (Py.split "/" project)) - 1)%nat
      with (length (Py.split "/" project) + 0)%nat by lia.
    cbn [skipn]. rewrite firstn_app_2. cbn [firstn].
    rewrite app_nil_r, join_split. reflexivity.
  - lia.
  - rewrite Hparts. cbn [length]. rewrite length_app. cbn [length]. lia.
Qed.

(** A nested project, with a patchset number after the change number. *)
Lemma clone_url_keeps_project_witness :
  GerritService.get_repository_path_from_change (RT := Examples.online)
    Examples.ctx "https://review.example.org/c/platform/build/tools/+/42/3/"
    "ssh" []
  = (Ok "ssh://alice@review.example.org:29418/platform/build/tools.git", []).
Proof.
  refine (@clone_url_keeps_project Examples.online Examples.ctx
            "https://review.example.org/c/platform/build/tools/+/42/3/"
            "ssh" "platform/build/tools" "42/3/"
            {| scheme := "https"; hostname := Some "review.example.org";
               path := "/c/platform/build/tools/+/42/3/" |}
            [] eq_refl eq_refl eq_refl _).
  discriminate.
Defined.

(** ** Session start *)

Section SessionStart.

Context {RT : Runtime}.

Import Session.

Lemma endswith_char_app (c : ascii) (s : string) :
  Py.endswith_char c (s ++ String c EmptyString) = true.
Proof.
  induction s as [| a s IH]; cbn.
  - apply Ascii.eqb_refl.
  - destruct (s ++ String c EmptyString) eqn:Happ; [| exact IH].
    destruct s; discriminate.
Qed.

Lemma drop_last_app (c : ascii) (s : string) :
  Py.drop_last (s ++ String c EmptyString) = s.
Proof.
  induction s as [| a s IH]; cbn; [reflexivity |].
  destruct (s ++ String c EmptyString) eqn:Happ.
  - destruct s; discriminate.
  - rewrite IH. reflexivity.
Qed.

(** A string that ends with [c] is what [s[:-1]] leaves, followed by [c]. *)
Lemma endswith_char_inv (c : ascii) (s : string) :
  Py.endswith_char c s = true ->
  s = Py.drop_last s ++ String c EmptyString.
Proof.
  induction s as [| a s IH]; cbn; [discriminate |].
  destruct s as [| b s].
  - intros H. apply Ascii.eqb_eq in H. subst. reflexivity.
  - intros H. cbn [String.append]. f_equal. exact (IH H).
Qed.

Lemma make_context_ok (h u p : string) :
  h <> "" -> u <> "" -> Py.endswith_char "/" h = false ->
  make_context h u p
  = Ok {| host := h; user := u; http_password := Some p |}.
Proof.
  intros Hh Hu Hend. unfold make_context.
  rewrite Hend, andb_false_r.
  apply String.eqb_neq in Hh, Hu. rewrite Hh, Hu. reflexivity.
Qed.

Lemma make_context_slash (h u p : string) :
  make_context (h ++ "/") u p
  = if (String.eqb h "" || String.eqb u "")%bool then Err missing_variables
    else Ok {| host := h; user := u; http_password := Some p |}.
Proof.
  unfold make_context.
  rewrite endswith_char_app, drop_last_app.
  assert (Hne : String.eqb (h ++ "/") "" = false)
    by (destruct h; reflexivity).
  rewrite Hne. cbn [negb andb].
  destruct (String.eqb h ""), (String.eqb u ""); reflexivity.
Qed.

End SessionStart.

(** X19.  The session starts exactly when a host and a user are set.
    With [GERRIT_HOST] unset, empty or just "/", or [GERRIT_USER] unset or
    empty, [gerrit_lifespan] raises the missing-variables error.
    Otherwise it yields a context with that user, the password as read
    (the empty string when unset) and the host without one trailing
    slash, which is not empty.  The lifespan of [transport/rest.py] does
    the same, and a session that starts has a configuration that
    [is_gerrit_auth_configured] accepts. *)
Theorem lifespan_outcome {RT : Runtime} :
  let h := Session.getenv_default "GERRIT_HOST" "" in
  let u := Session.getenv_default "GERRIT_USER" "" in
  let p := Session.getenv_default "GERRIT_HTTP_PASSWORD" "" in
  (h = "" \/ h = "/" \/ u = "" ->
   Session.gerrit_lifespan = Err Session.missing_variables)
  /\ (h <> "" -> h <> "/" -> u <> "" ->
      exists h',
        Session.gerrit_lifespan
        = Ok {| host := h'; user := u; http_password := Some p |}
        /\ h' <> ""
        /\ ((Py.endswith_char "/" h = false /\ h' = h)
            \/ (h = h' ++ "/" /\ h' = Py.drop_last h)))
  /\ Session.rest_gerrit_lifespan = Session.gerrit_lifespan
  /\ (forall g, Session.gerrit_lifespan = Ok g ->
                Session.is_gerrit_auth_configured Session.get_gerrit_config
                = true).
Proof.
  intros h u p.
  assert (Hlifespan : Session.gerrit_lifespan = Session.make_context h u p)
    by reflexivity.
  split; [| split; [| split]].
  - rewrite Hlifespan.
    intros [Hh | [Hh | Hu]].
    + rewrite Hh. unfold Session.make_context. reflexivity.
    + rewrite Hh. unfold Session.make_context. reflexivity.
    + rewrite Hu. unfold Session.make_context.
      rewrite andb_false_r. reflexivity.
  - rewrite Hlifespan. intros Hh Hslash Hu.
    destruct (Py.endswith_char "/" h) eqn:Hend.
    + pose proof (endswith_char_inv _ _ Hend) as Hsplit.
      exists (Py.drop_last h).
      assert (Hrest : Py.drop_last h <> "").
      { intros Hempty. rewrite Hempty in Hsplit. exact (Hslash Hsplit). }
      rewrite Hsplit at 1. rewrite make_context_slash.
      apply String.eqb_neq in Hrest. rewrite Hrest.
      apply String.eqb_neq in Hu. rewrite Hu. cbn [orb].
      apply String.eqb_neq in Hrest.
      split; [reflexivity | split; [exact Hrest | right]].
      split; [exact Hsplit | reflexivity].
    + exists h. rewrite (make_context_ok h u p Hh Hu Hend).
      split; [reflexivity | split; [exact Hh | left]].
      split; reflexivity.
  - reflexivity.
  - intros g. rewrite Hlifespan.
    unfold Session.is_gerrit_auth_configured, Session.get_gerrit_config.
    cbn [Session.GERRIT_HOST Session.GERRIT_USER]. fold h u.
    unfold Session.make_context.
    destruct (String.eqb h "") eqn:Hh.
    + apply String.eqb_eq in Hh. rewrite Hh. cbn. discriminate.
    + destruct (String.eqb u "") eqn:Hu; [| reflexivity].
      rewrite andb_false_r. cbn. discriminate.
Qed.

(** A process started with GERRIT_HOST=https://host/ and no password, one
    with GERRIT_HOST=/ and one without a user. *)
Lemma lifespan_outcome_witness :
  Session.gerrit_lifespan
    (RT := Examples.session (Some "https://host/") (Some "alice") None)
  = Ok {| host := "https://host"; user := "alice";
          http_password := Some "" |}
  /\ Session.gerrit_lifespan
       (RT := Examples.session (Some "/") (Some "alice") (Some "secret"))
     = Err Session.missing_variables
  /\ Session.gerrit_lifespan
       (RT := Examples.session (Some "host") None (Some "secret"))
     = Err Session.missing_variables.
Proof.
  split; [| split].
  - destruct (proj1 (proj2 (@lifespan_outcome
                              (Examples.session (Some "https://host/")
                                                (Some "alice") None))))
      as [h' [Hrun [_ Hhost]]]; try discriminate.
    rewrite Hrun.
    destruct Hhost as [[Hend _] | [_ ->]]; [discriminate | reflexivity].
  - apply (proj1 (@lifespan_outcome
                    (Examples.session (Some "/") (Some "alice")
                                      (Some "secret")))).
    right; left; reflexivity.
  - apply (proj1 (@lifespan_outcome
                    (Examples.session (Some "host") None (Some "secret")))).
    right; right; reflexivity.
Defined.

(** X20.  One trailing slash of the host makes no difference, a second
    one does.  For a non-empty host [h] that does not end with a slash,
    lines 46-59 build the same context from [h] and from [h/], so that
    both sessions request the same URLs; from [h//] they build a context
    whose host is [h/], and the URLs requested with it have two slashes
    before the path. *)
Theorem trailing_slash_is_dropped_once (h u p : string) :
  h <> "" ->
  u <> "" ->
  Py.endswith_char "/" h = false ->
  Session.make_context (h ++ "/") u p = Session.make_context h u p
  /\ Session.make_context h u p
     = Ok {| host := h; user := u; http_password := Some p |}
  /\ Session.make_context (h ++ "//") u p
     = Ok {| host := h ++ "/"; user := u; http_password := Some p |}
  /\ ((Py.startswith "http://" h || Py.startswith "https://" h) = true ->
      forall endpoint,
        GerritApi.request_url
          {| host := h ++ "/"; user := u; http_password := Some p |}
          ("a/" ++ endpoint)
        = h ++ "//a/" ++ endpoint).
Proof.
  intros Hh Hu Hend.
  assert (Hplain : Session.make_context h u p
                   = Ok {| host := h; user := u; http_password := Some p |})
    by exact (make_context_ok h u p Hh Hu Hend).
  split; [| split; [exact Hplain | split]].
  - rewrite Hplain, make_context_slash.
    apply String.eqb_neq in Hh, Hu. rewrite Hh, Hu. reflexivity.
  - replace (h ++ "//") with ((h ++ "/") ++ "/")
      by (rewrite append_assoc; reflexivity).
    rewrite make_context_slash.
    assert (Hne : String.eqb (h ++ "/") "" = false)
      by (destruct h; reflexivity).
    apply String.eqb_neq in Hu. rewrite Hne, Hu. reflexivity.
  - intros Hscheme endpoint.
    unfold GerritApi.request_url. cbn [host].
    assert (Hscheme' : (Py.startswith "http://" (h ++ "/")
                        || Py.startswith "https://" (h ++ "/"))%bool = true).
    { apply orb_true_iff in Hscheme. apply orb_true_iff.
      destruct Hscheme as [H | H]; [left | right];
        exact (startswith_app _ _ _ H). }
    rewrite Hscheme'.
    change (Py.startswith "a/" ("a/" ++ endpoint)) with true. cbn iota.
    rewrite append_assoc. reflexivity.
Qed.

(** GERRIT_HOST=https://host/ and GERRIT_HOST=https://host start the same
    session; GERRIT_HOST=https://host// gives URLs with a double slash. *)
Lemma trailing_slash_is_dropped_once_witness :
  Session.make_context "https://host/" "alice" "pw"
  = Session.make_context "https://host" "alice" "pw"
  /\ GerritApi.request_url
       {| host := "https://host/"; user := "alice";
          http_password := Some "pw" |} "a/changes/1"
     = "https://host//a/changes/1".
Proof.
  destruct (trailing_slash_is_dropped_once "https://host" "alice" "pw")
    as [Hsame [_ [_ Hurl]]]; try discriminate; try reflexivity.
  split; [exact Hsame |].
  exact (Hurl eq_refl "changes/1").
Defined.

(** X21.  A missing password does not stop the session from starting,
    it makes every request fail.  When [GERRIT_HTTP_PASSWORD] is unset or
    empty and the lifespan yields a context, every call of
    [make_gerrit_rest_request] in that session raises "HTTP password not
    set" without sending anything, and so do the two fetch operations. *)
Theorem session_without_password {RT : Runtime} (g : GerritContext) :
  Session.getenv_default "GERRIT_HTTP_PASSWORD" "" = "" ->
  Session.gerrit_lifespan = Ok g ->
  forall ctx w,
    lifespan_context ctx = g ->
    (forall endpoint,
        GerritApi.make_gerrit_rest_request ctx endpoint w
        = (Err GerritApi.password_not_set, w))
    /\ (forall change_id patchset_number,
           GerritService.fetch_gerrit_change ctx change_id patchset_number w
           = (Err GerritApi.password_not_set, w))
    /\ (forall change_id base_patchset target_patchset file_path,
           GerritService.fetch_patchset_diff ctx change_id base_patchset
                                             target_patchset file_path w
           = (Err GerritApi.password_not_set, w)).
Proof.
  intros Henv Hrun ctx w Hctx.
  assert (Hpw : truthy_opt (http_password (lifespan_context ctx)) = false).
  { rewrite Hctx.
    unfold Session.gerrit_lifespan, Session.make_context,
      Session.get_gerrit_config in Hrun.
    cbn [Session.GERRIT_HOST Session.GERRIT_USER
         Session.GERRIT_HTTP_PASSWORD] in Hrun.
    rewrite Henv in Hrun.
    match type of Hrun with
    | (if ?c then _ else _) = _ => destruct c; [discriminate |]
    end.
    inversion Hrun. reflexivity. }
  repeat split.
  - intros endpoint. exact (make_request_no_password ctx endpoint w Hpw).
  - intros change_id patchset_number.
    unfold GerritService.fetch_gerrit_change, bind.
    rewrite (make_request_no_password ctx _ w Hpw). reflexivity.
  - intros change_id base_patchset target_patchset file_path.
    unfold GerritService.fetch_patchset_diff, bind.
    rewrite (make_request_no_password ctx _ w Hpw). reflexivity.
Qed.

(** A process with host and user but no password. *)
Lemma session_without_password_witness :
  Session.gerrit_lifespan
    (RT := Examples.session (Some "https://host") (Some "alice") None)
  = Ok {| host := "https://host"; user := "alice";
          http_password := Some "" |}
  /\ GerritService.fetch_gerrit_change
       (RT := Examples.session (Some "https://host") (Some "alice") None)
       {| lifespan_context :=
            {| host := "https://host"; user := "alice";
               http_password := Some "" |};
          user_attr := None |} "500" None []
     = (Err GerritApi.password_not_set, []).
Proof.
  split; [reflexivity |].
  apply (@session_without_password
           (Examples.session (Some "https://host") (Some "alice") None)
           {| host := "https://host"; user := "alice";
              http_password := Some "" |} eq_refl eq_refl
           {| lifespan_context :=
                {| host := "https://host"; user := "alice";
                   http_password := Some "" |};
              user_attr := None |} [] eq_refl).
Defined.

(** ** The requests a call sends *)

Section Requests.

Context {RT : Runtime}.

Import GerritApi GerritService.

(** A call that returns a value found a password in the context. *)
Lemma make_request_ok_password (ctx : Context) (endpoint : string)
      (w w' : world) (v : json) :
  make_gerrit_rest_request ctx endpoint w = (Ok v, w') ->
  exists password,
    http_password (lifespan_context ctx) = Some password /\ password <> "".
Proof.
  intros Hrun.
  destruct (truthy_opt (http_password (lifespan_context ctx))) eqn:Hpw.
  - exact (truthy_opt_inv _ Hpw).
  - rewrite (make_request_no_password ctx endpoint w Hpw) in Hrun.
    discriminate.
Qed.

(** Under [recording], a call of the request primitive appends the
    requests of [sent_by] to the record, whatever its outcome. *)
Lemma recording_request_log (ctx : Context) (endpoint : string)
      (w : @world RT) (log : list request) :
  snd (snd (make_gerrit_rest_request (RT := recording RT) ctx endpoint
                                     (w, log)))
  = (log ++ sent_by ctx endpoint)%list.
Proof.
  unfold make_gerrit_rest_request, sent_by, request_of, raise.
  destruct (http_password (lifespan_context ctx)) as [password |].
  - destruct (String.eqb password "").
    + cbn. symmetry; apply app_nil_r.
    + cbn.
      destruct (@requests_get RT _ w) as [[r | msg [status |] | e] w1];
        reflexivity.
  - cbn. symmetry; apply app_nil_r.
Qed.

(** Under [recording] a call gives what it gives without the record. *)
Lemma recording_request (ctx : Context) (endpoint : string)
      (w : @world RT) (log : list request) :
  fst (make_gerrit_rest_request (RT := recording RT) ctx endpoint (w, log))
  = fst (make_gerrit_rest_request (RT := RT) ctx endpoint w)
  /\ fst (snd (make_gerrit_rest_request (RT := recording RT) ctx endpoint
                                        (w, log)))
     = snd (make_gerrit_rest_request (RT := RT) ctx endpoint w).
Proof.
  unfold make_gerrit_rest_request, raise.
  destruct (http_password (lifespan_context ctx)) as [password |].
  - destruct (String.eqb password "").
    + split; reflexivity.
    + cbn.
      destruct (@requests_get RT _ w) as [[r | msg [status |] | e] w1];
        split; reflexivity.
  - split; reflexivity.
Qed.

Lemma sent_by_password (ctx : Context) (endpoint password : string) :
  http_password (lifespan_context ctx) = Some password ->
  password <> "" ->
  sent_by ctx endpoint = [request_of ctx endpoint password].
Proof.
  intros Hpw Hne. unfold sent_by. rewrite Hpw.
  apply String.eqb_neq in Hne. rewrite Hne. reflexivity.
Qed.

(** The loop of [fetch_gerrit_change] asks for the diff of each file
    other than the pseudo-path, in the order of the map. *)
Lemma process_files_log (ctx : Context) (change_id password : string)
      (target_revision : json) (items : list (string * json)) :
  http_password (lifespan_context ctx) = Some password ->
  password <> "" ->
  forall processed (w : @world RT) (log : list request) out
         (w' : @world RT) (log' : list request),
    process_files (RT := recording RT) ctx change_id target_revision items
                  processed (w, log)
    = (Ok out, (w', log')) ->
    log'
    = (log
       ++ map (fun p =>
                 request_of ctx
                   (diff_endpoint change_id (py_str target_revision) p "")
                   password)
              (real_files (keys items)))%list.
Proof.
  intros Hpw Hne.
  induction items as [| [file_path file_info] rest IH];
    intros processed w log out w' log' Hrun.
  - inversion Hrun; subst. symmetry; apply app_nil_r.
  - cbn [process_files] in Hrun.
    unfold real_files, keys. cbn [map filter fst].
    destruct (String.eqb file_path COMMIT_MSG) eqn:Hcm; cbn [negb].
    + exact (IH _ _ _ _ _ _ Hrun).
    + unfold bind, lift in Hrun.
      pose proof (recording_request_log ctx
                    ("a/changes/" ++ change_id ++ "/revisions/"
                     ++ py_str target_revision ++ "/files/"
                     ++ quote file_path ++ "/diff") w log) as Hlog.
      rewrite (sent_by_password _ _ _ Hpw Hne) in Hlog.
      destruct (make_gerrit_rest_request (RT := recording RT) ctx _ (w, log))
        as [[diff_info | e] [w1 log1]]; [| discriminate].
      cbn [snd] in Hlog.
      destruct (make_file_data file_path file_info diff_info)
        as [fd | e]; [| discriminate].
      rewrite (IH _ _ _ _ _ _ Hrun), Hlog, <- app_assoc.
      reflexivity.
Qed.

(** The loop of [fetch_patchset_diff] asks for the diff of each reported
    entry, in the order of the map, relative to the base. *)
Lemma changed_files_loop_log (ctx : Context) (change_id password : string)
      (target_revision base_revision : option string)
      (items : list (string * json)) :
  http_password (lifespan_context ctx) = Some password ->
  password <> "" ->
  forall changed (w : @world RT) (log : list request) out
         (w' : @world RT) (log' : list request),
    changed_files_loop (RT := recording RT) ctx change_id target_revision
                       base_revision items changed (w, log)
    = (Ok out, (w', log')) ->
    log'
    = (log
       ++ map (fun kv =>
                 request_of ctx
                   (diff_endpoint change_id (str_opt target_revision)
                                  (fst kv) (base_query base_revision))
                   password)
              (filter reported items))%list.
Proof.
  intros Hpw Hne.
  induction items as [| [fpath file_info] rest IH];
    intros changed w log out w' log' Hrun.
  - inversion Hrun; subst. symmetry; apply app_nil_r.
  - cbn [changed_files_loop] in Hrun. cbn [filter]. unfold reported at 1.
    cbn [fst snd].
    destruct (String.eqb fpath COMMIT_MSG) eqn:Hcm; cbn [negb andb].
    + exact (IH _ _ _ _ _ _ Hrun).
    + unfold bind, lift in Hrun.
      destruct (py_get file_info "status") as [status | e] eqn:Hstatus;
        [| discriminate].
      rewrite (py_get_info_field _ _ _ Hstatus).
      destruct (not_same status) eqn:Hns.
      * pose proof (recording_request_log ctx
                      ("a/changes/" ++ change_id ++ "/revisions/"
                       ++ str_opt target_revision ++ "/files/"
                       ++ quote fpath ++ "/diff"
                       ++ base_query base_revision) w log) as Hlog.
        rewrite (sent_by_password _ _ _ Hpw Hne) in Hlog.
        destruct (make_gerrit_rest_request (RT := recording RT) ctx _
                                           (w, log))
          as [[diff_info | e] [w1 log1]]; [| discriminate].
        cbn [snd] in Hlog.
        destruct (make_diff_entry file_info diff_info) as [entry | e];
          [| discriminate].
        rewrite (IH _ _ _ _ _ _ Hrun), Hlog, <- app_assoc.
        reflexivity.
      * exact (IH _ _ _ _ _ _ Hrun).
Qed.

End Requests.

(** X22.  A successful [fetch_gerrit_change] sends these requests and no
    others, in this order: one for the change detail, then one for the
    diff of each file of the patchset returned other than [/COMMIT_MSG],
    in the order of the file map, with the path URL-quoted; all carry
    the user and the password of the context. *)
Theorem change_requests {RT : Runtime} (ctx : Context) (change_id : string)
        (patchset_number : option string) (w w' : @world RT)
        (log log' : list request) (r : GerritService.change_result) :
  GerritService.fetch_gerrit_change (RT := recording RT) ctx change_id
                                    patchset_number (w, log)
  = (Ok r, (w', log')) ->
  exists password files,
    http_password (lifespan_context ctx) = Some password
    /\ password <> ""
    /\ py_get_default (GerritService.cr_patchset r) "files" (JObj [])
       = Ok (JObj files)
    /\ log'
       = (log
          ++ request_of ctx (GerritService.change_endpoint change_id) password
          :: map (fun p =>
                    request_of ctx
                      (diff_endpoint change_id
                                     (py_str (GerritService.cr_revision r))
                                     p "")
                      password)
                 (real_files (keys files)))%list.
Proof.
  intros Hrun.
  destruct (fetch_gerrit_change_inv (RT := recording RT) _ _ _ _ _ _ Hrun)
    as [revisions [files [[w1 log1] [Hreq [_ [_ [_ [_ [Hfiles Hloop]]]]]]]]].
  destruct (make_request_ok_password (RT := recording RT) _ _ _ _ _ Hreq)
    as [password [Hpw Hne]].
  exists password, files.
  split; [exact Hpw | split; [exact Hne | split; [exact Hfiles |]]].
  pose proof (recording_request_log ctx
                (GerritService.change_endpoint change_id) w log) as Hlog.
  rewrite Hreq in Hlog. cbn [snd] in Hlog.
  rewrite (sent_by_password _ _ _ Hpw Hne) in Hlog.
  rewrite (process_files_log _ _ _ _ _ Hpw Hne _ _ _ _ _ _ Hloop), Hlog,
    <- app_assoc.
  reflexivity.
Qed.

(** Change 500, current patchset: three requests, the last with the
    blank of [b c.txt] quoted. *)
Lemma change_requests_witness :
  exists r w',
    GerritService.fetch_gerrit_change (RT := recording Examples.online)
      Examples.ctx "500" None ([], []) = (Ok r, w')
    /\ map req_url (snd w')
       = ["https://host/a/changes/500/detail?o=CURRENT_REVISION&o=CURRENT_COMMIT&o=MESSAGES&o=DETAILED_LABELS&o=DETAILED_ACCOUNTS&o=ALL_REVISIONS&o=ALL_COMMITS&o=ALL_FILES&o=COMMIT_FOOTERS";
          "https://host/a/changes/500/revisions/r2/files/a.txt/diff";
          "https://host/a/changes/500/revisions/r2/files/b%20c.txt/diff"].
Proof.
  eexists. eexists.
  split; [vm_compute; reflexivity |].
  destruct (@change_requests Examples.online Examples.ctx "500" None
              [] _ [] _ _ ltac:(vm_compute; reflexivity))
    as [password [files [Hpw [_ [Hfiles Hlog]]]]].
  inversion Hpw; subst password.
  vm_compute in Hfiles. inversion Hfiles; subst files.
  cbn [snd]. rewrite Hlog. vm_compute. reflexivity.
Defined.

(** X23.  A successful [fetch_patchset_diff] sends these requests and no
    others, in this order: one for the change detail, one for the file
    map of the target revision relative to the base, then one for the
    diff, relative to the base, of each entry of the map answered that
    is not [/COMMIT_MSG] and whose status is not "SAME", with the path
    URL-quoted.  An entry with the status "SAME" costs no request. *)
Theorem diff_requests {RT : Runtime} (ctx : Context)
        (change_id base_patchset target_patchset : string)
        (file_path : option string) (w w' : @world RT)
        (log log' : list request) (r : GerritService.diff_result) :
  GerritService.fetch_patchset_diff (RT := recording RT) ctx change_id
                                    base_patchset target_patchset file_path
                                    (w, log)
  = (Ok r, (w', log')) ->
  exists password upstream w1 w2,
    http_password (lifespan_context ctx) = Some password
    /\ password <> ""
    /\ GerritApi.make_gerrit_rest_request (RT := RT) ctx
         (GerritService.files_endpoint change_id
            (Some (GerritService.dr_target_revision r))
            (Some (GerritService.dr_base_revision r))) w1
       = (Ok (JObj upstream), w2)
    /\ log'
       = (log
          ++ request_of ctx
               ("a/changes/" ++ change_id
                ++ "/detail?o=ALL_REVISIONS&o=ALL_FILES") password
          :: request_of ctx
               ("a/changes/" ++ change_id ++ "/revisions/"
                ++ GerritService.dr_target_revision r ++ "/files?base="
                ++ GerritService.dr_base_revision r) password
          :: map (fun kv =>
                    request_of ctx
                      (diff_endpoint change_id
                         (GerritService.dr_target_revision r) (fst kv)
                         ("?base=" ++ GerritService.dr_base_revision r))
                      password)
                 (filter reported upstream))%list.
Proof.
  intros Hrun.
  destruct (fetch_patchset_diff_inv (RT := recording RT) _ _ _ _ _ _ _ _ Hrun)
    as [change_info [items [[w1 log1] [upstream [[w2 log2] H]]]]].
  destruct H as [Hreq [_ [_ [Hbase [_ [_ [_ [Hfiles Hloop]]]]]]]].
  destruct (make_request_ok_password (RT := recording RT) _ _ _ _ _ Hreq)
    as [password [Hpw Hne]].
  exists password, upstream, w1, w2.
  split; [exact Hpw | split; [exact Hne | split]].
  - destruct (recording_request ctx
                (GerritService.files_endpoint change_id
                   (Some (GerritService.dr_target_revision r))
                   (Some (GerritService.dr_base_revision r))) w1 log1)
      as [Hres Hworld].
    rewrite Hfiles in Hres, Hworld. cbn [fst snd] in Hres, Hworld.
    destruct (GerritApi.make_gerrit_rest_request (RT := RT) ctx _ w1)
      as [res w2'].
    cbn [fst snd] in Hres, Hworld. subst. reflexivity.
  - assert (Hquery : GerritService.base_query
                       (Some (GerritService.dr_base_revision r))
                     = "?base=" ++ GerritService.dr_base_revision r).
    { unfold GerritService.base_query. cbn [truthy_opt str_opt].
      apply String.eqb_neq in Hbase. rewrite Hbase. reflexivity. }
    pose proof (recording_request_log ctx
                  ("a/changes/" ++ change_id
                   ++ "/detail?o=ALL_REVISIONS&o=ALL_FILES") w log) as Hlog1.
    rewrite Hreq in Hlog1. cbn [snd] in Hlog1.
    rewrite (sent_by_password _ _ _ Hpw Hne) in Hlog1.
    pose proof (recording_request_log ctx
                  (GerritService.files_endpoint change_id
                     (Some (GerritService.dr_target_revision r))
                     (Some (GerritService.dr_base_revision r))) w1 log1)
      as Hlog2.
    rewrite Hfiles in Hlog2. cbn [snd] in Hlog2.
    rewrite (sent_by_password _ _ _ Hpw Hne) in Hlog2.
    rewrite (changed_files_loop_log _ _ _ _ _ _ Hpw Hne _ _ _ _ _ _ Hloop).
    rewrite Hlog2, Hlog1, <- !app_assoc.
    unfold GerritService.files_endpoint. rewrite Hquery.
    cbn [str_opt app]. reflexivity.
Qed.

(** Change 500 from patchset 1 to 2: four requests; nothing is asked
    about [same.txt]. *)
Lemma diff_requests_witness :
  exists r w',
    GerritService.fetch_patchset_diff (RT := recording Examples.online)
      Examples.ctx "500" "1" "2" None ([], []) = (Ok r, w')
    /\ map req_url (snd w')
       = ["https://host/a/changes/500/detail?o=ALL_REVISIONS&o=ALL_FILES";
          "https://host/a/changes/500/revisions/r2/files?base=r1";
          "https://host/a/changes/500/revisions/r2/files/a.txt/diff?base=r1";
          "https://host/a/changes/500/revisions/r2/files/b%20c.txt/diff?base=r1"].
Proof.
  eexists. eexists.
  split; [vm_compute; reflexivity |].
  destruct (@diff_requests Examples.online Examples.ctx "500" "1" "2" None
              [] _ [] _ _ ltac:(vm_compute; reflexivity))
    as [password [upstream [w1 [w2 [Hpw [_ [Hfiles Hlog]]]]]]].
  inversion Hpw; subst password.
  cbn [snd]. rewrite Hlog. clear Hlog.
  assert (Hup : filter reported upstream
                = filter reported Examples.files_1_2).
  { unfold GerritApi.make_gerrit_rest_request in Hfiles.
    cbn in Hfiles.
    vm_compute in Hfiles. inversion Hfiles. reflexivity. }
  rewrite Hup. vm_compute. reflexivity.
Defined.
